(** * Household data package: the metadata assembler [make_json]

    A shallow embedding of [src/household/make_json.py].  The script builds
    three YAML texts by filling string templates ([str.format]) and
    concatenating them, parses the texts with [yaml.load], removes duplicate
    source entries through a [set], stitches the pieces into one dictionary,
    serialises it with [json.dumps] and writes it to [datapackage.json].

    Python values are modelled as follows.
    - [str]: [string]; a character is a code point below 256.
    - [dict] with string keys that is only read by key ([info_cols], [h],
      keyword arguments): [gmap string _].
    - [dict] whose order is observable (the parsed YAML mappings, which
      [json.dumps] prints in insertion order, and [data_sets], which the
      loop iterates): an association list.
    - exceptions: the [Raise] outcome of the [result] type.
    - [yaml.load] and [json.dumps] are library code; they are modelled for
      the fragment of YAML the templates are written in.  A text outside
      that fragment gives [Raise Unmodelled], never a made-up value. *)

From Stdlib Require Import Ascii String ZArith Lia.
From stdpp Require Import base list strings gmap.

#[local] Arguments String.append !_ _ /.
#[local] Open Scope stdpp_scope.

(** ** Python values and exceptions *)

(** The values [yaml.load] produces and [json.dumps] prints.  A float is kept
    as its literal (only literals that Python prints back unchanged are
    accepted by the loader).  A mapping keeps insertion order. *)
#[local] Unset Elimination Schemes.
Inductive yaml : Type :=
  | YNull
  | YBool (b : bool)
  | YInt (z : Z)
  | YFloat (lit : string)
  | YStr (s : string)
  | YSeq (l : list yaml)
  | YMap (l : list (yaml * yaml)).
#[local] Set Elimination Schemes.

Inductive exn : Type :=
  | KeyError (k : yaml)
  | IndexError
  | TypeError
  | AttributeError
  | ValueError
  | YAMLError
  | Unmodelled.

Inductive result (A : Type) : Type :=
  | Ok (a : A)
  | Raise (e : exn).
Arguments Ok {A} a.
Arguments Raise {A} e.

Definition bind {A B} (r : result A) (k : A -> result B) : result B :=
  match r with
  | Ok a => k a
  | Raise e => Raise e
  end.

Notation "x <<- r ;; k" := (bind r (fun x => k))
  (at level 100, r at next level, right associativity).

Definition is_ok {A} (r : result A) : bool :=
  match r with Ok _ => true | Raise _ => false end.

(** A [for] loop that threads a state and stops at the first exception. *)
Fixpoint foldM {A S} (f : S -> A -> result S) (l : list A) (s : S) : result S :=
  match l with
  | [] => Ok s
  | a :: l' => s' <<- f s a ;; foldM f l' s'
  end.

(** ** Characters and strings *)

Definition dq : string := String "034"%char "".
Definition sq : string := String "039"%char "".
Definition nl : string := String "010"%char "".
Definition ch_lf : ascii := "010"%char.
Definition ch_dq : ascii := "034"%char.
Definition ch_sq : ascii := "039"%char.
Definition ch_bs : ascii := "092"%char.

Definition ascii_eqb (a b : ascii) : bool := Ascii.eqb a b.

Fixpoint concat_str (l : list string) : string :=
  match l with
  | [] => ""
  | s :: l' => s +:+ concat_str l'
  end.

(** A triple-quoted template: the text starts with a line break and every
    line ends with one. *)
Definition block (lines : list string) : string :=
  nl +:+ concat_str (map (fun l => l +:+ nl) lines).

Fixpoint str_len (s : string) : nat :=
  match s with
  | "" => 0
  | String _ s' => S (str_len s')
  end.

Fixpoint str_forall (p : ascii -> bool) (s : string) : bool :=
  match s with
  | "" => true
  | String c s' => p c && str_forall p s'
  end.

Fixpoint str_rev_app (s acc : string) : string :=
  match s with
  | "" => acc
  | String c s' => str_rev_app s' (String c acc)
  end.
Definition str_rev (s : string) : string := str_rev_app s "".

Definition is_digit (c : ascii) : bool :=
  let n := nat_of_ascii c in (48 <=? n)%nat && (n <=? 57)%nat.
Definition is_lower (c : ascii) : bool :=
  let n := nat_of_ascii c in (97 <=? n)%nat && (n <=? 122)%nat.
Definition is_upper (c : ascii) : bool :=
  let n := nat_of_ascii c in (65 <=? n)%nat && (n <=? 90)%nat.
Definition is_word_char (c : ascii) : bool :=
  is_digit c || is_lower c || is_upper c || ascii_eqb c "_"%char.
Definition is_printable (c : ascii) : bool :=
  let n := nat_of_ascii c in (32 <=? n)%nat && (n <=? 126)%nat.

(** ** Dictionaries that keep insertion order *)

(** The integer a number compares equal to, if any: Python has
    [True == 1] and [1.0 == 1], and a dictionary or a set treats such keys
    as one. *)
Fixpoint digits_value (s : string) (acc : Z) : Z :=
  match s with
  | "" => acc
  | String c s' => digits_value s' (10 * acc + Z.of_nat (nat_of_ascii c - 48))
  end.

Fixpoint split_dot (s : string) : option (string * string) :=
  match s with
  | "" => None
  | String c s' =>
      if ascii_eqb c "." then Some ("", s')
      else match split_dot s' with
           | Some (a, b) => Some (String c a, b)
           | None => None
           end
  end.

Definition num_of (v : yaml) : option Z :=
  match v with
  | YBool b => Some (if b then 1 else 0)%Z
  | YInt z => Some z
  | YFloat lit =>
      match split_dot lit with
      | Some (a, "0") => Some (digits_value a 0)
      | _ => None
      end
  | _ => None
  end.

(** [x == y] on hashable values (the scalars). *)
Definition key_eqb (x y : yaml) : bool :=
  match x, y with
  | YStr a, YStr b => String.eqb a b
  | YNull, YNull => true
  | YFloat a, YFloat b => String.eqb a b
  | _, _ =>
      match num_of x, num_of y with
      | Some a, Some b => Z.eqb a b
      | _, _ => false
      end
  end.

Definition hashable (v : yaml) : bool :=
  match v with
  | YSeq _ | YMap _ => false
  | _ => true
  end.

(** [d[k]] read: the first (and, in a dictionary, only) entry with key [k]. *)
Fixpoint dict_get (d : list (yaml * yaml)) (k : yaml) : option yaml :=
  match d with
  | [] => None
  | (k', v) :: d' => if key_eqb k' k then Some v else dict_get d' k
  end.

(** [d[k] = v]: an existing key keeps its place, a new key goes last. *)
Fixpoint dict_set (d : list (yaml * yaml)) (k v : yaml) : list (yaml * yaml) :=
  match d with
  | [] => [(k, v)]
  | (k', v') :: d' =>
      if key_eqb k' k then (k', v) :: d' else (k', v') :: dict_set d' k v
  end.

(** [obj[k]] on a parsed YAML value. *)
Definition py_getitem (obj k : yaml) : result yaml :=
  match obj with
  | YMap d => match dict_get d k with
              | Some v => Ok v
              | None => Raise (KeyError k)
              end
  | _ => Raise TypeError
  end.

(** [obj[k] = v] on a parsed YAML value. *)
Definition py_setitem (obj k v : yaml) : result yaml :=
  match obj with
  | YMap d => Ok (YMap (dict_set d k v))
  | _ => Raise TypeError
  end.

(** ** [str.format] *)

(** Decimal digits of a number, for [str] and [json.dumps] on integers. *)
Definition digit_char (n : nat) : ascii := ascii_of_nat (48 + n).

Fixpoint pos_digits (fuel : nat) (n : N) (acc : string) : string :=
  match fuel with
  | O => acc
  | S fuel' =>
      let acc' := String (digit_char (N.to_nat (n mod 10))) acc in
      if (n <? 10)%N then acc' else pos_digits fuel' (n / 10)%N acc'
  end.

Definition Z_to_str (z : Z) : string :=
  let n := Z.abs_N z in
  let d := pos_digits (S (N.to_nat (N.log2 n))) n "" in
  if (z <? 0)%Z then String "-" d else d.

(** [format(v, '')] for the values a keyword argument can hold here. *)
Definition py_str (v : yaml) : result string :=
  match v with
  | YStr s => Ok s
  | YNull => Ok "None"
  | YBool true => Ok "True"
  | YBool false => Ok "False"
  | YInt z => Ok (Z_to_str z)
  | YFloat lit => Ok lit
  | YSeq _ | YMap _ => Raise Unmodelled
  end.

Inductive piece : Type :=
  | Lit (s : string)
  | Field (name : string).

(** Splits a format string into literal text and replacement fields.  Only
    plain [{name}] fields are modelled (the templates use nothing else). *)
Fixpoint parse_format (tpl : string) (lit : string) (name : option string)
  : result (list piece) :=
  match tpl with
  | "" =>
      match name with
      | None => Ok [Lit (str_rev lit)]
      | Some _ => Raise ValueError
      end
  | String c t =>
      match name with
      | None =>
          if ascii_eqb c "{" then
            ps <<- parse_format t "" (Some "") ;; Ok (Lit (str_rev lit) :: ps)
          else if ascii_eqb c "}" then Raise Unmodelled
          else parse_format t (String c lit) None
      | Some n =>
          if ascii_eqb c "}" then
            match n with
            | "" => Raise Unmodelled
            | _ => ps <<- parse_format t "" None ;; Ok (Field (str_rev n) :: ps)
            end
          else if is_word_char c then parse_format t lit (Some (String c n))
          else Raise Unmodelled
      end
  end.

Fixpoint fill (ps : list piece) (kw : gmap string yaml) : result string :=
  match ps with
  | [] => Ok ""
  | Lit s :: ps' => r <<- fill ps' kw ;; Ok (s +:+ r)
  | Field n :: ps' =>
      match kw !! n with
      | None => Raise (KeyError (YStr n))
      | Some v => s <<- py_str v ;; r <<- fill ps' kw ;; Ok (s +:+ r)
      end
  end.

(** [tpl.format] applied to the keyword arguments [kw]. *)
Definition format (tpl : string) (kw : gmap string yaml) : result string :=
  ps <<- parse_format tpl "" None ;; fill ps kw.

(** ** The YAML templates of the script *)

Definition metadata_head : string := block [
  "name: opsd_household_data";
  "";
  "title: Household Data";
  "";
  "description: Detailed household load and solar in minutely to hourly resolution";
  "";
  "long_description: This data package contains different kinds of timeseries";
  "    data relevant for power system modelling, namely electricity consumption ";
  "    (load) as well as solar power generation for several small businesses and ";
  "    private households, in a resolution up to single device consumptions.";
  "    The timeseries become available at different points in time depending on the";
  "    sources. The data has been downloaded from the sources, resampled and merged in";
  "    large CSV files with minutely to hourly resolution. Most measurements were done";
  "    initially in 3 minute intervals, to later on minutely intervals. To improve the";
  "    datas classifyability, additional 15- and 60-minute interval files are provided.";
  "    All data processing is conducted in python and pandas and has been documented in ";
  "    the Jupyter notebooks linked below.";
  "";
  "documentation:";
  "    https://github.com/isc-konstanz/household_data/blob/master/main.ipynb";
  "";
  "version: '{version}'";
  "";
  "last_changes: '{changes}'";
  "";
  "keywords:";
  "    - Open Power System Data";
  "    - CoSSMic";
  "    - household data";
  "    - time series";
  "    - power systems";
  "    - in-feed";
  "    - renewables";
  "    - solar";
  "    - power consumption";
  "";
  "geographical-scope: Southern Germany";
  "";
  "contributors:";
  "    - web: http://isc-konstanz.de/";
  "      name: Adrian Minde";
  "      email: adrian.minde@isc-konstanz.de"
].

Definition source_template : string := block [
  "- project: {project}";
  "  web: {web}";
  "  type: {type}"
].

Definition resource_template : string := block [
  "- path: household_data_{res_key}_singleindex.csv";
  "  format: csv";
  "  mediatype: text/csv";
  "  encoding: UTF8";
  "  schema: {res_key}";
  "  dialect: ";
  "      csvddfVersion: 1.0";
  "      delimiter: " +:+ dq +:+ "," +:+ dq;
  "      lineTerminator: " +:+ dq +:+ "\n" +:+ dq +:+ " ";
  "      header: true";
  "  alternative_formats:";
  "      - path: household_data_{res_key}_singleindex.csv";
  "        stacking: Singleindex";
  "        format: csv";
  "      - path: household_data.xlsx";
  "        stacking: Multiindex";
  "        format: xlsx";
  "      - path: household_data_{res_key}_multiindex.csv";
  "        stacking: Multiindex";
  "        format: csv";
  "      - path: household_data_{res_key}_stacked.csv";
  "        stacking: Stacked";
  "        format: csv"
].

Definition schemas_template : string := block [
  "{res_key}:";
  "    primaryKey: {utc}";
  "    missingValue: " +:+ dq +:+ dq;
  "    fields:";
  "      - name: {utc}";
  "        description: Start of timeperiod in Coordinated Universal Time";
  "        type: datetime";
  "        format: fmt:%Y-%m-%dT%H%M%SZ";
  "        opsd-contentfilter: true";
  "      - name: {cet}";
  "        description: Start of timeperiod in Central European (Summer-) Time";
  "        type: datetime";
  "        format: fmt:%Y-%m-%dT%H%M%S%z";
  "      - name: {marker}";
  "        description: marker to indicate which columns are missing data in source data";
  "            and has been interpolated (e.g. DE_transnetbw_solar_generation;)";
  "        type: string"
].

Definition field_template : string := block [
  "      - name: {household}_{feed}";
  "        description: {description}";
  "        type: number (float)";
  "        source:";
  "            project: {project}";
  "            web: {web}";
  "            type: {type}";
  "        opsd-properties: ";
  "            Region: " +:+ dq +:+ "{region}" +:+ dq;
  "            Household: {household}";
  "            Feed: {feed}"
].

Definition web_template : string := block [
  "CoSSMic: http://cossmic.eu/"
].

Definition region_template : string := block [
  "DE_konstanz: Germany, Konstanz"
].

Definition type_template : string := block [
  "residential_4-person_suburb_building: Residential building, located in the suburban area in a four-person household"
].

Definition descriptions_template : string := block [
  "grid_import: Energy imported from the public grid in kWh";
  "grid_export: Energy exported to the public grid in kWh";
  "consumption: Total household energy consumption in kWh";
  "pv: Total Photovoltaic energy generation in kWh";
  "ev: Electric Vehicle charging energy in kWh";
  "storage_charge: Battery charging energy in kWh";
  "storage_discharge: Battery discharged energy in kWh";
  "heat_pump: Heat pump energy consumption in kWh";
  "circulation_pump: Circulation pump energy consumption, circulating the heated water of e.g. boilers in kWh";
  "dishwasher: Dishwasher energy consumption in kWh";
  "washing_machine: Washing machine energy consumption in kWh";
  "refrigerator: Refridgerator energy consumption in kWh";
  "freezer: Freezer energy consumption in kWh";
  "default: Energy in kWh"
].

(** The first value of [resource_list], before the loop. *)
Definition resource_list_init : string := block [
  "- mediatype: application/vnd.openxmlformats-officedocument.spreadsheetml.sheet";
  "  format: xlsx";
  "  path: time_series.xlsx"
].

(** ** [yaml.load] on the block-style fragment of YAML

    The loader works line by line.  A line is cut into events (a sequence
    dash, a [key: value] pair, free text); a stack of open blocks, ordered by
    indentation, turns the events into a value.  Flow collections, block
    scalars, anchors, tags, comments, tabs and multi-line quoted scalars are
    outside the fragment. *)

Module Yaml.

Inductive sval : Type :=
  | VEmpty
  | VPlain (t : string)
  | VQuoted (s : string).

Inductive event : Type :=
  | EBlank
  | EDash (n : nat)
  | EPair (n : nat) (k : string) (v : sval)
  | EText (n : nat) (v : sval).

Fixpoint split_lines (s : string) : list string :=
  match s with
  | "" => [""]
  | String c s' =>
      if ascii_eqb c ch_lf then "" :: split_lines s'
      else match split_lines s' with
           | l :: ls => String c l :: ls
           | [] => [String c ""]
           end
  end.

Fixpoint skip_spaces (s : string) : nat * string :=
  match s with
  | "" => (0, "")
  | String c s' =>
      if ascii_eqb c " " then let '(n, r) := skip_spaces s' in (S n, r)
      else (0, s)
  end.

Fixpoint rstrip (s : string) : string :=
  match s with
  | "" => ""
  | String c s' =>
      match rstrip s' with
      | "" => if ascii_eqb c " " then "" else String c ""
      | r => String c r
      end
  end.

Fixpoint has_char (c : ascii) (s : string) : bool :=
  match s with
  | "" => false
  | String c' s' => ascii_eqb c' c || has_char c s'
  end.

(** The first [:] that ends a key: one followed by a space or the line end. *)
Fixpoint find_colon (s : string) : option (string * string) :=
  match s with
  | "" => None
  | String c s' =>
      let ends_key := match s' with "" => true | String c' _ => ascii_eqb c' " " end in
      if ascii_eqb c ":" && ends_key then Some ("", s')
      else match find_colon s' with
           | Some (k, v) => Some (String c k, v)
           | None => None
           end
  end.

(** Characters that cannot start a plain scalar (or can only in ways that
    are not modelled). *)
Definition is_indicator (c : ascii) : bool :=
  has_char c ("-?:,[]{}#&*!|>%@`" +:+ dq +:+ sq).

(** The text of a double-quoted scalar up to its closing quote, and what
    follows it. *)
Fixpoint scan_dq (s : string) : result (string * string) :=
  match s with
  | "" => Raise Unmodelled
  | String c s' =>
      if ascii_eqb c ch_dq then Ok ("", s')
      else if ascii_eqb c ch_bs then
        match s' with
        | String e s'' =>
            d <<- (if ascii_eqb e "n" then Ok ch_lf
                   else if ascii_eqb e ch_bs then Ok ch_bs
                   else if ascii_eqb e ch_dq then Ok ch_dq
                   else Raise Unmodelled) ;;
            p <<- scan_dq s'' ;;
            Ok (String d (fst p), snd p)
        | "" => Raise Unmodelled
        end
      else p <<- scan_dq s' ;; Ok (String c (fst p), snd p)
  end.

(** The same for a single-quoted scalar, where a doubled quote stands for
    one quote. *)
Fixpoint scan_sq (s : string) : result (string * string) :=
  match s with
  | "" => Raise Unmodelled
  | String c s' =>
      if ascii_eqb c ch_sq then
        match s' with
        | String c' s'' =>
            if ascii_eqb c' ch_sq then
              p <<- scan_sq s'' ;; Ok (String ch_sq (fst p), snd p)
            else Ok ("", s')
        | "" => Ok ("", "")
        end
      else p <<- scan_sq s' ;; Ok (String c (fst p), snd p)
  end.

(** A scalar written at the end of a line: quoted, or plain. *)
Definition lex_scalar (s : string) : result sval :=
  match s with
  | "" => Ok VEmpty
  | String c s' =>
      if ascii_eqb c ch_dq || ascii_eqb c ch_sq then
        p <<- (if ascii_eqb c ch_dq then scan_dq s' else scan_sq s') ;;
        match rstrip (snd p) with
        | "" => Ok (VQuoted (fst p))
        | _ => Raise Unmodelled
        end
      else if is_indicator c then Raise Unmodelled
      else if has_char "#" s then Raise Unmodelled
      else match find_colon s with
           | Some _ => Raise YAMLError
           | None => Ok (VPlain (rstrip s))
           end
  end.

(** A mapping entry or a scalar starting at column [n]. *)
Definition lex_item (n : nat) (s : string) : result event :=
  match s with
  | "" => Raise Unmodelled
  | String c _ =>
      if ascii_eqb c ch_dq || ascii_eqb c ch_sq then
        v <<- lex_scalar s ;; Ok (EText n v)
      else if is_indicator c then Raise Unmodelled
      else match find_colon s with
           | None => v <<- lex_scalar s ;; Ok (EText n v)
           | Some (k, rest) =>
               if has_char "#" k then Raise Unmodelled
               else v <<- lex_scalar (snd (skip_spaces rest)) ;;
                    Ok (EPair n (rstrip k) v)
           end
  end.

Definition lex_line (l : string) : result (list event) :=
  let '(n, r) := skip_spaces l in
  match r with
  | "" => Ok [EBlank]
  | String c r1 =>
      if ascii_eqb c "-" then
        match r1 with
        | "" => Ok [EDash n]
        | String c1 r2 =>
            if ascii_eqb c1 " " then
              let '(m, r3) := skip_spaces r2 in
              match r3 with
              | "" => Ok [EDash n]
              | _ => e <<- lex_item (n + 2 + m) r3 ;; Ok [EDash n; e]
              end
            else e <<- lex_item n r ;; Ok [e]
        end
      else e <<- lex_item n r ;; Ok [e]
  end.

Fixpoint lex_lines (ls : list string) : result (list event) :=
  match ls with
  | [] => Ok []
  | l :: ls' => es <<- lex_line l ;; es' <<- lex_lines ls' ;; Ok (es ++ es')
  end.

(** *** The stack of open blocks

    The blocks are first assembled as a tree of unresolved scalars, as the
    loader composes the nodes of a document before it constructs values. *)

#[local] Unset Elimination Schemes.
Inductive raw : Type :=
  | RPlain (t : string)
  | RQuoted (s : string)
  | RSeq (l : list raw)
  | RMap (l : list (string * raw)).
#[local] Set Elimination Schemes.

Inductive frame : Type :=
  | FSeq (n : nat) (items : list raw) (open : bool)
  | FMap (n : nat) (entries : list (string * raw)) (key : option string)
  | FPlain (n : nat) (parts : list string) (blank : bool).

Definition frame_indent (f : frame) : nat :=
  match f with
  | FSeq n _ _ | FMap n _ _ | FPlain n _ _ => n
  end.

Fixpoint join_sp (parts : list string) : string :=
  match parts with
  | [] => ""
  | [p] => p
  | p :: ps => p +:+ " " +:+ join_sp ps
  end.

(** The node of a block once no further line can belong to it.  Items and
    entries are collected newest first; a missing value is the empty plain
    scalar. *)
Definition frame_value (f : frame) : raw :=
  match f with
  | FSeq _ items open => RSeq (rev (if open then RPlain "" :: items else items))
  | FMap _ es key =>
      RMap (rev (match key with Some k => (k, RPlain "") :: es | None => es end))
  | FPlain _ parts _ => RPlain (join_sp (rev parts))
  end.

(** Puts a finished node into the block that waits for it. *)
Definition attach (v : raw) (f : frame) : result frame :=
  match f with
  | FSeq n items true => Ok (FSeq n (v :: items) false)
  | FMap n es (Some k) => Ok (FMap n ((k, v) :: es) None)
  | _ => Raise YAMLError
  end.

Fixpoint close_go (n : nat) (v : raw) (stack : list frame)
  : result (list frame) :=
  match stack with
  | [] => Raise YAMLError
  | p :: st =>
      p' <<- attach v p ;;
      if (n <? frame_indent p')%nat
      then close_go n (frame_value p') st
      else Ok (p' :: st)
  end.

(** Closes every block indented deeper than column [n]. *)
Definition close_to (n : nat) (stack : list frame) : result (list frame) :=
  match stack with
  | [] => Ok []
  | f :: st =>
      if (n <? frame_indent f)%nat
      then close_go n (frame_value f) st
      else Ok stack
  end.

Fixpoint finish_go (v : raw) (stack : list frame) : result raw :=
  match stack with
  | [] => Ok v
  | p :: st => p' <<- attach v p ;; finish_go (frame_value p') st
  end.

(** The root node at the end of the text. *)
Definition finish (stack : list frame) : result raw :=
  match stack with
  | [] => Ok (RPlain "")
  | f :: st => finish_go (frame_value f) st
  end.

Definition event_indent (e : event) : nat :=
  match e with
  | EBlank => 0
  | EDash n | EPair n _ _ | EText n _ => n
  end.

(** A new nested block at column [n] needs a parent that waits for a value. *)
Definition waits (n : nat) (st : list frame) : result unit :=
  match st with
  | [] => Ok tt
  | FSeq m _ open :: _ =>
      if (m <? n)%nat && open then Ok tt else Raise YAMLError
  | FMap m _ (Some _) :: _ =>
      if (m <? n)%nat then Ok tt else Raise YAMLError
  | _ => Raise YAMLError
  end.

Definition step_dash (n : nat) (st : list frame) : result (list frame) :=
  match st with
  | FSeq m items open :: st' =>
      if (m =? n)%nat
      then Ok (FSeq n (if open then RPlain "" :: items else items) true :: st')
      else _ <<- waits n st ;; Ok (FSeq n [] true :: st)
  | FMap m _ _ :: _ =>
      if (m =? n)%nat then Raise Unmodelled
      else _ <<- waits n st ;; Ok (FSeq n [] true :: st)
  | _ => _ <<- waits n st ;; Ok (FSeq n [] true :: st)
  end.

Definition step_pair (n : nat) (k : string) (v : sval) (st : list frame)
  : result (list frame) :=
  p <<-
     match st with
     | FMap m es pk :: st' =>
         if (m =? n)%nat
         then Ok (match pk with Some k0 => (k0, RPlain "") :: es | None => es end, st')
         else _ <<- waits n st ;; Ok ([], st)
     | FSeq m _ _ :: _ =>
         if (m =? n)%nat then Raise YAMLError
         else _ <<- waits n st ;; Ok ([], st)
     | _ => _ <<- waits n st ;; Ok ([], st)
     end ;;
  let '(es, st') := p in
  match v with
  | VEmpty => Ok (FMap n es (Some k) :: st')
  | VQuoted s => Ok (FMap n ((k, RQuoted s) :: es) None :: st')
  | VPlain t => Ok (FPlain (S n) [t] false :: FMap n es (Some k) :: st')
  end.

Definition step_text (n : nat) (v : sval) (st : list frame)
  : result (list frame) :=
  match st with
  | [] => Raise Unmodelled
  | p :: st' =>
      _ <<- waits n st ;;
      match v with
      | VEmpty => Raise Unmodelled
      | VQuoted s => p' <<- attach (RQuoted s) p ;; Ok (p' :: st')
      | VPlain t => Ok (FPlain (S (frame_indent p)) [t] false :: st)
      end
  end.

Definition step (stack : list frame) (e : event) : result (list frame) :=
  match e with
  | EBlank =>
      match stack with
      | FPlain n parts _ :: st => Ok (FPlain n parts true :: st)
      | _ => Ok stack
      end
  | _ =>
      st <<- close_to (event_indent e) stack ;;
      match st with
      | FPlain m parts blank :: st' =>
          match e with
          | EText _ (VPlain t) =>
              if blank then Raise Unmodelled
              else Ok (FPlain m (t :: parts) false :: st')
          | EPair _ _ _ => Raise YAMLError
          | _ => Raise Unmodelled
          end
      | _ =>
          match e with
          | EBlank => Ok st
          | EDash n => step_dash n st
          | EPair n k v => step_pair n k v st
          | EText n v => step_text n v st
          end
      end
  end.

(** The node tree of a text. *)
Definition compose (text : string) : result raw :=
  es <<- lex_lines (split_lines text) ;;
  st <<- foldM step es [] ;;
  finish st.

(** *** Implicit types of plain scalars (YAML 1.1, as PyYAML resolves them) *)

Definition bool_true_words : list string :=
  ["yes"; "Yes"; "YES"; "true"; "True"; "TRUE"; "on"; "On"; "ON"].
Definition bool_false_words : list string :=
  ["no"; "No"; "NO"; "false"; "False"; "FALSE"; "off"; "Off"; "OFF"].
Definition null_words : list string := ["~"; "null"; "Null"; "NULL"].

Definition str_in (s : string) (l : list string) : bool :=
  existsb (fun w => String.eqb w s) l.

(** Every character that occurs in some integer, float or timestamp. *)
Definition is_numeric_char (c : ascii) : bool :=
  is_digit c || has_char c "-+_.:abcdefABCDEFxXinINTtZz ".

(** A decimal integer without sign, underscores or leading zeros. *)
Definition is_plain_int (s : string) : bool :=
  match s with
  | "" => false
  | String "0" "" => true
  | String c _ => negb (ascii_eqb c "0") && str_forall is_digit s
  end.

Definition last_char (s : string) : option ascii :=
  match str_rev s with
  | "" => None
  | String c _ => Some c
  end.

Definition ends_with_zero (s : string) : bool :=
  match last_char s with
  | Some c => ascii_eqb c "0"
  | None => false
  end.

(** A float literal that Python prints back unchanged: [d.d] with at most 15
    digits, no redundant zeros, and at least one tenth. *)
Definition is_canonical_float (s : string) : bool :=
  match split_dot s with
  | None => false
  | Some (a, b) =>
      str_forall is_digit a && str_forall is_digit b &&
      (str_len a + str_len b <=? 15)%nat &&
      match a, b with
      | "", _ | _, "" => false
      | String "0" "", String b0 _ =>
          negb (ascii_eqb b0 "0") && negb (ends_with_zero b)
      | String a0 _, _ =>
          negb (ascii_eqb a0 "0") &&
          (String.eqb b "0" || negb (ends_with_zero b))
      end
  end.

Definition resolve_plain (t : string) : result yaml :=
  if str_in t bool_true_words then Ok (YBool true)
  else if str_in t bool_false_words then Ok (YBool false)
  else if str_in t null_words then Ok YNull
  else if str_in t ["<<"; "="] then Raise Unmodelled
  else match t with
       | "" => Ok YNull
       | String c _ =>
           if is_digit c || has_char c "-+." then
             if is_plain_int t then Ok (YInt (digits_value t 0))
             else if is_canonical_float t then Ok (YFloat t)
             else if str_forall is_numeric_char t then Raise Unmodelled
             else Ok (YStr t)
           else Ok (YStr t)
       end.

(** *** From nodes to values *)

Fixpoint construct (r : raw) : result yaml :=
  match r with
  | RPlain t => resolve_plain t
  | RQuoted s => Ok (YStr s)
  | RSeq l =>
      vs <<- (fix go (l : list raw) : result (list yaml) :=
                match l with
                | [] => Ok []
                | x :: l' => v <<- construct x ;; vs <<- go l' ;; Ok (v :: vs)
                end) l ;;
      Ok (YSeq vs)
  | RMap l =>
      d <<- (fix go (l : list (string * raw)) (d : list (yaml * yaml))
               : result (list (yaml * yaml)) :=
               match l with
               | [] => Ok d
               | (k, x) :: l' =>
                   key <<- resolve_plain k ;;
                   v <<- construct x ;;
                   go l' (dict_set d key v)
               end) l [] ;;
      Ok (YMap d)
  end.

Definition load (text : string) : result yaml :=
  if negb (str_forall (fun c => is_printable c || ascii_eqb c ch_lf) text)
  then Raise Unmodelled
  else r <<- compose text ;; construct r.

End Yaml.

Definition yaml_load : string -> result yaml := Yaml.load.

(** ** [json.dumps(obj, indent=4, separators=(',', ': '))] *)

Module Json.

Definition hex_digit (n : nat) : ascii :=
  if (n <? 10)%nat then ascii_of_nat (48 + n) else ascii_of_nat (87 + n).

(** Every character other than the printable ASCII ones, the quote and the
    backslash is escaped ([ensure_ascii] is on by default). *)
Definition escape_char (c : ascii) : string :=
  if ascii_eqb c ch_dq then String ch_bs dq
  else if ascii_eqb c ch_bs then String ch_bs (String ch_bs "")
  else if is_printable c then String c ""
  else if ascii_eqb c ch_lf then String ch_bs "n"
  else if ascii_eqb c "013" then String ch_bs "r"
  else if ascii_eqb c "009" then String ch_bs "t"
  else if ascii_eqb c "008" then String ch_bs "b"
  else if ascii_eqb c "012" then String ch_bs "f"
  else
    let n := nat_of_ascii c in
    String ch_bs ("u00" +:+ String (hex_digit (n / 16)) (String (hex_digit (n mod 16)) "")).

Fixpoint escape (s : string) : string :=
  match s with
  | "" => ""
  | String c s' => escape_char c +:+ escape s'
  end.

Definition quote (s : string) : string := dq +:+ escape s +:+ dq.

(** A dictionary key is printed as a string whatever its type. *)
Definition key_text (k : yaml) : string :=
  match k with
  | YStr s => s
  | YInt z => Z_to_str z
  | YFloat lit => lit
  | YBool true => "true"
  | YBool false => "false"
  | _ => "null"
  end.

Fixpoint spaces (n : nat) : string :=
  match n with
  | O => ""
  | S n' => String " " (spaces n')
  end.

Definition newline_indent (level : nat) : string := nl +:+ spaces (4 * level).

Fixpoint join (sep : string) (l : list string) : string :=
  match l with
  | [] => ""
  | [x] => x
  | x :: l' => x +:+ sep +:+ join sep l'
  end.

Fixpoint encode (level : nat) (v : yaml) {struct v} : string :=
  match v with
  | YNull => "null"
  | YBool true => "true"
  | YBool false => "false"
  | YInt z => Z_to_str z
  | YFloat lit => lit
  | YStr s => quote s
  | YSeq [] => "[]"
  | YSeq l =>
      "[" +:+ newline_indent (S level) +:+
      join ("," +:+ newline_indent (S level)) (map (encode (S level)) l) +:+
      newline_indent level +:+ "]"
  | YMap [] => "{}"
  | YMap d =>
      "{" +:+ newline_indent (S level) +:+
      join ("," +:+ newline_indent (S level))
        (map (fun kv => quote (key_text (fst kv)) +:+ ": " +:+
                        encode (S level) (snd kv)) d) +:+
      newline_indent level +:+ "}"
  end.

Definition dumps (v : yaml) : string := encode 0 v.

End Json.

Definition json_dumps : yaml -> string := Json.dumps.

(** ** Sets of tuples

    [set(...)] keeps one of each group of equal tuples and yields them in an
    order that depends on the hashes of the run.  The order is modelled by a
    seed that can produce every arrangement. *)

Definition pair_eqb (p q : yaml * yaml) : bool :=
  key_eqb (fst p) (fst q) && key_eqb (snd p) (snd q).

Fixpoint tuple_eqb (t u : list (yaml * yaml)) : bool :=
  match t, u with
  | [], [] => true
  | p :: t', q :: u' => pair_eqb p q && tuple_eqb t' u'
  | _, _ => false
  end.

Fixpoint py_dedup (l : list (list (yaml * yaml))) : list (list (yaml * yaml)) :=
  match l with
  | [] => []
  | t :: l' => t :: filter (fun u => negb (tuple_eqb t u)) (py_dedup l')
  end.

Fixpoint insert_at {A} (n : nat) (x : A) (l : list A) : list A :=
  match n, l with
  | S n', y :: l' => y :: insert_at n' x l'
  | _, _ => x :: l
  end.

Fixpoint shuffle {A} (seed : list nat) (l : list A) : list A :=
  match l with
  | [] => []
  | x :: l' =>
      match seed with
      | [] => x :: shuffle [] l'
      | n :: seed' => insert_at n x (shuffle seed' l')
      end
  end.

Definition py_set (seed : list nat) (l : list (list (yaml * yaml)))
  : list (list (yaml * yaml)) :=
  shuffle seed (py_dedup l).

(** [for entry in obj]: the elements of a list, the keys of a dictionary;
    [None] and numbers are not iterable. *)
Definition py_iter (obj : yaml) : result (list yaml) :=
  match obj with
  | YSeq l => Ok l
  | YMap d => Ok (map fst d)
  | YStr s => Ok (map (fun c => YStr (String c "")) (list_ascii_of_string s))
  | _ => Raise TypeError
  end.

(** [tuple(entry.items())], which is then hashed by the set. *)
Definition tupleize (entry : yaml) : result (list (yaml * yaml)) :=
  match entry with
  | YMap d =>
      if forallb (fun kv => hashable (fst kv) && hashable (snd kv)) d
      then Ok d else Raise TypeError
  | _ => Raise AttributeError
  end.

Fixpoint mapM {A B} (f : A -> result B) (l : list A) : result (list B) :=
  match l with
  | [] => Ok []
  | a :: l' => b <<- f a ;; bs <<- mapM f l' ;; Ok (b :: bs)
  end.

(** [dict(tupleized)] *)
Definition dict_of_items (t : list (yaml * yaml)) : yaml :=
  YMap (foldl (fun d kv => dict_set d (fst kv) (snd kv)) [] t).

(** ** [make_json] *)

(** A data frame is read only through [df.columns]: the header tuples of
    its columns, in column order. *)
Record DataFrame : Type := { columns : list (list string) }.

(** [v in info_cols.values()] *)
Definition in_values (v : string) (info_cols : gmap string string) : bool :=
  bool_decide (v ∈ (map_to_list info_cols).*2).

(** [{k: v for k, v in zip(headers, col)}]: a later pair with the same key
    replaces an earlier one. *)
Definition build_h (headers col : list string) : gmap string yaml :=
  foldl (fun h kv => <[fst kv := YStr (snd kv)]> h) ∅ (zip headers col).

(** [h[k]] *)
Definition h_get (h : gmap string yaml) (k : string) : result yaml :=
  match h !! k with
  | Some v => Ok v
  | None => Raise (KeyError (YStr k))
  end.

(** [try: body except KeyError: handler] *)
Definition try_KeyError {A} (body handler : result A) : result A :=
  match body with
  | Raise (KeyError _) => handler
  | _ => body
  end.

(** Lines 218 to 231: the four lookups of one data column. *)
Definition lookups (h : gmap string yaml) : result (gmap string yaml) :=
  websites <<- yaml_load web_template ;;
  p <<- h_get h "project" ;;
  w <<- py_getitem websites p ;;
  let h := <["web" := w]> h in
  regions <<- yaml_load region_template ;;
  r <<- h_get h "region" ;;
  r' <<- py_getitem regions r ;;
  let h := <["region" := r']> h in
  types <<- yaml_load type_template ;;
  t <<- h_get h "type" ;;
  t' <<- py_getitem types t ;;
  let h := <["type" := t']> h in
  descriptions <<- yaml_load descriptions_template ;;
  d <<- try_KeyError
          (f <<- h_get h "feed" ;; py_getitem descriptions f)
          (py_getitem descriptions (YStr "default")) ;;
  Ok (<["description" := d]> h).

(** The body of the inner loop; the state is [(field_list, source_list)]. *)
Definition process_col (info_cols : gmap string string) (headers : list string)
    (st : string * string) (col : list string) : result (string * string) :=
  c0 <<- match col with
         | [] => Raise IndexError
         | c :: _ => Ok c
         end ;;
  if in_values c0 info_cols then Ok st
  else
    h <<- lookups (build_h headers col) ;;
    f <<- format field_template h ;;
    s <<- format source_template h ;;
    Ok (fst st +:+ f, snd st +:+ s).

(** [schemas_template.format(res_key=res_key, **info_cols)]: a key
    [res_key] in [info_cols] is a repeated keyword argument. *)
Definition schema_kwargs (res_key : string) (info_cols : gmap string string)
  : result (gmap string yaml) :=
  match info_cols !! "res_key" with
  | Some _ => Raise TypeError
  | None => Ok (<["res_key" := YStr res_key]> (YStr <$> info_cols))
  end.

(** The body of the outer loop; the state is
    [(resource_list, source_list, schemas_dict)]. *)
Definition process_dataset (info_cols : gmap string string)
    (headers : list string) (st : string * string * string)
    (d : string * DataFrame) : result (string * string * string) :=
  let '(resource_list, source_list, schemas_dict) := st in
  let '(res_key, df) := d in
  r <<- format resource_template {["res_key" := YStr res_key]} ;;
  let resource_list := resource_list +:+ r in
  fs <<- foldM (process_col info_cols headers) (columns df) ("", source_list) ;;
  kw <<- schema_kwargs res_key info_cols ;;
  s <<- format schemas_template kw ;;
  Ok (resource_list, snd fs, (schemas_dict +:+ s) +:+ fst fs).

(** Lines 242 to 244: the sources without duplicates. *)
Definition dedup_sources (seed : list nat) (source_list : string)
  : result (list yaml) :=
  parsed <<- yaml_load source_list ;;
  entries <<- py_iter parsed ;;
  tuples <<- mapM tupleize entries ;;
  Ok (map dict_of_items (py_set seed tuples)).

(** Lines 195 to 251: the metadata dictionary. *)
Definition build_metadata (seed : list nat)
    (data_sets : list (string * DataFrame)) (info_cols : gmap string string)
    (version changes : string) (headers : list string) : result yaml :=
  st <<- foldM (process_dataset info_cols headers) data_sets
               (resource_list_init, "", "") ;;
  let '(resource_list, source_list, schemas_dict) := st in
  sources <<- dedup_sources seed source_list ;;
  head <<- format metadata_head
             (<["version" := YStr version]> {["changes" := YStr changes]}) ;;
  metadata <<- yaml_load head ;;
  metadata <<- py_setitem metadata (YStr "sources") (YSeq sources) ;;
  resources <<- yaml_load resource_list ;;
  metadata <<- py_setitem metadata (YStr "resources") resources ;;
  schemas <<- yaml_load schemas_dict ;;
  py_setitem metadata (YStr "schemas") schemas.

(** The whole function.  [seed] stands for the hash seeds of the run and
    [files] for the files of the working directory; the result is the value
    returned to the caller and the files afterwards. *)
Definition make_json (seed : list nat) (files : gmap string string)
    (data_sets : list (string * DataFrame)) (info_cols : gmap string string)
    (version changes : string) (headers : list string)
  : result (yaml * gmap string string) :=
  metadata <<- build_metadata seed data_sets info_cols version changes headers ;;
  let datapackage_json := json_dumps metadata in
  Ok (YNull, <["datapackage.json" := datapackage_json]> files).

(** ** The lookup tables *)

Definition websites : list (yaml * yaml) :=
  [(YStr "CoSSMic", YStr "http://cossmic.eu/")].

Definition regions : list (yaml * yaml) :=
  [(YStr "DE_konstanz", YStr "Germany, Konstanz")].

Definition types : list (yaml * yaml) :=
  [(YStr "residential_4-person_suburb_building",
    YStr "Residential building, located in the suburban area in a four-person household")].

Definition descriptions : list (yaml * yaml) :=
  [(YStr "grid_import", YStr "Energy imported from the public grid in kWh");
   (YStr "grid_export", YStr "Energy exported to the public grid in kWh");
   (YStr "consumption", YStr "Total household energy consumption in kWh");
   (YStr "pv", YStr "Total Photovoltaic energy generation in kWh");
   (YStr "ev", YStr "Electric Vehicle charging energy in kWh");
   (YStr "storage_charge", YStr "Battery charging energy in kWh");
   (YStr "storage_discharge", YStr "Battery discharged energy in kWh");
   (YStr "heat_pump", YStr "Heat pump energy consumption in kWh");
   (YStr "circulation_pump",
    YStr "Circulation pump energy consumption, circulating the heated water of e.g. boilers in kWh");
   (YStr "dishwasher", YStr "Dishwasher energy consumption in kWh");
   (YStr "washing_machine", YStr "Washing machine energy consumption in kWh");
   (YStr "refrigerator", YStr "Refridgerator energy consumption in kWh");
   (YStr "freezer", YStr "Freezer energy consumption in kWh");
   (YStr "default", YStr "Energy in kWh")].

(** A header level whose code the table does not list (or that the header
    does not have). *)
Definition code_absent (table : list (yaml * yaml)) (h : gmap string yaml)
    (level : string) : Prop :=
  forall v, h !! level = Some v -> dict_get table v = None.

Definition code_present (table : list (yaml * yaml)) (h : gmap string yaml)
    (level : string) : Prop :=
  exists v w, h !! level = Some v /\ dict_get table v = Some w.

(** A column the inner loop skips: its first header value is an info-column
    value.  The empty tuple has no first value. *)
Definition is_info_col (info_cols : gmap string string) (col : list string)
  : bool :=
  match col with
  | [] => false
  | c0 :: _ => in_values c0 info_cols
  end.

Definition is_data_col (info_cols : gmap string string) (col : list string)
  : bool :=
  match col with
  | [] => false
  | c0 :: _ => negb (in_values c0 info_cols)
  end.

(** ** A small data set for the examples

    One table at resolution [15min] with the timestamp column, a
    photovoltaic feed and a feed the description table does not list. *)

Definition example_info_cols : gmap string string :=
  <["utc" := "utc_timestamp"]>
    (<["cet" := "cet_cest_timestamp"]> (<["marker" := "interpolated"]> ∅)).

Definition example_headers : list string :=
  ["region"; "household"; "type"; "feed"; "project"].

Definition example_pv_col : list string :=
  ["DE_konstanz"; "DE_KN_residential1";
   "residential_4-person_suburb_building"; "pv"; "CoSSMic"].

Definition example_other_col : list string :=
  ["DE_konstanz"; "DE_KN_residential1";
   "residential_4-person_suburb_building"; "sauna"; "CoSSMic"].

Definition example_foreign_col : list string :=
  ["DE_konstanz"; "DE_KN_residential1";
   "residential_4-person_suburb_building"; "pv"; "OtherProject"].

Definition example_utc_col : list string := ["utc_timestamp"; ""; ""; ""; ""].

Definition example_data_sets : list (string * DataFrame) :=
  [("15min", {| columns := [example_utc_col; example_pv_col] |})].

(** No column of any table is a data column. *)
Definition no_data_columns (info_cols : gmap string string)
    (data_sets : list (string * DataFrame)) : bool :=
  forallb (fun d => forallb (is_info_col info_cols) (columns (snd d))) data_sets.

(** The three strings of the loop state after the outer loop. *)
Definition run_loops (data_sets : list (string * DataFrame))
    (info_cols : gmap string string) (headers : list string)
  : result (string * string * string) :=
  foldM (process_dataset info_cols headers) data_sets
        (resource_list_init, "", "").

(** What the specification asks of the return value: the document itself,
    as a dictionary or as its JSON text. *)
Definition returns_document (seed : list nat) (files : gmap string string)
    (data_sets : list (string * DataFrame)) (info_cols : gmap string string)
    (version changes : string) (headers : list string) : Prop :=
  exists doc files',
    build_metadata seed data_sets info_cols version changes headers = Ok doc /\
    (make_json seed files data_sets info_cols version changes headers
       = Ok (doc, files') \/
     make_json seed files data_sets info_cols version changes headers
       = Ok (YStr (json_dumps doc), files')).

Definition example_only_info : list (string * DataFrame) :=
  [("15min", {| columns := [example_utc_col] |})].

(** ** Texts whose loading is characterised below *)

(** A character that has no meaning of its own in a plain scalar. *)
Definition is_inert (c : ascii) : bool :=
  is_printable c &&
  negb (ascii_eqb c " " || ascii_eqb c ":" || ascii_eqb c "#" ||
        ascii_eqb c ch_dq || ascii_eqb c ch_sq).

(** A non-empty string of such characters whose first one can start a plain
    scalar. *)
Definition ok_word (s : string) : bool :=
  match s with
  | "" => false
  | String c _ => negb (Yaml.is_indicator c) && str_forall is_inert s
  end.

(** A text that is read back as itself when written as a plain scalar. *)
Definition plain_ok (v : string) : bool :=
  str_forall is_printable v &&
  match v with
  | "" => false
  | String c _ => negb (ascii_eqb c " ")
  end &&
  match Yaml.lex_scalar v with
  | Ok (Yaml.VPlain v') => String.eqb v' v
  | _ => false
  end.

(** A plain scalar that is loaded as the string it is written as. *)
Definition loads_as_str (s : string) : bool :=
  match Yaml.resolve_plain s with
  | Ok (YStr s') => String.eqb s' s
  | _ => false
  end.

(** A text that can stand between single quotes on one line. *)
Definition sq_ok (s : string) : bool :=
  str_forall (fun c => is_printable c && negb (ascii_eqb c ch_sq)) s.

(** ** The texts, line by line

    The lines a template becomes once its fields are filled in. *)

Definition source_lines (p w t : string) : list string :=
  ["- project: " +:+ p;
   "  web: " +:+ w;
   "  type: " +:+ t].

Definition resource_lines (k : string) : list string :=
  ["- path: " +:+ ("household_data_" +:+ k +:+ "_singleindex.csv");
   "  format: csv";
   "  mediatype: text/csv";
   "  encoding: UTF8";
   "  schema: " +:+ k;
   "  dialect: ";
   "      csvddfVersion: 1.0";
   "      delimiter: " +:+ dq +:+ "," +:+ dq;
   "      lineTerminator: " +:+ dq +:+ "\n" +:+ dq +:+ " ";
   "      header: true";
   "  alternative_formats:";
   "      - path: " +:+ ("household_data_" +:+ k +:+ "_singleindex.csv");
   "        stacking: Singleindex";
   "        format: csv";
   "      - path: household_data.xlsx";
   "        stacking: Multiindex";
   "        format: xlsx";
   "      - path: " +:+ ("household_data_" +:+ k +:+ "_multiindex.csv");
   "        stacking: Multiindex";
   "        format: csv";
   "      - path: " +:+ ("household_data_" +:+ k +:+ "_stacked.csv");
   "        stacking: Stacked";
   "        format: csv"].

Definition schema_lines (k utc cet marker : string) : list string :=
  [k +:+ ":";
   "    primaryKey: " +:+ utc;
   "    missingValue: " +:+ dq +:+ dq;
   "    fields:";
   "      - name: " +:+ utc;
   "        description: Start of timeperiod in Coordinated Universal Time";
   "        type: datetime";
   "        format: fmt:%Y-%m-%dT%H%M%SZ";
   "        opsd-contentfilter: true";
   "      - name: " +:+ cet;
   "        description: Start of timeperiod in Central European (Summer-) Time";
   "        type: datetime";
   "        format: fmt:%Y-%m-%dT%H%M%S%z";
   "      - name: " +:+ marker;
   "        description: marker to indicate which columns are missing data in source data";
   "            and has been interpolated (e.g. DE_transnetbw_solar_generation;)";
   "        type: string"].

Definition field_lines (hh feed d p w t r : string) : list string :=
  ["      - name: " +:+ (hh +:+ "_" +:+ feed);
   "        description: " +:+ d;
   "        type: number (float)";
   "        source:";
   "            project: " +:+ p;
   "            web: " +:+ w;
   "            type: " +:+ t;
   "        opsd-properties: ";
   "            Region: " +:+ dq +:+ r +:+ dq;
   "            Household: " +:+ hh;
   "            Feed: " +:+ feed].

Definition head_lines (version changes : string) : list string :=
  ["name: opsd_household_data";
   "";
   "title: Household Data";
   "";
   "description: Detailed household load and solar in minutely to hourly resolution";
   "";
   "long_description: This data package contains different kinds of timeseries";
   "    data relevant for power system modelling, namely electricity consumption ";
   "    (load) as well as solar power generation for several small businesses and ";
   "    private households, in a resolution up to single device consumptions.";
   "    The timeseries become available at different points in time depending on the";
   "    sources. The data has been downloaded from the sources, resampled and merged in";
   "    large CSV files with minutely to hourly resolution. Most measurements were done";
   "    initially in 3 minute intervals, to later on minutely intervals. To improve the";
   "    datas classifyability, additional 15- and 60-minute interval files are provided.";
   "    All data processing is conducted in python and pandas and has been documented in ";
   "    the Jupyter notebooks linked below.";
   "";
   "documentation:";
   "    https://github.com/isc-konstanz/household_data/blob/master/main.ipynb";
   "";
   "version: " +:+ sq +:+ version +:+ sq;
   "";
   "last_changes: " +:+ sq +:+ changes +:+ sq;
   "";
   "keywords:";
   "    - Open Power System Data";
   "    - CoSSMic";
   "    - household data";
   "    - time series";
   "    - power systems";
   "    - in-feed";
   "    - renewables";
   "    - solar";
   "    - power consumption";
   "";
   "geographical-scope: Southern Germany";
   "";
   "contributors:";
   "    - web: http://isc-konstanz.de/";
   "      name: Adrian Minde";
   "      email: adrian.minde@isc-konstanz.de"].

(** The only values the three strict lookups can give. *)
Definition the_project : string := "CoSSMic".
Definition the_web : string := "http://cossmic.eu/".
Definition the_type : string :=
  "Residential building, located in the suburban area in a four-person household".
Definition the_region : string := "Germany, Konstanz".

(** The text one data column adds to [source_list]. *)
Definition source_chunk : string :=
  block (source_lines the_project the_web the_type).

(** The text one data column adds to [field_list]. *)
Definition field_chunk (hh feed d : string) : string :=
  block (field_lines hh feed d the_project the_web the_type the_region).

(** ** The document a well-formed input gives *)

Definition str_entry (k v : string) : yaml * yaml := (YStr k, YStr v).

Definition source_entry : yaml :=
  YMap [str_entry "project" the_project; str_entry "web" the_web;
        str_entry "type" the_type].

Definition xlsx_entry : yaml :=
  YMap [str_entry "mediatype"
          "application/vnd.openxmlformats-officedocument.spreadsheetml.sheet";
        str_entry "format" "xlsx"; str_entry "path" "time_series.xlsx"].

Definition alternative (path stacking fmt : string) : yaml :=
  YMap [str_entry "path" path; str_entry "stacking" stacking;
        str_entry "format" fmt].

Definition resource_entry (k : string) : yaml :=
  YMap [str_entry "path" ("household_data_" +:+ k +:+ "_singleindex.csv");
        str_entry "format" "csv"; str_entry "mediatype" "text/csv";
        str_entry "encoding" "UTF8"; str_entry "schema" k;
        (YStr "dialect",
         YMap [(YStr "csvddfVersion", YFloat "1.0");
               str_entry "delimiter" ",";
               str_entry "lineTerminator" nl;
               (YStr "header", YBool true)]);
        (YStr "alternative_formats",
         YSeq [alternative ("household_data_" +:+ k +:+ "_singleindex.csv")
                 "Singleindex" "csv";
               alternative "household_data.xlsx" "Multiindex" "xlsx";
               alternative ("household_data_" +:+ k +:+ "_multiindex.csv")
                 "Multiindex" "csv";
               alternative ("household_data_" +:+ k +:+ "_stacked.csv")
                 "Stacked" "csv"])].

Definition utc_field (utc : string) : yaml :=
  YMap [str_entry "name" utc;
        str_entry "description"
          "Start of timeperiod in Coordinated Universal Time";
        str_entry "type" "datetime";
        str_entry "format" "fmt:%Y-%m-%dT%H%M%SZ";
        (YStr "opsd-contentfilter", YBool true)].

Definition cet_field (cet : string) : yaml :=
  YMap [str_entry "name" cet;
        str_entry "description"
          "Start of timeperiod in Central European (Summer-) Time";
        str_entry "type" "datetime";
        str_entry "format" "fmt:%Y-%m-%dT%H%M%S%z"].

Definition marker_field (marker : string) : yaml :=
  YMap [str_entry "name" marker;
        str_entry "description"
          "marker to indicate which columns are missing data in source data and has been interpolated (e.g. DE_transnetbw_solar_generation;)";
        str_entry "type" "string"].

Definition field_entry (hh feed d : string) : yaml :=
  YMap [str_entry "name" (hh +:+ "_" +:+ feed);
        str_entry "description" d;
        str_entry "type" "number (float)";
        (YStr "source", source_entry);
        (YStr "opsd-properties",
         YMap [str_entry "Region" the_region; str_entry "Household" hh;
               str_entry "Feed" feed])].

(** The description a feed code gets: the one the table lists, or the
    default. *)
Definition description_of (feed : string) : string :=
  match dict_get descriptions (YStr feed) with
  | Some (YStr d) => d
  | _ => "Energy in kWh"
  end.

(** The string a header record has at a level. *)
Definition level (h : gmap string yaml) (name : string) : string :=
  match h !! name with
  | Some (YStr s) => s
  | _ => ""
  end.

Definition col_household (headers col : list string) : string :=
  level (build_h headers col) "household".
Definition col_feed (headers col : list string) : string :=
  level (build_h headers col) "feed".

(** The schema field of a data column. *)
Definition col_field (headers col : list string) : yaml :=
  field_entry (col_household headers col) (col_feed headers col)
    (description_of (col_feed headers col)).

Definition data_cols (info_cols : gmap string string) (df : DataFrame)
  : list (list string) :=
  filter (fun col => is_data_col info_cols col = true) (columns df).

Definition info_name (info_cols : gmap string string) (name : string) : string :=
  match info_cols !! name with
  | Some s => s
  | None => ""
  end.

Definition schema_entry (info_cols : gmap string string)
    (headers : list string) (df : DataFrame) : yaml :=
  YMap [str_entry "primaryKey" (info_name info_cols "utc");
        str_entry "missingValue" "";
        (YStr "fields",
         YSeq (utc_field (info_name info_cols "utc") ::
               cet_field (info_name info_cols "cet") ::
               marker_field (info_name info_cols "marker") ::
               map (col_field headers) (data_cols info_cols df)))].

Definition head_entries (version changes : string) : list (yaml * yaml) :=
  [str_entry "name" "opsd_household_data";
   str_entry "title" "Household Data";
   str_entry "description"
     "Detailed household load and solar in minutely to hourly resolution";
   str_entry "long_description"
     "This data package contains different kinds of timeseries data relevant for power system modelling, namely electricity consumption (load) as well as solar power generation for several small businesses and private households, in a resolution up to single device consumptions. The timeseries become available at different points in time depending on the sources. The data has been downloaded from the sources, resampled and merged in large CSV files with minutely to hourly resolution. Most measurements were done initially in 3 minute intervals, to later on minutely intervals. To improve the datas classifyability, additional 15- and 60-minute interval files are provided. All data processing is conducted in python and pandas and has been documented in the Jupyter notebooks linked below.";
   str_entry "documentation"
     "https://github.com/isc-konstanz/household_data/blob/master/main.ipynb";
   str_entry "version" version;
   str_entry "last_changes" changes;
   (YStr "keywords",
    YSeq [YStr "Open Power System Data"; YStr "CoSSMic";
          YStr "household data"; YStr "time series"; YStr "power systems";
          YStr "in-feed"; YStr "renewables"; YStr "solar";
          YStr "power consumption"]);
   str_entry "geographical-scope" "Southern Germany";
   (YStr "contributors",
    YSeq [YMap [str_entry "web" "http://isc-konstanz.de/";
                str_entry "name" "Adrian Minde";
                str_entry "email" "adrian.minde@isc-konstanz.de"]])].

Definition expected_resources (data_sets : list (string * DataFrame)) : yaml :=
  YSeq (xlsx_entry :: map (fun d => resource_entry (fst d)) data_sets).

Definition expected_schemas (data_sets : list (string * DataFrame))
    (info_cols : gmap string string) (headers : list string) : yaml :=
  YMap (map (fun d => (YStr (fst d), schema_entry info_cols headers (snd d)))
            data_sets).

Definition expected_doc (data_sets : list (string * DataFrame))
    (info_cols : gmap string string) (version changes : string)
    (headers : list string) : yaml :=
  YMap (head_entries version changes ++
        [(YStr "sources", YSeq [source_entry]);
         (YStr "resources", expected_resources data_sets);
         (YStr "schemas", expected_schemas data_sets info_cols headers)]).

(** ** Well-formed inputs *)

(** A string that the templates can carry as a plain scalar and that is
    loaded back as the same string. *)
Definition valid_name (s : string) : bool := ok_word s && loads_as_str s.

Definition is_some {A} (o : option A) : bool :=
  match o with Some _ => true | None => false end.

(** A data column whose three codes are listed and whose household and feed
    are valid names, as is the field name made of them. *)
Definition valid_col (headers col : list string) : bool :=
  let h := build_h headers col in
  match h !! "project", h !! "region", h !! "type",
        h !! "household", h !! "feed" with
  | Some p, Some r, Some t, Some (YStr hh), Some (YStr feed) =>
      is_some (dict_get websites p) && is_some (dict_get regions r) &&
      is_some (dict_get types t) &&
      valid_name hh && valid_name feed &&
      loads_as_str (hh +:+ "_" +:+ feed)
  | _, _, _, _, _ => false
  end.

Definition valid_table (info_cols : gmap string string)
    (headers : list string) (df : DataFrame) : bool :=
  forallb (fun col => is_info_col info_cols col ||
                      (is_data_col info_cols col && valid_col headers col))
          (columns df).

Definition valid_info (info_cols : gmap string string) : bool :=
  match info_cols !! "utc", info_cols !! "cet", info_cols !! "marker",
        info_cols !! "res_key" with
  | Some u, Some c, Some m, None => valid_name u && valid_name c && valid_name m
  | _, _, _, _ => false
  end.

Definition has_data_col (info_cols : gmap string string)
    (data_sets : list (string * DataFrame)) : bool :=
  existsb (fun d => existsb (is_data_col info_cols) (columns (snd d))) data_sets.

Definition valid_input (data_sets : list (string * DataFrame))
    (info_cols : gmap string string) (version changes : string)
    (headers : list string) : bool :=
  forallb (fun d => valid_name (fst d) && valid_table info_cols headers (snd d))
          data_sets &&
  bool_decide (NoDup (map fst data_sets)) &&
  valid_info info_cols && sq_ok version && sq_ok changes &&
  has_data_col info_cols data_sets.

(** ** Loading a text block by block *)

(** The stack after the lines [ls], read from the stack [st]. *)
Definition absorb (ls : list string) (st : list Yaml.frame)
  : result (list Yaml.frame) :=
  es <<- Yaml.lex_lines ls ;; foldM Yaml.step es st.

(** The lines of a text made of template blocks. *)
Definition lines_of_blocks (bs : list (list string)) : list string :=
  concat (map (fun ls => "" :: ls) bs) ++ [""].

(** The stack after a blank line. *)
Definition mark_blank (st : list Yaml.frame) : list Yaml.frame :=
  match st with
  | Yaml.FPlain n parts _ :: st' => Yaml.FPlain n parts true :: st'
  | _ => st
  end.

Definition no_lf (l : string) : bool :=
  str_forall (fun c => negb (ascii_eqb c ch_lf)) l.

Definition loadable_char (c : ascii) : bool :=
  is_printable c || ascii_eqb c ch_lf.

(** The two inner loops of [Yaml.construct] as functions of their own. *)
Fixpoint construct_list (l : list Yaml.raw) : result (list yaml) :=
  match l with
  | [] => Ok []
  | x :: l' =>
      v <<- Yaml.construct x ;; vs <<- construct_list l' ;; Ok (v :: vs)
  end.

Fixpoint construct_entries (l : list (string * Yaml.raw))
    (d : list (yaml * yaml)) : result (list (yaml * yaml)) :=
  match l with
  | [] => Ok d
  | (k, x) :: l' =>
      key <<- Yaml.resolve_plain k ;;
      v <<- Yaml.construct x ;;
      construct_entries l' (dict_set d key v)
  end.

(** The lines of [resource_list] before the loop. *)
Definition resource_init_lines : list string :=
  ["- mediatype: application/vnd.openxmlformats-officedocument.spreadsheetml.sheet";
   "  format: xlsx";
   "  path: time_series.xlsx"].

(** The lines a data column adds to the schema text. *)
Definition col_field_lines (headers col : list string) : list string :=
  field_lines (col_household headers col) (col_feed headers col)
    (description_of (col_feed headers col))
    the_project the_web the_type the_region.

(** ** The three texts as lists of blocks *)

Definition all_data_cols (info_cols : gmap string string)
    (data_sets : list (string * DataFrame)) : list (list string) :=
  concat (map (fun d => data_cols info_cols (snd d)) data_sets).

Definition resource_blocks (data_sets : list (string * DataFrame))
  : list (list string) :=
  resource_init_lines :: map (fun d => resource_lines (fst d)) data_sets.

Definition source_blocks (info_cols : gmap string string)
    (data_sets : list (string * DataFrame)) : list (list string) :=
  map (fun _ => source_lines the_project the_web the_type)
      (all_data_cols info_cols data_sets).

Definition schema_blocks (info_cols : gmap string string)
    (headers : list string) (d : string * DataFrame) : list (list string) :=
  schema_lines (fst d) (info_name info_cols "utc") (info_name info_cols "cet")
    (info_name info_cols "marker")
  :: map (col_field_lines headers) (data_cols info_cols (snd d)).

Definition schemas_blocks (info_cols : gmap string string)
    (headers : list string) (data_sets : list (string * DataFrame))
  : list (list string) :=
  concat (map (schema_blocks info_cols headers) data_sets).

Definition text_of (bs : list (list string)) : string :=
  concat_str (map block bs).

Definition printable (l : string) : Prop := str_forall is_printable l = true.

(** The items of the one source entry, as the set holds them. *)
Definition source_items : list (yaml * yaml) :=
  [str_entry "project" the_project; str_entry "web" the_web;
   str_entry "type" the_type].

(** ** Reading the document *)



(** A field of an entry of the document. *)
Definition field_of (e : yaml) (name : string) : option yaml :=
  match e with
  | YMap d => dict_get d (YStr name)
  | _ => None
  end.

(** Two source entries that agree on project, web and type. *)
Definition same_source (a b : yaml) : Prop :=
  field_of a "project" = field_of b "project" /\
  field_of a "web" = field_of b "web" /\
  field_of a "type" = field_of b "type".

(** The source text of a run with as many data columns as [l] is long. *)
Definition source_text (l : list unit) : string :=
  text_of (map (fun _ => source_lines the_project the_web the_type) l).

(** The name of the schema field of a data column. *)
Definition col_field_name (headers col : list string) : string :=
  col_household headers col +:+ "_" +:+ col_feed headers col.

(** ** Inputs that give the same run *)

(** A table without its info columns. *)
Definition drop_info_cols (info_cols : gmap string string)
    (d : string * DataFrame) : string * DataFrame :=
  (fst d,
   {| columns := filter (fun col => is_info_col info_cols col = false)
                        (columns (snd d)) |}).

(** The header levels the loop body reads. *)
Definition levels_read : list string :=
  ["project"; "region"; "type"; "household"; "feed"].

(** Two records with the same entries under the names the two templates of
    the loop body use. *)
Definition agree (h1 h2 : gmap string yaml) : Prop :=
  forall n, n ∈ "web" :: "description" :: levels_read -> h1 !! n = h2 !! n.

(** ** The exception of a failing lookup *)

(** What reading [table[h[level]]] raises, if anything: the name of the level
    when the record has no such level, the code when the table does not list
    it. *)
Definition lookup_error (table : list (yaml * yaml)) (h : gmap string yaml)
    (level : string) : option exn :=
  match h !! level with
  | None => Some (KeyError (YStr level))
  | Some v =>
      match dict_get table v with
      | None => Some (KeyError v)
      | Some _ => None
      end
  end.

(** The three lookups outside the [try] block, in the order of the code. *)
Definition first_lookup_error (h : gmap string yaml) : option exn :=
  match lookup_error websites h "project" with
  | Some e => Some e
  | None =>
      match lookup_error regions h "region" with
      | Some e => Some e
      | None => lookup_error types h "type"
      end
  end.

(** The first level the field template asks for that the record lacks. *)
Definition first_missing_level (h : gmap string yaml) : option string :=
  match h !! "household" with
  | None => Some "household"
  | Some _ =>
      match h !! "feed" with
      | None => Some "feed"
      | Some _ => None
      end
  end.

(** The first name the schema template asks for that [info_cols] lacks. *)
Definition first_missing_name (info_cols : gmap string string)
  : option string :=
  match info_cols !! "utc" with
  | None => Some "utc"
  | Some _ =>
      match info_cols !! "cet" with
      | None => Some "cet"
      | Some _ =>
          match info_cols !! "marker" with
          | None => Some "marker"
          | Some _ => None
          end
      end
  end.

(** ** Entries the set can compare *)

Definition is_str (v : yaml) : bool :=
  match v with YStr _ => true | _ => false end.

(** Items whose keys and values are strings. *)
Definition str_items (d : list (yaml * yaml)) : bool :=
  forallb (fun kv => is_str (fst kv) && is_str (snd kv)) d.

(** No key of a dictionary equals ([==]) a later one: what a Python
    dictionary guarantees of its keys. *)
Fixpoint keys_distinct (d : list (yaml * yaml)) : bool :=
  match d with
  | [] => true
  | (k, _) :: d' =>
      forallb (fun kv => negb (key_eqb k (fst kv))) d' && keys_distinct d'
  end.

(** A dictionary of strings. *)
Definition str_dict (e : yaml) : bool :=
  match e with
  | YMap d => str_items d && keys_distinct d
  | _ => false
  end.

(** A text with three source entries, the first and the last alike. *)
Definition three_sources : string :=
  block ["- project: A"; "  web: B"; "- project: C"; "  web: D";
         "- project: A"; "  web: B"].

(** ** Texts in plain ASCII *)

(** A text of printable ASCII characters and line feeds. *)
Definition ascii_text (s : string) : bool := str_forall loadable_char s.

(** The float literals of a value (among its keys too) are printable: they
    are what [json.dumps] prints without quotes. *)
Fixpoint numerals_ok (v : yaml) : bool :=
  match v with
  | YFloat lit => str_forall is_printable lit
  | YSeq l => forallb numerals_ok l
  | YMap d => forallb (fun kv => numerals_ok (fst kv) && numerals_ok (snd kv)) d
  | _ => true
  end.

(** A value with a quote, a tabulator, a backslash and a character beyond
    ASCII in its strings. *)
Definition awkward_value : yaml :=
  YMap [(YStr (String ch_dq "name"),
         YSeq [YFloat "1.0"; YInt (-12); YNull;
               YStr (String "009" (String ch_bs (String "233" "")))]);
        (YBool true, YMap [])].

(** ** Texts between single quotes *)

(** The text a single-quoted scalar with the content [s] stands for: two
    quotes in a row stand for one; a quote on its own ends the scalar too
    early. *)
Fixpoint sq_read (s : string) : option string :=
  match s with
  | "" => Some ""
  | String c s' =>
      if ascii_eqb c ch_sq then
        match s' with
        | String c' s'' =>
            if ascii_eqb c' ch_sq
            then option_map (String ch_sq) (sq_read s'') else None
        | "" => None
        end
      else option_map (String c) (sq_read s')
  end.

(** * Properties *)

Arguments yaml_load : simpl never.
Arguments format : simpl never.

(** ** The result type and the loops *)

Lemma bind_ok {A B} (r : result A) (k : A -> result B) (b : B) :
  bind r k = Ok b -> exists a, r = Ok a /\ k a = Ok b.
Proof. destruct r as [a|e]; simpl; [eauto | discriminate]. Qed.

Lemma bind_raise {A B} (r : result A) (k : A -> result B) (e : exn) :
  r = Raise e -> bind r k = Raise e.
Proof. intros ->. reflexivity. Qed.

Lemma foldM_app {A S} (f : S -> A -> result S) (l1 l2 : list A) (s : S) :
  foldM f (l1 ++ l2) s = bind (foldM f l1 s) (foldM f l2).
Proof.
  revert s. induction l1 as [|a l1 IH]; intros s; simpl; [reflexivity|].
  destruct (f s a); simpl; auto.
Qed.

(** A loop whose body raises on some element, whatever the state, raises. *)
Lemma foldM_raises {A S} (f : S -> A -> result S) (l : list A) (a : A) :
  a ∈ l -> (forall s, exists e, f s a = Raise e) ->
  forall s, exists e, foldM f l s = Raise e.
Proof.
  intros Hin Hf. induction l as [|b l IH]; intros s.
  - inversion Hin.
  - simpl. apply elem_of_cons in Hin as [<- | Hin].
    + destruct (Hf s) as [e ->]. eauto.
    + destruct (f s b) as [s'|e]; simpl; eauto.
Qed.

(** ** The lookup tables *)

Lemma load_web_template : yaml_load web_template = Ok (YMap websites).
Proof. vm_compute. reflexivity. Qed.

Lemma load_region_template : yaml_load region_template = Ok (YMap regions).
Proof. vm_compute. reflexivity. Qed.

Lemma load_type_template : yaml_load type_template = Ok (YMap types).
Proof. vm_compute. reflexivity. Qed.

Lemma load_descriptions_template :
  yaml_load descriptions_template = Ok (YMap descriptions).
Proof. vm_compute. reflexivity. Qed.

(** The lookups as a function of the three codes and the feed. *)
Lemma lookups_unfold (h : gmap string yaml) :
  lookups h =
    (p <<- h_get h "project" ;;
     w <<- py_getitem (YMap websites) p ;;
     r <<- h_get h "region" ;;
     r' <<- py_getitem (YMap regions) r ;;
     t <<- h_get h "type" ;;
     t' <<- py_getitem (YMap types) t ;;
     d <<- try_KeyError
             (f <<- h_get h "feed" ;; py_getitem (YMap descriptions) f)
             (Ok (YStr "Energy in kWh")) ;;
     Ok (<["description" := d]>
           (<["type" := t']> (<["region" := r']> (<["web" := w]> h))))).
Proof.
  unfold lookups.
  rewrite load_web_template, load_region_template, load_type_template,
    load_descriptions_template.
  cbn [bind].
  destruct (h_get h "project") as [p|]; [cbn [bind] | reflexivity].
  destruct (py_getitem (YMap websites) p) as [w|]; [cbn [bind] | reflexivity].
  assert (Hr : h_get (<["web":=w]> h) "region" = h_get h "region").
  { unfold h_get. rewrite lookup_insert_ne by discriminate. reflexivity. }
  rewrite Hr.
  destruct (h_get h "region") as [r|]; [cbn [bind] | reflexivity].
  destruct (py_getitem (YMap regions) r) as [r'|]; [cbn [bind] | reflexivity].
  assert (Ht : h_get (<["region":=r']> (<["web":=w]> h)) "type" = h_get h "type").
  { unfold h_get. rewrite !lookup_insert_ne by discriminate. reflexivity. }
  rewrite Ht.
  destruct (h_get h "type") as [t|]; [cbn [bind] | reflexivity].
  destruct (py_getitem (YMap types) t) as [t'|]; [cbn [bind] | reflexivity].
  assert (Hf : h_get (<["type":=t']> (<["region":=r']> (<["web":=w]> h))) "feed"
               = h_get h "feed").
  { unfold h_get. rewrite !lookup_insert_ne by discriminate. reflexivity. }
  rewrite Hf. reflexivity.
Qed.

Lemma lookup_level_absent (table : list (yaml * yaml)) (h : gmap string yaml)
    (level : string) {B} (k : yaml -> result B) :
  code_absent table h level ->
  exists key,
    (v <<- h_get h level ;; w <<- py_getitem (YMap table) v ;; k w)
    = Raise (KeyError key).
Proof.
  intros Habs. unfold h_get.
  destruct (h !! level) as [v|] eqn:Hv; cbn [bind]; [|eauto].
  unfold py_getitem. rewrite (Habs v Hv). cbn [bind]. eauto.
Qed.

Lemma lookup_level_present (table : list (yaml * yaml)) (h : gmap string yaml)
    (level : string) {B} (k : yaml -> result B) :
  code_present table h level ->
  exists w,
    (v <<- h_get h level ;; w <<- py_getitem (YMap table) v ;; k w) = k w.
Proof.
  intros (v & w & Hv & Hw). exists w. unfold h_get, py_getitem.
  rewrite Hv. cbn [bind]. rewrite Hw. reflexivity.
Qed.

Lemma lookup_level_cases (table : list (yaml * yaml)) (h : gmap string yaml)
    (level : string) :
  code_absent table h level \/ code_present table h level.
Proof.
  unfold code_absent, code_present.
  destruct (h !! level) as [v|] eqn:Hv.
  - destruct (dict_get table v) as [w|] eqn:Hw.
    + right. eauto.
    + left. intros v' [= <-]. exact Hw.
  - left. intros v' [=].
Qed.

(** A missing project, region or type code is a [KeyError]. *)
Lemma lookups_missing_code (h : gmap string yaml) :
  code_absent websites h "project" \/ code_absent regions h "region" \/
  code_absent types h "type" ->
  exists key, lookups h = Raise (KeyError key).
Proof.
  intros Habs. rewrite lookups_unfold.
  destruct (lookup_level_cases websites h "project") as [Hp|Hp].
  { apply lookup_level_absent. exact Hp. }
  destruct (lookup_level_present websites h "project"
              (fun w => r <<- h_get h "region" ;;
     r' <<- py_getitem (YMap regions) r ;;
     t <<- h_get h "type" ;;
     t' <<- py_getitem (YMap types) t ;;
     d <<- try_KeyError
             (f <<- h_get h "feed" ;; py_getitem (YMap descriptions) f)
             (Ok (YStr "Energy in kWh")) ;;
     Ok (<["description" := d]>
           (<["type" := t']> (<["region" := r']> (<["web" := w]> h))))) Hp)
    as [w ->].
  destruct (lookup_level_cases regions h "region") as [Hr|Hr].
  { apply lookup_level_absent. exact Hr. }
  destruct (lookup_level_present regions h "region"
              (fun r' => t <<- h_get h "type" ;;
     t' <<- py_getitem (YMap types) t ;;
     d <<- try_KeyError
             (f <<- h_get h "feed" ;; py_getitem (YMap descriptions) f)
             (Ok (YStr "Energy in kWh")) ;;
     Ok (<["description" := d]>
           (<["type" := t']> (<["region" := r']> (<["web" := w]> h))))) Hr)
    as [r' ->].
  destruct (lookup_level_cases types h "type") as [Ht|Ht].
  { apply lookup_level_absent. exact Ht. }
  exfalso.
  destruct Hp as (v1 & w1 & Hv1 & Hw1), Hr as (v2 & w2 & Hv2 & Hw2),
    Ht as (v3 & w3 & Hv3 & Hw3).
  destruct Habs as [Ha | [Ha | Ha]].
  - rewrite (Ha _ Hv1) in Hw1. discriminate.
  - rewrite (Ha _ Hv2) in Hw2. discriminate.
  - rewrite (Ha _ Hv3) in Hw3. discriminate.
Qed.

(** With the three codes listed, an unlisted feed gets the default text. *)
Lemma lookups_default_description (h : gmap string yaml) :
  code_present websites h "project" -> code_present regions h "region" ->
  code_present types h "type" -> code_absent descriptions h "feed" ->
  exists h', lookups h = Ok h' /\
             h' !! "description" = Some (YStr "Energy in kWh").
Proof.
  intros (p & w & Hp & Hw) (r & r' & Hr & Hr') (t & t' & Ht & Ht') Hf.
  rewrite lookups_unfold. unfold h_get, py_getitem.
  rewrite Hp. cbn [bind]. rewrite Hw. cbn [bind].
  rewrite Hr. cbn [bind]. rewrite Hr'. cbn [bind].
  rewrite Ht. cbn [bind]. rewrite Ht'. cbn [bind].
  destruct (h !! "feed") as [f|] eqn:Hfeed; cbn [bind try_KeyError].
  - rewrite (Hf f Hfeed). cbn [bind try_KeyError].
    eexists. split; [reflexivity|]. apply lookup_insert_eq.
  - eexists. split; [reflexivity|]. apply lookup_insert_eq.
Qed.

(** ** Info columns and the header record *)

Lemma in_values_spec (v : string) (info_cols : gmap string string) :
  in_values v info_cols = true <-> exists name, info_cols !! name = Some v.
Proof.
  unfold in_values. rewrite bool_decide_eq_true, list_elem_of_fmap. split.
  - intros [[name v'] [-> Hin]]. exists name.
    apply elem_of_map_to_list in Hin. exact Hin.
  - intros [name Hname]. exists (name, v). split; [reflexivity|].
    apply elem_of_map_to_list. exact Hname.
Qed.

Lemma process_col_info (info_cols : gmap string string) (headers : list string)
    (st : string * string) (col : list string) :
  is_info_col info_cols col = true ->
  process_col info_cols headers st col = Ok st.
Proof.
  destruct col as [|c0 rest]; simpl; [discriminate|].
  intros H. unfold process_col. cbn [bind]. rewrite H. reflexivity.
Qed.

Lemma process_col_data (info_cols : gmap string string) (headers : list string)
    (st : string * string) (col : list string) :
  is_data_col info_cols col = true ->
  process_col info_cols headers st col =
    (h <<- lookups (build_h headers col) ;;
     f <<- format field_template h ;;
     s <<- format source_template h ;;
     Ok (fst st +:+ f, snd st +:+ s)).
Proof.
  destruct col as [|c0 rest]; simpl; [discriminate|].
  intros H. unfold process_col. cbn [bind].
  destruct (in_values c0 info_cols); [discriminate | reflexivity].
Qed.

Lemma build_h_go_notin (hs cs : list string) (acc : gmap string yaml)
    (name : string) :
  name ∉ hs ->
  foldl (fun h kv => <[fst kv := YStr (snd kv)]> h) acc (zip hs cs) !! name
  = acc !! name.
Proof.
  revert cs acc. induction hs as [|a hs IH]; intros cs acc Hnotin.
  - reflexivity.
  - destruct cs as [|c cs]; [reflexivity|]. simpl.
    rewrite IH by (intros Hin; apply Hnotin; right; exact Hin).
    apply lookup_insert_ne. intros ->. apply Hnotin. left.
Qed.

Lemma build_h_go_lookup (hs cs : list string) (acc : gmap string yaml)
    (i : nat) (name : string) :
  NoDup hs -> hs !! i = Some name ->
  foldl (fun h kv => <[fst kv := YStr (snd kv)]> h) acc (zip hs cs) !! name
  = match cs !! i with
    | Some v => Some (YStr v)
    | None => acc !! name
    end.
Proof.
  revert cs acc i. induction hs as [|a hs IH]; intros cs acc i Hnd Hi.
  - destruct i; discriminate.
  - apply NoDup_cons in Hnd as [Ha Hnd].
    destruct cs as [|c cs]; [destruct i; reflexivity|]. simpl.
    destruct i as [|i]; simpl in Hi |- *.
    + injection Hi as ->. rewrite build_h_go_notin by exact Ha.
      apply lookup_insert_eq.
    + rewrite (IH cs _ i Hnd Hi).
      destruct (cs !! i); [reflexivity|].
      apply lookup_insert_ne. intros ->. apply Ha.
      apply list_elem_of_lookup. eauto.
Qed.

(** With distinct level names, the record pairs the name of each level with
    the value the column has at that level. *)
Lemma build_h_lookup (headers col : list string) (i : nat) (name : string) :
  NoDup headers -> headers !! i = Some name ->
  build_h headers col !! name = YStr <$> col !! i.
Proof.
  intros Hnd Hi. unfold build_h. rewrite (build_h_go_lookup _ _ _ i) by assumption.
  destruct (col !! i); reflexivity.
Qed.

(** ** Exceptions abort the run *)

Lemma process_col_raises (info_cols : gmap string string)
    (headers : list string) (col : list string) (e : exn) :
  is_data_col info_cols col = true ->
  lookups (build_h headers col) = Raise e ->
  forall st, process_col info_cols headers st col = Raise e.
Proof.
  intros Hd He st. rewrite process_col_data by exact Hd. rewrite He. reflexivity.
Qed.

Lemma process_dataset_raises (info_cols : gmap string string)
    (headers : list string) (res_key : string) (df : DataFrame)
    (col : list string) :
  col ∈ columns df ->
  (forall st, exists e, process_col info_cols headers st col = Raise e) ->
  forall st, exists e,
    process_dataset info_cols headers st (res_key, df) = Raise e.
Proof.
  intros Hin Hcol [[resource_list source_list] schemas_dict].
  unfold process_dataset.
  destruct (format resource_template _) as [r|e]; cbn [bind]; [|eauto].
  destruct (foldM_raises _ _ _ Hin Hcol ("", source_list)) as [e ->]. eauto.
Qed.

Lemma build_metadata_raises (seed : list nat)
    (data_sets : list (string * DataFrame)) (info_cols : gmap string string)
    (version changes : string) (headers : list string) (d : string * DataFrame) :
  d ∈ data_sets ->
  (forall st, exists e, process_dataset info_cols headers st d = Raise e) ->
  exists e,
    build_metadata seed data_sets info_cols version changes headers = Raise e.
Proof.
  intros Hin Hd. unfold build_metadata.
  destruct (foldM_raises _ _ _ Hin Hd (resource_list_init, "", "")) as [e ->].
  eauto.
Qed.

Lemma make_json_raises (seed : list nat) (files : gmap string string)
    (data_sets : list (string * DataFrame)) (info_cols : gmap string string)
    (version changes : string) (headers : list string) (e : exn) :
  build_metadata seed data_sets info_cols version changes headers = Raise e ->
  make_json seed files data_sets info_cols version changes headers = Raise e.
Proof. intros H. unfold make_json. rewrite H. reflexivity. Qed.

(** ** Claims about single columns *)

(** C1: for a data column, a feed code that the description table does not
    list yields the default description [Energy in kWh] verbatim (the three
    other codes being listed), whereas a project, region or type code that
    its table does not list raises a [KeyError]: in the lookups, in the loop
    body, and so in every run whose tables contain the column, which ends
    in an exception and returns nothing. *)
Theorem C1_feed_defaults_other_codes_fatal
    (seed : list nat) (files : gmap string string)
    (data_sets : list (string * DataFrame)) (info_cols : gmap string string)
    (version changes : string) (headers : list string) (col : list string) :
  is_data_col info_cols col = true ->
  let h := build_h headers col in
  (code_present websites h "project" -> code_present regions h "region" ->
   code_present types h "type" -> code_absent descriptions h "feed" ->
   exists h', lookups h = Ok h' /\
              h' !! "description" = Some (YStr "Energy in kWh")) /\
  (code_absent websites h "project" \/ code_absent regions h "region" \/
   code_absent types h "type" ->
   (exists key, lookups h = Raise (KeyError key) /\
                forall st, process_col info_cols headers st col
                           = Raise (KeyError key)) /\
   (forall res_key df, (res_key, df) ∈ data_sets -> col ∈ columns df ->
      exists e, make_json seed files data_sets info_cols version changes headers
                = Raise e)).
Proof.
  intros Hdata h. split.
  - apply lookups_default_description.
  - intros Habs. destruct (lookups_missing_code h Habs) as [key Hkey].
    assert (Hcol : forall st, process_col info_cols headers st col
                              = Raise (KeyError key)).
    { apply process_col_raises; assumption. }
    split; [exists key; split; assumption|].
    intros res_key df Hd Hin.
    destruct (build_metadata_raises seed data_sets info_cols version changes
                headers (res_key, df) Hd) as [e He].
    { apply process_dataset_raises with (col := col); [exact Hin|].
      intros st. exists (KeyError key). apply Hcol. }
    exists e. apply make_json_raises. exact He.
Qed.

Lemma C1_witness :
  (exists h', lookups (build_h example_headers example_other_col) = Ok h' /\
              h' !! "description" = Some (YStr "Energy in kWh")) /\
  (exists e, make_json [] ∅
               [("15min", {| columns := [example_utc_col; example_foreign_col] |})]
               example_info_cols "2020-04-15" "first release" example_headers
             = Raise e).
Proof.
  split.
  - refine (proj1 (C1_feed_defaults_other_codes_fatal [] ∅ [] example_info_cols
              "" "" example_headers example_other_col _) _ _ _ _).
    + vm_compute. reflexivity.
    + exists (YStr "CoSSMic"), (YStr "http://cossmic.eu/").
      split; vm_compute; reflexivity.
    + exists (YStr "DE_konstanz"), (YStr "Germany, Konstanz").
      split; vm_compute; reflexivity.
    + eexists _, _. split; vm_compute; reflexivity.
    + intros v Hv. vm_compute in Hv. injection Hv as <-. vm_compute. reflexivity.
  - refine (proj2 (proj2 (C1_feed_defaults_other_codes_fatal [] ∅ _
              example_info_cols "2020-04-15" "first release" example_headers
              example_foreign_col _) _) "15min" _ _ _).
    + vm_compute. reflexivity.
    + left. intros v Hv. vm_compute in Hv. injection Hv as <-.
      vm_compute. reflexivity.
    + left.
    + right. left.
Defined.

(** C5: a column whose first header value is one of the values of
    [info_cols] is skipped, the field list and the source list stay as they
    are; every other column gets the record [h] that the lookups and the two
    templates are applied to, and, the level names being distinct, [h] pairs
    the name of each header level with the value of the column at that
    level. *)
Theorem C5_info_columns_skipped_data_columns_recorded
    (info_cols : gmap string string) (headers : list string)
    (st : string * string) (col : list string) (c0 : string)
    (rest : list string) :
  col = c0 :: rest ->
  ((exists name, info_cols !! name = Some c0) ->
   process_col info_cols headers st col = Ok st) /\
  (~ (exists name, info_cols !! name = Some c0) ->
   process_col info_cols headers st col =
     (h <<- lookups (build_h headers col) ;;
      f <<- format field_template h ;;
      s <<- format source_template h ;;
      Ok (fst st +:+ f, snd st +:+ s)) /\
   (NoDup headers ->
    forall i name, headers !! i = Some name ->
                   build_h headers col !! name = YStr <$> col !! i)).
Proof.
  intros ->. split.
  - intros Hinfo. apply process_col_info. simpl.
    apply in_values_spec. exact Hinfo.
  - intros Hdata. split.
    + apply process_col_data. simpl.
      destruct (in_values c0 info_cols) eqn:E; [|reflexivity].
      exfalso. apply Hdata. apply in_values_spec. exact E.
    + intros Hnd i name Hi. apply build_h_lookup; assumption.
Qed.

Lemma C5_witness :
  process_col example_info_cols example_headers ("fields", "sources")
    example_utc_col = Ok ("fields", "sources").
Proof.
  refine (proj1 (C5_info_columns_skipped_data_columns_recorded
            example_info_cols example_headers ("fields", "sources")
            example_utc_col "utc_timestamp" [""; ""; ""; ""] _) _).
  - reflexivity.
  - exists "utc". vm_compute. reflexivity.
Defined.

(** ** Runs without data columns *)

Lemma foldM_process_col_info (info_cols : gmap string string)
    (headers : list string) (cols : list (list string)) (st : string * string) :
  forallb (is_info_col info_cols) cols = true ->
  foldM (process_col info_cols headers) cols st = Ok st.
Proof.
  induction cols as [|col cols IH]; simpl; [reflexivity|].
  intros [Hcol Hcols]%andb_true_iff.
  rewrite process_col_info by exact Hcol. cbn [bind]. apply IH. exact Hcols.
Qed.

Lemma process_dataset_no_data (info_cols : gmap string string)
    (headers : list string) (st st' : string * string * string)
    (d : string * DataFrame) :
  forallb (is_info_col info_cols) (columns (snd d)) = true ->
  process_dataset info_cols headers st d = Ok st' ->
  snd (fst st') = snd (fst st).
Proof.
  destruct st as [[resource_list source_list] schemas_dict], d as [res_key df].
  simpl. intros Hcols. unfold process_dataset.
  rewrite foldM_process_col_info by exact Hcols.
  intros H.
  apply bind_ok in H as (r & _ & H). cbn [bind] in H.
  apply bind_ok in H as (kw & _ & H).
  apply bind_ok in H as (s & _ & H).
  injection H as <-. reflexivity.
Qed.

Lemma run_loops_no_data (info_cols : gmap string string)
    (headers : list string) (data_sets : list (string * DataFrame))
    (st st' : string * string * string) :
  no_data_columns info_cols data_sets = true ->
  foldM (process_dataset info_cols headers) data_sets st = Ok st' ->
  snd (fst st') = snd (fst st).
Proof.
  revert st. induction data_sets as [|d data_sets IH]; simpl; intros st.
  - intros _ [= <-]. reflexivity.
  - intros [Hd Hds]%andb_true_iff H.
    apply bind_ok in H as (st1 & H1 & H).
    rewrite (IH st1 Hds H). eapply process_dataset_no_data; eassumption.
Qed.

Lemma load_empty : yaml_load "" = Ok YNull.
Proof. vm_compute. reflexivity. Qed.

(** [None] is not iterable. *)
Lemma dedup_sources_empty (seed : list nat) :
  dedup_sources seed "" = Raise TypeError.
Proof. unfold dedup_sources. rewrite load_empty. reflexivity. Qed.

(** C10: when no column of any table is a data column (in particular when
    there is no table at all), the run ends in an exception; if the two
    loops complete, the source text is empty, the set comprehension of the
    deduplication raises [TypeError] on it, and that is the exception of
    the run. *)
Theorem C10_no_data_columns_raises_in_deduplication
    (seed : list nat) (files : gmap string string)
    (data_sets : list (string * DataFrame)) (info_cols : gmap string string)
    (version changes : string) (headers : list string) :
  no_data_columns info_cols data_sets = true ->
  (exists e, make_json seed files data_sets info_cols version changes headers
             = Raise e) /\
  (forall st, run_loops data_sets info_cols headers = Ok st ->
     snd (fst st) = "" /\
     dedup_sources seed (snd (fst st)) = Raise TypeError /\
     make_json seed files data_sets info_cols version changes headers
     = Raise TypeError).
Proof.
  intros Hno.
  assert (Hst : forall st, run_loops data_sets info_cols headers = Ok st ->
     snd (fst st) = "" /\
     dedup_sources seed (snd (fst st)) = Raise TypeError /\
     make_json seed files data_sets info_cols version changes headers
     = Raise TypeError).
  { intros st Hrun.
    pose proof (run_loops_no_data _ _ _ _ _ Hno Hrun) as Hsrc. simpl in Hsrc.
    split; [exact Hsrc|]. split; [rewrite Hsrc; apply dedup_sources_empty|].
    apply make_json_raises. unfold build_metadata.
    fold (run_loops data_sets info_cols headers). rewrite Hrun. cbn [bind].
    destruct st as [[resource_list source_list] schemas_dict].
    simpl in Hsrc. subst source_list.
    rewrite dedup_sources_empty. reflexivity. }
  split; [|exact Hst].
  destruct (run_loops data_sets info_cols headers) as [st|e] eqn:Hrun.
  - exists TypeError. apply (Hst st eq_refl).
  - exists e. apply make_json_raises. unfold build_metadata.
    fold (run_loops data_sets info_cols headers). rewrite Hrun. reflexivity.
Qed.

Lemma C10_witness :
  make_json [] ∅ [] example_info_cols "2020-04-15" "first release"
    example_headers = Raise TypeError /\
  make_json [] ∅ example_only_info example_info_cols "2020-04-15"
    "first release" example_headers = Raise TypeError.
Proof.
  split.
  - refine (proj2 (proj2 (proj2 (C10_no_data_columns_raises_in_deduplication
              [] ∅ [] example_info_cols "2020-04-15" "first release"
              example_headers _) _ _))).
    + reflexivity.
    + reflexivity.
  - refine (proj2 (proj2 (proj2 (C10_no_data_columns_raises_in_deduplication
              [] ∅ example_only_info example_info_cols "2020-04-15"
              "first release" example_headers _) _ _))).
    + vm_compute. reflexivity.
    + vm_compute. reflexivity.
Defined.

(** ** The example run *)

(** C2: for the table at resolution [15min] whose data column has household
    [DE_KN_residential1], feed [pv], project [CoSSMic], region [DE_konstanz]
    and type [residential_4-person_suburb_building], the schema of [15min]
    in the document has a field named [DE_KN_residential1_pv] whose
    description is [Total Photovoltaic energy generation in kWh]. *)
Theorem C2_example_pv_field (seed : list nat) :
  exists doc schemas schema fields field,
    build_metadata seed example_data_sets example_info_cols "2020-04-15"
      "first release" example_headers = Ok (YMap doc) /\
    dict_get doc (YStr "schemas") = Some (YMap schemas) /\
    dict_get schemas (YStr "15min") = Some (YMap schema) /\
    dict_get schema (YStr "fields") = Some (YSeq fields) /\
    YMap field ∈ fields /\
    dict_get field (YStr "name") = Some (YStr "DE_KN_residential1_pv") /\
    dict_get field (YStr "description")
    = Some (YStr "Total Photovoltaic energy generation in kWh").
Proof.
  destruct seed as [|[|n] seed];
    (eexists _, _, _, _, _; split; [vm_compute; reflexivity|];
     split; [vm_compute; reflexivity|];
     split; [vm_compute; reflexivity|];
     split; [vm_compute; reflexivity|];
     split; [do 3 right; left|];
     split; vm_compute; reflexivity).
Qed.

(** ** The return value *)

(** The function returns [None]; the document goes to the file. *)
Lemma make_json_returns_none (seed : list nat) (files : gmap string string)
    (data_sets : list (string * DataFrame)) (info_cols : gmap string string)
    (version changes : string) (headers : list string) (doc : yaml) :
  build_metadata seed data_sets info_cols version changes headers = Ok doc ->
  make_json seed files data_sets info_cols version changes headers
  = Ok (YNull, <["datapackage.json" := json_dumps doc]> files).
Proof. intros H. unfold make_json. rewrite H. reflexivity. Qed.

Lemma C6_counterexample :
  ~ returns_document [] ∅ example_data_sets example_info_cols "2020-04-15"
      "first release" example_headers.
Proof.
  intros (doc & files' & Hdoc & Hret).
  rewrite (make_json_returns_none _ _ _ _ _ _ _ _ Hdoc) in Hret.
  destruct Hret as [Hret | Hret]; [|discriminate].
  injection Hret as Hnone _. subst doc. vm_compute in Hdoc. discriminate.
Qed.

(** ** Strings *)

Lemma append_nil_r (s : string) : s +:+ "" = s.
Proof. induction s; simpl; congruence. Qed.

Lemma append_assoc_s (a b c : string) : (a +:+ b) +:+ c = a +:+ (b +:+ c).
Proof. induction a; simpl; congruence. Qed.

Lemma str_forall_app (p : ascii -> bool) (a b : string) :
  str_forall p (a +:+ b) = str_forall p a && str_forall p b.
Proof.
  induction a as [|c a IH]; simpl; [reflexivity|].
  rewrite IH. apply andb_assoc.
Qed.

Lemma str_forall_impl (p q : ascii -> bool) (s : string) :
  (forall c, p c = true -> q c = true) ->
  str_forall p s = true -> str_forall q s = true.
Proof.
  intros Hpq. induction s as [|c s IH]; simpl; [reflexivity|].
  intros [Hc Hs]%andb_true_iff. rewrite (Hpq c Hc), (IH Hs). reflexivity.
Qed.

Lemma ascii_eqb_eq (a b : ascii) : ascii_eqb a b = true <-> a = b.
Proof. apply Ascii.eqb_eq. Qed.

Lemma is_inert_spec (c : ascii) :
  is_inert c = true ->
  is_printable c = true /\ ascii_eqb c " " = false /\
  ascii_eqb c ":" = false /\ ascii_eqb c "#" = false /\
  ascii_eqb c ch_dq = false /\ ascii_eqb c ch_sq = false /\
  ascii_eqb c ch_lf = false.
Proof.
  unfold is_inert. intros [Hp Hn]%andb_true_iff.
  apply negb_true_iff in Hn.
  repeat (apply orb_false_iff in Hn as [Hn ?]).
  repeat split; try assumption.
  destruct (ascii_eqb c ch_lf) eqn:E; [|reflexivity].
  apply ascii_eqb_eq in E. subst c. discriminate.
Qed.

(** ** Lines and events *)

Module YamlFacts.
Import Yaml.

Lemma split_lines_line (l rest : string) :
  str_forall (fun c => negb (ascii_eqb c ch_lf)) l = true ->
  split_lines (l +:+ nl +:+ rest) = l :: split_lines rest.
Proof.
  induction l as [|c l IH]; simpl.
  - reflexivity.
  - intros [Hc Hl]%andb_true_iff. apply negb_true_iff in Hc.
    change (ascii_eqb c ch_lf) with (Ascii.eqb c ch_lf) in Hc.
    fold ch_lf. unfold ascii_eqb at 1. rewrite Hc.
    change (l +:+ String ch_lf rest) with (l +:+ nl +:+ rest).
    rewrite (IH Hl). reflexivity.
Qed.

Lemma split_lines_lines (ls : list string) (rest : string) :
  Forall (fun l => str_forall (fun c => negb (ascii_eqb c ch_lf)) l = true) ls ->
  split_lines (concat_str (map (fun l => l +:+ nl) ls) +:+ rest)
  = ls ++ split_lines rest.
Proof.
  induction 1 as [|l ls Hl _ IH]; simpl; [reflexivity|].
  rewrite !append_assoc_s. rewrite split_lines_line by exact Hl.
  rewrite IH. reflexivity.
Qed.

Lemma split_lines_block (ls : list string) (rest : string) :
  Forall (fun l => str_forall (fun c => negb (ascii_eqb c ch_lf)) l = true) ls ->
  split_lines (block ls +:+ rest) = "" :: ls ++ split_lines rest.
Proof.
  intros H. unfold block. rewrite append_assoc_s.
  change (split_lines (nl +:+ ?x)) with ("" :: split_lines x).
  rewrite split_lines_lines by exact H. reflexivity.
Qed.

Lemma lex_lines_app (a b : list string) :
  lex_lines (a ++ b) =
    (es <<- lex_lines a ;; es' <<- lex_lines b ;; Ok (es ++ es')).
Proof.
  induction a as [|l a IH]; simpl.
  - destruct (lex_lines b); reflexivity.
  - destruct (lex_line l) as [es|]; cbn [bind]; [|reflexivity].
    rewrite IH. destruct (lex_lines a) as [es1|]; cbn [bind]; [|reflexivity].
    destruct (lex_lines b) as [es2|]; cbn [bind]; [|reflexivity].
    rewrite app_assoc. reflexivity.
Qed.

Lemma has_char_inert (s : string) :
  str_forall is_inert s = true -> has_char "#" s = false.
Proof.
  induction s as [|c s IH]; simpl; [reflexivity|].
  intros [Hc Hs]%andb_true_iff.
  apply is_inert_spec in Hc as (_ & _ & _ & Hh & _).
  rewrite Hh, (IH Hs). reflexivity.
Qed.

Lemma find_colon_inert (s : string) :
  str_forall is_inert s = true -> find_colon s = None.
Proof.
  induction s as [|c s IH]; simpl; [reflexivity|].
  intros [Hc Hs]%andb_true_iff.
  apply is_inert_spec in Hc as (_ & _ & Hcol & _).
  rewrite Hcol, (IH Hs). reflexivity.
Qed.

(** A key of inert characters ends at the colon that follows it. *)
Lemma find_colon_key (k rest : string) :
  str_forall is_inert k = true ->
  match rest with "" => True | String c _ => c = " "%char end ->
  find_colon (k +:+ String ":" rest) = Some (k, rest).
Proof.
  intros Hk Hrest. induction k as [|c k IH]; simpl.
  - destruct rest as [|c' rest']; [reflexivity|]. subst c'. reflexivity.
  - simpl in Hk. apply andb_true_iff in Hk as [Hc Hk].
    apply is_inert_spec in Hc as (_ & _ & Hcol & _).
    rewrite Hcol, (IH Hk). reflexivity.
Qed.

Lemma rstrip_inert (s : string) :
  str_forall is_inert s = true -> rstrip s = s.
Proof.
  induction s as [|c s IH]; simpl; [reflexivity|].
  intros [Hc Hs]%andb_true_iff.
  apply is_inert_spec in Hc as (_ & Hsp & _).
  rewrite (IH Hs), Hsp. destruct s; reflexivity.
Qed.

Lemma skip_spaces_spaces (n : nat) (s : string) :
  match s with "" => True | String c _ => ascii_eqb c " " = false end ->
  skip_spaces (Json.spaces n +:+ s) = (n, s).
Proof.
  intros Hs. induction n as [|n IH]; simpl.
  - destruct s as [|c s]; [reflexivity|]. simpl. rewrite Hs. reflexivity.
  - rewrite IH. reflexivity.
Qed.

Lemma ok_word_inert (s : string) :
  ok_word s = true -> str_forall is_inert s = true.
Proof.
  destruct s as [|c s]; [discriminate|]. unfold ok_word.
  intros [_ H]%andb_true_iff. exact H.
Qed.

Lemma ok_word_start (s : string) :
  ok_word s = true ->
  exists c s', s = String c s' /\ is_indicator c = false /\
               ascii_eqb c " " = false /\ ascii_eqb c ch_dq = false /\
               ascii_eqb c ch_sq = false /\ ascii_eqb c "-" = false.
Proof.
  destruct s as [|c s]; [discriminate|]. unfold ok_word.
  intros [Hi Hs]%andb_true_iff. apply negb_true_iff in Hi.
  simpl in Hs. apply andb_true_iff in Hs as [Hc _].
  apply is_inert_spec in Hc as (_ & Hsp & _ & _ & Hdq & Hsq & _).
  exists c, s. repeat split; try assumption.
  destruct (ascii_eqb c "-") eqn:E; [|reflexivity].
  apply ascii_eqb_eq in E. subst c. discriminate.
Qed.

Lemma lex_scalar_word (s : string) :
  ok_word s = true -> lex_scalar s = Ok (VPlain s).
Proof.
  intros H. pose proof (ok_word_inert _ H) as Hin.
  destruct (ok_word_start _ H) as (c & s' & -> & Hi & _ & Hdq & Hsq & _).
  unfold lex_scalar. rewrite Hdq, Hsq, Hi. cbn [orb].
  rewrite (has_char_inert _ Hin), (find_colon_inert _ Hin), (rstrip_inert _ Hin).
  reflexivity.
Qed.

Lemma plain_ok_word (s : string) : ok_word s = true -> plain_ok s = true.
Proof.
  intros H. unfold plain_ok. rewrite (lex_scalar_word _ H).
  rewrite String.eqb_refl.
  rewrite (str_forall_impl is_inert is_printable s)
    by (try (apply ok_word_inert; exact H);
        intros c Hc; apply is_inert_spec in Hc; tauto).
  destruct (ok_word_start _ H) as (c & s' & -> & _ & Hsp & _).
  rewrite Hsp. reflexivity.
Qed.

Lemma plain_ok_spec (v : string) :
  plain_ok v = true ->
  lex_scalar v = Ok (VPlain v) /\
  (exists c v', v = String c v' /\ ascii_eqb c " " = false) /\
  str_forall is_printable v = true.
Proof.
  unfold plain_ok. intros [[Hp Hs]%andb_true_iff Hl]%andb_true_iff.
  split; [|split; [|exact Hp]].
  - destruct (lex_scalar v) as [[| v' |]|]; try discriminate.
    apply String.eqb_eq in Hl. subst v'. reflexivity.
  - destruct v as [|c v']; [discriminate|]. exists c, v'. split; [reflexivity|].
    apply negb_true_iff in Hs. exact Hs.
Qed.

Lemma lex_item_plain (n : nat) (c : ascii) (s : string) :
  ascii_eqb c ch_dq = false -> ascii_eqb c ch_sq = false ->
  is_indicator c = false ->
  lex_item n (String c s) =
    match find_colon (String c s) with
    | None => v <<- lex_scalar (String c s) ;; Ok (EText n v)
    | Some (k, rest) =>
        if has_char "#" k then Raise Unmodelled
        else v <<- lex_scalar (snd (skip_spaces rest)) ;;
             Ok (EPair n (rstrip k) v)
    end.
Proof. intros Hdq Hsq Hi. unfold lex_item. rewrite Hdq, Hsq, Hi. reflexivity. Qed.

(** The item [key: value] at column [n]. *)
Lemma lex_item_pair (n : nat) (k v : string) :
  ok_word k = true -> plain_ok v = true ->
  lex_item n (k +:+ ": " +:+ v) = Ok (EPair n k (VPlain v)).
Proof.
  intros Hk Hv. pose proof (ok_word_inert _ Hk) as Hin.
  destruct (ok_word_start _ Hk) as (c & k' & Ek & Hi & _ & Hdq & Hsq & _).
  destruct (plain_ok_spec _ Hv) as (Hlex & (c' & v' & Ev & Hc') & _).
  assert (E : k +:+ ": " +:+ v = String c (k' +:+ ": " +:+ v))
    by (rewrite Ek; reflexivity).
  rewrite E, (lex_item_plain _ _ _ Hdq Hsq Hi), <- E.
  change (k +:+ ": " +:+ v) with (k +:+ String ":" (String " " v)).
  rewrite (find_colon_key _ _ Hin) by reflexivity.
  rewrite (has_char_inert _ Hin), (rstrip_inert _ Hin).
  change (String " " v) with (Json.spaces 1 +:+ v).
  rewrite skip_spaces_spaces by (rewrite Ev; exact Hc'). cbn [snd].
  rewrite Hlex. reflexivity.
Qed.

Lemma lex_line_item (n : nat) (s : string) (e : event) :
  (exists c s', s = String c s' /\ ascii_eqb c " " = false /\
                ascii_eqb c "-" = false) ->
  lex_item n s = Ok e ->
  lex_line (Json.spaces n +:+ s) = Ok [e].
Proof.
  intros (c & s' & -> & Hsp & Hd) He. unfold lex_line.
  rewrite skip_spaces_spaces by exact Hsp.
  cbv iota beta. rewrite Hd, He. reflexivity.
Qed.

Lemma lex_line_dash_item (n : nat) (s : string) (e : event) :
  (exists c s', s = String c s' /\ ascii_eqb c " " = false) ->
  lex_item (n + 2) s = Ok e ->
  lex_line (Json.spaces n +:+ "- " +:+ s) = Ok [EDash n; e].
Proof.
  intros (c & s' & -> & Hsp) He. unfold lex_line.
  rewrite skip_spaces_spaces by reflexivity.
  change ("- " +:+ String c s') with (String "-" (String " " (String c s'))).
  cbv iota beta. cbn [ascii_eqb Ascii.eqb Bool.eqb andb].
  change (String c s') with (Json.spaces 0 +:+ String c s') at 1.
  rewrite skip_spaces_spaces by exact Hsp.
  cbv iota beta. rewrite Nat.add_0_r, He. reflexivity.
Qed.

Lemma lex_line_pair (n : nat) (k v : string) :
  ok_word k = true -> plain_ok v = true ->
  lex_line (Json.spaces n +:+ k +:+ ": " +:+ v) = Ok [EPair n k (VPlain v)].
Proof.
  intros Hk Hv. apply lex_line_item; [|apply lex_item_pair; assumption].
  destruct (ok_word_start _ Hk) as (c & k' & -> & _ & Hsp & _ & _ & Hd).
  exists c, (k' +:+ ": " +:+ v). auto.
Qed.

Lemma lex_line_dash_pair (n : nat) (k v : string) :
  ok_word k = true -> plain_ok v = true ->
  lex_line (Json.spaces n +:+ "- " +:+ k +:+ ": " +:+ v)
  = Ok [EDash n; EPair (n + 2) k (VPlain v)].
Proof.
  intros Hk Hv. apply lex_line_dash_item; [|apply lex_item_pair; assumption].
  destruct (ok_word_start _ Hk) as (c & k' & -> & _ & Hsp & _).
  exists c, (k' +:+ ": " +:+ v). auto.
Qed.

Lemma lex_line_key (k : string) :
  ok_word k = true -> lex_line (k +:+ ":") = Ok [EPair 0 k VEmpty].
Proof.
  intros Hk. pose proof (ok_word_inert _ Hk) as Hin.
  destruct (ok_word_start _ Hk) as (c & k' & Ek & Hi & Hsp & Hdq & Hsq & Hd).
  assert (E : k +:+ ":" = String c (k' +:+ ":")) by (rewrite Ek; reflexivity).
  apply (lex_line_item 0 (k +:+ ":")).
  - exists c, (k' +:+ ":"). auto.
  - rewrite E, (lex_item_plain _ _ _ Hdq Hsq Hi), <- E.
    rewrite (find_colon_key _ _ Hin) by exact I.
    rewrite (has_char_inert _ Hin), (rstrip_inert _ Hin). reflexivity.
Qed.

End YamlFacts.

(** ** The stack of open blocks *)

Module StackFacts.
Import Yaml YamlFacts.

Lemma absorb_app (a b : list string) (st st' : list frame) :
  absorb a st = Ok st' -> absorb (a ++ b) st = absorb b st'.
Proof.
  unfold absorb. intros H. apply bind_ok in H as (ea & Ha & Hrun).
  rewrite lex_lines_app, Ha. cbn [bind].
  destruct (lex_lines b) as [eb|]; cbn [bind]; [|reflexivity].
  rewrite foldM_app, Hrun. reflexivity.
Qed.

Lemma compose_absorb (text : string) :
  compose text = (st <<- absorb (split_lines text) [] ;; finish st).
Proof.
  unfold compose, absorb.
  destruct (lex_lines (split_lines text)); reflexivity.
Qed.

Lemma split_lines_blocks (bs : list (list string)) :
  Forall (Forall (fun l => no_lf l = true)) bs ->
  split_lines (concat_str (map block bs)) = lines_of_blocks bs.
Proof.
  unfold lines_of_blocks. induction 1 as [|ls bs Hls _ IH].
  - reflexivity.
  - cbn [map concat_str concat]. rewrite split_lines_block by exact Hls.
    rewrite IH. rewrite <- app_assoc. reflexivity.
Qed.

Lemma close_go_unfold (n : nat) (v : raw) (p : frame) (st : list frame) :
  close_go n v (p :: st) = (p' <<- attach v p ;; close_to n (p' :: st)).
Proof. reflexivity. Qed.

(** Closing to a column and then to a smaller one is closing to the smaller
    one. *)
Lemma close_go_trans (m n : nat) (v : raw) (st : list frame) :
  m <= n ->
  close_go m v st = (st' <<- close_go n v st ;; close_to m st').
Proof.
  intros Hmn. revert v. induction st as [|p st IH]; intros v; simpl.
  - reflexivity.
  - destruct (attach v p) as [p'|]; cbn [bind]; [|reflexivity].
    destruct ((n <? frame_indent p')) eqn:En.
    + apply Nat.ltb_lt in En.
      assert (Em : (m <? frame_indent p') = true) by (apply Nat.ltb_lt; lia).
      rewrite Em. apply IH.
    + simpl. reflexivity.
Qed.

Lemma close_to_trans (m n : nat) (st : list frame) :
  m <= n ->
  close_to m st = (st' <<- close_to n st ;; close_to m st').
Proof.
  intros Hmn. destruct st as [|f st]; simpl; [reflexivity|].
  destruct ((n <? frame_indent f)) eqn:En.
  - apply Nat.ltb_lt in En.
    assert (Em : (m <? frame_indent f) = true) by (apply Nat.ltb_lt; lia).
    rewrite Em. apply close_go_trans. exact Hmn.
  - simpl. reflexivity.
Qed.

Lemma finish_go_close (n : nat) (v : raw) (st st' : list frame) :
  close_go n v st = Ok st' -> finish_go v st = finish st'.
Proof.
  revert v. induction st as [|p st IH]; intros v; simpl; [discriminate|].
  destruct (attach v p) as [p'|]; cbn [bind]; [|discriminate].
  destruct (n <? frame_indent p').
  - apply IH.
  - intros [= <-]. reflexivity.
Qed.

(** Closing blocks early does not change the root node. *)
Lemma finish_close (n : nat) (st st' : list frame) :
  close_to n st = Ok st' -> finish st = finish st'.
Proof.
  destruct st as [|f st]; simpl.
  - intros [= <-]. reflexivity.
  - destruct (n <? frame_indent f).
    + apply finish_go_close.
    + intros [= <-]. reflexivity.
Qed.

Lemma step_blank (st : list frame) : step st EBlank = Ok (mark_blank st).
Proof. destruct st as [|[] st]; reflexivity. Qed.

Lemma close_to_mark (n : nat) (st st' : list frame) :
  close_to n st = Ok st' ->
  match st' with FPlain _ _ _ :: _ => False | _ => True end ->
  close_to n (mark_blank st) = Ok st'.
Proof.
  destruct st as [|[m items o | m es k | m parts b] st]; simpl; try (intros; assumption).
  destruct (n <? m).
  - intros H _. exact H.
  - intros [= <-] [].
Qed.

Lemma finish_mark (st : list frame) : finish (mark_blank st) = finish st.
Proof. destruct st as [|[] st]; reflexivity. Qed.

(** A blank line and a dash that continues the sequence at column [n]. *)
Lemma run_blank_dash (n : nat) (st base : list frame) (items : list raw)
    (es : list event) :
  close_to n st = Ok (FSeq n items false :: base) ->
  foldM step (EBlank :: EDash n :: es) st
  = foldM step es (FSeq n items true :: base).
Proof.
  intros H. cbn [foldM]. rewrite step_blank. cbn [bind].
  unfold step at 1. cbn [event_indent].
  rewrite (close_to_mark _ _ _ H I). cbn [bind step_dash].
  rewrite Nat.eqb_refl. reflexivity.
Qed.

(** A blank line and a key that continues the mapping at column 0. *)
Lemma run_blank_key (k : string) (st : list frame)
    (ents : list (string * raw)) (es : list event) :
  close_to 0 st = Ok [FMap 0 ents None] \/ (st = [] /\ ents = []) ->
  foldM step (EBlank :: EPair 0 k VEmpty :: es) st
  = foldM step es [FMap 0 ents (Some k)].
Proof.
  intros [H | [-> ->]].
  - cbn [foldM]. rewrite step_blank. cbn [bind].
    unfold step at 1. cbn [event_indent].
    rewrite (close_to_mark _ _ _ H I). reflexivity.
  - reflexivity.
Qed.

End StackFacts.

(** ** The blocks of the three texts *)

Module ChunkFacts.
Import Yaml YamlFacts StackFacts.

Lemma construct_map (l : list (string * raw)) :
  construct (RMap l) = (d <<- construct_entries l [] ;; Ok (YMap d)).
Proof. reflexivity. Qed.

Lemma construct_seq (l : list raw) :
  construct (RSeq l) = (vs <<- construct_list l ;; Ok (YSeq vs)).
Proof. reflexivity. Qed.

Lemma construct_plain (t : string) : construct (RPlain t) = resolve_plain t.
Proof. reflexivity. Qed.

Lemma construct_quoted (s : string) : construct (RQuoted s) = Ok (YStr s).
Proof. reflexivity. Qed.

Lemma construct_entries_cons (k : string) (x : raw) (l : list (string * raw))
    (d : list (yaml * yaml)) :
  construct_entries ((k, x) :: l) d =
    (key <<- resolve_plain k ;; v <<- construct x ;;
     construct_entries l (dict_set d key v)).
Proof. reflexivity. Qed.

Lemma construct_entries_nil (d : list (yaml * yaml)) :
  construct_entries [] d = Ok d.
Proof. reflexivity. Qed.

Lemma construct_list_cons (x : raw) (l : list raw) :
  construct_list (x :: l) =
    (v <<- construct x ;; vs <<- construct_list l ;; Ok (v :: vs)).
Proof. reflexivity. Qed.

Lemma construct_list_nil : construct_list [] = Ok [].
Proof. reflexivity. Qed.

Lemma construct_list_app (a b : list raw) (va vb : list yaml) :
  construct_list a = Ok va -> construct_list b = Ok vb ->
  construct_list (a ++ b) = Ok (va ++ vb).
Proof.
  revert va. induction a as [|x a IH]; intros va; simpl.
  - intros [= <-] Hb. exact Hb.
  - intros Ha Hb. apply bind_ok in Ha as (v & Hv & Ha).
    apply bind_ok in Ha as (vs & Hvs & Ha). injection Ha as <-.
    rewrite Hv. cbn [bind]. rewrite (IH vs Hvs Hb). reflexivity.
Qed.

#[local] Arguments resolve_plain : simpl never.

(** Rewrites the lexing of one line of the goal with the instance [L] of a
    line lemma, whose line is written differently but is the same string. *)
Ltac use_line L :=
  match type of L with
  | lex_line ?X = _ =>
      match goal with
      | |- context [lex_line ?l] =>
          change (lex_line l) with (lex_line X); rewrite L
      end
  end.

(** Evaluates the lexing of the lines that have no unknown part. *)
Ltac lex_closed_lines :=
  repeat match goal with
  | |- context [lex_line ?l] =>
      let v := eval vm_compute in (lex_line l) in
      change (lex_line l) with v
  end.

(** Evaluates [construct] once the plain scalars that are unknown strings
    are resolved by the hypotheses. *)
Ltac construct_solve :=
  cbn [construct];
  repeat match goal with
         | H : resolve_plain ?s = _ |- context [resolve_plain ?s] => rewrite H
         end;
  vm_compute; reflexivity.

Lemma ok_word_app (a b : string) :
  ok_word a = true -> str_forall is_inert b = true -> ok_word (a +:+ b) = true.
Proof.
  destruct a as [|c a]; [discriminate|]. unfold ok_word.
  change (String c a +:+ b) with (String c (a +:+ b)). cbv iota.
  intros [Hi Ha]%andb_true_iff Hb. rewrite Hi.
  change (String c (a +:+ b)) with (String c a +:+ b).
  rewrite str_forall_app, Ha, Hb. reflexivity.
Qed.

Lemma loads_as_str_spec (s : string) :
  loads_as_str s = true -> resolve_plain s = Ok (YStr s).
Proof.
  unfold loads_as_str.
  destruct (resolve_plain s) as [[]|]; try discriminate.
  intros ->%String.eqb_eq. reflexivity.
Qed.

Lemma valid_name_spec (s : string) :
  valid_name s = true ->
  ok_word s = true /\ resolve_plain s = Ok (YStr s).
Proof.
  unfold valid_name. intros [H1 H2]%andb_true_iff.
  split; [exact H1 | apply loads_as_str_spec; exact H2].
Qed.

(** *** One source entry *)

Lemma absorb_source (st : list frame) (items : list raw) :
  close_to 0 st = Ok [FSeq 0 items false] \/ (st = [] /\ items = []) ->
  exists st' r,
    absorb ("" :: source_lines the_project the_web the_type) st = Ok st' /\
    close_to 0 st' = Ok [FSeq 0 (r :: items) false] /\
    construct r = Ok source_entry.
Proof.
  intros H. unfold absorb, source_lines. cbn [lex_lines]. lex_closed_lines.
  cbn [bind app].
  destruct H as [H | [-> ->]].
  - rewrite (run_blank_dash 0 st [] items _ H).
    eexists _, _. split; [vm_compute; reflexivity|].
    split; [vm_compute; reflexivity|]. vm_compute. reflexivity.
  - eexists _, _. split; [vm_compute; reflexivity|].
    split; [vm_compute; reflexivity|]. vm_compute. reflexivity.
Qed.

(** *** One field of a schema *)

Lemma absorb_field (hh feed d : string) (st base : list frame)
    (items : list raw) :
  valid_name hh = true -> valid_name feed = true ->
  loads_as_str (hh +:+ "_" +:+ feed) = true ->
  plain_ok d = true -> loads_as_str d = true ->
  close_to 6 st = Ok (FSeq 6 items false :: base) ->
  exists st' r,
    absorb ("" :: field_lines hh feed d the_project the_web the_type the_region)
      st = Ok st' /\
    close_to 6 st' = Ok (FSeq 6 (r :: items) false :: base) /\
    construct r = Ok (field_entry hh feed d).
Proof.
  intros [Hh Hh']%valid_name_spec [Hf Hf']%valid_name_spec
    Hn'%loads_as_str_spec Hd Hd'%loads_as_str_spec H.
  assert (Hn : ok_word (hh +:+ "_" +:+ feed) = true).
  { apply ok_word_app; [exact Hh|]. apply (ok_word_inert ("_" +:+ feed)).
    apply (ok_word_app "_"); [reflexivity|]. apply ok_word_inert. exact Hf. }
  unfold absorb, field_lines, field_entry. cbn [lex_lines].
  remember (hh +:+ "_" +:+ feed) as name eqn:Ename. clear Ename.
  use_line (lex_line_dash_pair 6 "name" name eq_refl (plain_ok_word _ Hn)).
  use_line (lex_line_pair 8 "description" d eq_refl Hd).
  use_line (lex_line_pair 12 "Household" hh eq_refl (plain_ok_word _ Hh)).
  use_line (lex_line_pair 12 "Feed" feed eq_refl (plain_ok_word _ Hf)).
  lex_closed_lines. cbn [bind app].
  rewrite (run_blank_dash 6 st base items _ H).
  eexists _, _. split; [vm_compute; reflexivity|].
  split; [vm_compute; reflexivity|].
  construct_solve.
Qed.

(** *** One resource *)

Lemma str_forall_inert_lit (a : string) (k : string) (b : string) :
  str_forall is_inert a = true -> str_forall is_inert k = true ->
  str_forall is_inert b = true ->
  str_forall is_inert (a +:+ k +:+ b) = true.
Proof.
  intros Ha Hk Hb. rewrite !str_forall_app, Ha, Hk, Hb. reflexivity.
Qed.

Lemma ok_word_path (k suffix : string) :
  ok_word k = true -> str_forall is_inert suffix = true ->
  ok_word ("household_data_" +:+ k +:+ suffix) = true.
Proof.
  intros Hk Hs. apply (ok_word_app "household_data_"); [reflexivity|].
  rewrite str_forall_app, (ok_word_inert _ Hk), Hs. reflexivity.
Qed.

Lemma resolve_plain_path (x : string) :
  resolve_plain ("household_data_" +:+ x) = Ok (YStr ("household_data_" +:+ x)).
Proof. reflexivity. Qed.

Lemma absorb_resource (k : string) (st : list frame) (items : list raw) :
  valid_name k = true ->
  close_to 0 st = Ok [FSeq 0 items false] ->
  exists st' r,
    absorb ("" :: resource_lines k) st = Ok st' /\
    close_to 0 st' = Ok [FSeq 0 (r :: items) false] /\
    construct r = Ok (resource_entry k).
Proof.
  intros [Hk Hk']%valid_name_spec H.
  pose proof (ok_word_path k "_singleindex.csv" Hk eq_refl) as H1.
  pose proof (ok_word_path k "_multiindex.csv" Hk eq_refl) as H2.
  pose proof (ok_word_path k "_stacked.csv" Hk eq_refl) as H3.
  pose proof (resolve_plain_path (k +:+ "_singleindex.csv")) as R1.
  pose proof (resolve_plain_path (k +:+ "_multiindex.csv")) as R2.
  pose proof (resolve_plain_path (k +:+ "_stacked.csv")) as R3.
  unfold absorb, resource_lines, resource_entry, alternative.
  cbn [lex_lines].
  change ("household_data_" +:+ k +:+ "_singleindex.csv")
    with ("household_data_" +:+ (k +:+ "_singleindex.csv")) in *.
  change ("household_data_" +:+ k +:+ "_multiindex.csv")
    with ("household_data_" +:+ (k +:+ "_multiindex.csv")) in *.
  change ("household_data_" +:+ k +:+ "_stacked.csv")
    with ("household_data_" +:+ (k +:+ "_stacked.csv")) in *.
  remember ("household_data_" +:+ (k +:+ "_singleindex.csv")) as p1 eqn:E1.
  remember ("household_data_" +:+ (k +:+ "_multiindex.csv")) as p2 eqn:E2.
  remember ("household_data_" +:+ (k +:+ "_stacked.csv")) as p3 eqn:E3.
  clear E1 E2 E3.
  use_line (lex_line_dash_pair 0 "path" p1 eq_refl (plain_ok_word _ H1)).
  use_line (lex_line_pair 2 "schema" k eq_refl (plain_ok_word _ Hk)).
  use_line (lex_line_dash_pair 6 "path" p1 eq_refl (plain_ok_word _ H1)).
  use_line (lex_line_dash_pair 6 "path" p2 eq_refl (plain_ok_word _ H2)).
  use_line (lex_line_dash_pair 6 "path" p3 eq_refl (plain_ok_word _ H3)).
  lex_closed_lines. cbn [bind app].
  rewrite (run_blank_dash 0 st [] items _ H).
  eexists _, _. split; [vm_compute; reflexivity|].
  split; [vm_compute; reflexivity|].
  construct_solve.
Qed.

Lemma absorb_resource_init :
  exists st' r,
    absorb ("" :: resource_init_lines) [] = Ok st' /\
    close_to 0 st' = Ok [FSeq 0 [r] false] /\
    construct r = Ok xlsx_entry.
Proof.
  eexists _, _. split; [vm_compute; reflexivity|].
  split; [vm_compute; reflexivity|]. vm_compute. reflexivity.
Qed.

(** *** The head of a schema *)

Lemma absorb_schema_head (k utc cet marker : string) (st : list frame)
    (ents : list (string * raw)) :
  valid_name k = true -> valid_name utc = true -> valid_name cet = true ->
  valid_name marker = true ->
  close_to 0 st = Ok [FMap 0 ents None] \/ (st = [] /\ ents = []) ->
  exists st' u c m,
    absorb ("" :: schema_lines k utc cet marker) st = Ok st' /\
    close_to 6 st' =
      Ok [FSeq 6 [m; c; u] false;
          FMap 4 [("missingValue", RQuoted ""); ("primaryKey", RPlain utc)]
            (Some "fields");
          FMap 0 ents (Some k)] /\
    construct u = Ok (utc_field utc) /\
    construct c = Ok (cet_field cet) /\
    construct m = Ok (marker_field marker).
Proof.
  intros [Hk Hk']%valid_name_spec [Hu Hu']%valid_name_spec
    [Hc Hc']%valid_name_spec [Hm Hm']%valid_name_spec H.
  unfold absorb, schema_lines, utc_field, cet_field, marker_field.
  cbn [lex_lines].
  use_line (lex_line_key k Hk).
  use_line (lex_line_pair 4 "primaryKey" utc eq_refl (plain_ok_word _ Hu)).
  use_line (lex_line_dash_pair 6 "name" utc eq_refl (plain_ok_word _ Hu)).
  use_line (lex_line_dash_pair 6 "name" cet eq_refl (plain_ok_word _ Hc)).
  use_line (lex_line_dash_pair 6 "name" marker eq_refl (plain_ok_word _ Hm)).
  lex_closed_lines. cbn [bind app].
  rewrite (run_blank_key k st ents _ H).
  eexists _, _, _, _. split; [vm_compute; reflexivity|].
  split; [vm_compute; reflexivity|].
  repeat split; construct_solve.
Qed.

(** Closing a schema whose fields are complete. *)
Lemma close_schema (k utc : string) (items : list raw)
    (ents : list (string * raw)) :
  close_to 0
    [FSeq 6 items false;
     FMap 4 [("missingValue", RQuoted ""); ("primaryKey", RPlain utc)]
       (Some "fields");
     FMap 0 ents (Some k)]
  = Ok [FMap 0
          ((k, RMap [("primaryKey", RPlain utc); ("missingValue", RQuoted "");
                     ("fields", RSeq (rev items))]) :: ents) None].
Proof. reflexivity. Qed.

(** *** The head of the document *)

Lemma scan_sq_closed (v : string) :
  sq_ok v = true -> scan_sq (v +:+ sq) = Ok (v, "").
Proof.
  unfold sq_ok. induction v as [|c v IH]; simpl; [reflexivity|].
  intros [[_ Hc]%andb_true_iff Hv]%andb_true_iff.
  apply negb_true_iff in Hc. rewrite Hc, (IH Hv). reflexivity.
Qed.

Lemma lex_line_pair_sq (k v : string) :
  ok_word k = true -> sq_ok v = true ->
  lex_line (k +:+ ": " +:+ sq +:+ v +:+ sq) = Ok [EPair 0 k (VQuoted v)].
Proof.
  intros Hk Hv. pose proof (ok_word_inert _ Hk) as Hin.
  destruct (ok_word_start _ Hk) as (c & k' & Ek & Hi & Hsp & Hdq & Hsq & Hd).
  assert (E : k +:+ ": " +:+ sq +:+ v +:+ sq
              = String c (k' +:+ ": " +:+ sq +:+ v +:+ sq))
    by (rewrite Ek; reflexivity).
  apply (lex_line_item 0 (k +:+ ": " +:+ sq +:+ v +:+ sq)).
  - exists c, (k' +:+ ": " +:+ sq +:+ v +:+ sq). auto.
  - rewrite E, (lex_item_plain _ _ _ Hdq Hsq Hi), <- E.
    change (k +:+ ": " +:+ sq +:+ v +:+ sq)
      with (k +:+ String ":" (String " " (sq +:+ v +:+ sq))).
    rewrite (find_colon_key _ _ Hin) by reflexivity.
    rewrite (has_char_inert _ Hin), (rstrip_inert _ Hin).
    change (String " " (sq +:+ v +:+ sq))
      with (Json.spaces 1 +:+ String ch_sq (v +:+ sq)).
    rewrite skip_spaces_spaces by reflexivity. cbn [snd].
    unfold lex_scalar. cbn [ascii_eqb Ascii.eqb Bool.eqb ch_sq ch_dq orb andb].
    rewrite (scan_sq_closed _ Hv). reflexivity.
Qed.

Lemma absorb_head (version changes : string) :
  sq_ok version = true -> sq_ok changes = true ->
  exists st' r,
    absorb ("" :: head_lines version changes) [] = Ok st' /\
    finish st' = Ok r /\
    construct r = Ok (YMap (head_entries version changes)).
Proof.
  intros Hv Hc. unfold absorb, head_lines, head_entries. cbn [lex_lines].
  use_line (lex_line_pair_sq "version" version eq_refl Hv).
  use_line (lex_line_pair_sq "last_changes" changes eq_refl Hc).
  lex_closed_lines. cbn [bind app].
  eexists _, _. split; [vm_compute; reflexivity|].
  split; [vm_compute; reflexivity|].
  construct_solve.
Qed.

End ChunkFacts.

(** ** Well-formed columns *)

Module ColumnFacts.
Import Yaml YamlFacts StackFacts ChunkFacts.

Lemma key_eqb_str (a : string) (p : yaml) :
  key_eqb (YStr a) p = true -> p = YStr a.
Proof.
  destruct p; simpl; try discriminate.
  intros H. apply String.eqb_eq in H. subst. reflexivity.
Qed.

Lemma dict_get_single (a : string) (v w p : yaml) :
  dict_get [(YStr a, v)] p = Some w -> p = YStr a /\ w = v.
Proof.
  cbn [dict_get]. destruct (key_eqb (YStr a) p) eqn:E; [|discriminate].
  intros [= <-]. split; [apply key_eqb_str; exact E | reflexivity].
Qed.

Lemma is_some_spec {A} (o : option A) : is_some o = true -> exists a, o = Some a.
Proof. destruct o; [eauto | discriminate]. Qed.

(** What a well-formed data column has in its header record. *)
Lemma valid_col_spec (headers col : list string) :
  valid_col headers col = true ->
  let h := build_h headers col in
  let hh := col_household headers col in
  let feed := col_feed headers col in
  h !! "project" = Some (YStr "CoSSMic") /\
  h !! "region" = Some (YStr "DE_konstanz") /\
  h !! "type" = Some (YStr "residential_4-person_suburb_building") /\
  h !! "household" = Some (YStr hh) /\
  h !! "feed" = Some (YStr feed) /\
  valid_name hh = true /\ valid_name feed = true /\
  loads_as_str (hh +:+ "_" +:+ feed) = true.
Proof.
  unfold valid_col, col_household, col_feed, level. cbv zeta.
  destruct (build_h headers col !! "project") as [p|]; [|discriminate].
  destruct (build_h headers col !! "region") as [r|]; [|discriminate].
  destruct (build_h headers col !! "type") as [t|]; [|discriminate].
  destruct (build_h headers col !! "household") as [[| | | |hh| |]|];
    try discriminate.
  destruct (build_h headers col !! "feed") as [[| | | |feed| |]|];
    try discriminate.
  intros H.
  apply andb_true_iff in H as [H Hn].
  apply andb_true_iff in H as [H Hfd].
  apply andb_true_iff in H as [H Hhh].
  apply andb_true_iff in H as [H Ht].
  apply andb_true_iff in H as [Hp Hr].
  apply is_some_spec in Hp as [w1 Hp]. apply dict_get_single in Hp as [Hp _].
  apply is_some_spec in Hr as [w2 Hr]. apply dict_get_single in Hr as [Hr _].
  apply is_some_spec in Ht as [w3 Ht]. apply dict_get_single in Ht as [Ht _].
  subst p r t.
  repeat split; assumption.
Qed.

(** The description of a feed is one of the fifteen texts of the table; each
    can be written as a plain scalar and is loaded back as a string. *)
Lemma description_of_facts (feed : string) :
  plain_ok (description_of feed) = true /\
  loads_as_str (description_of feed) = true /\
  try_KeyError (py_getitem (YMap descriptions) (YStr feed))
    (Ok (YStr "Energy in kWh")) = Ok (YStr (description_of feed)).
Proof.
  unfold description_of, py_getitem, descriptions.
  cbn [dict_get key_eqb].
  repeat match goal with
         | |- context [String.eqb ?a feed] =>
             destruct (String.eqb a feed);
             [repeat split; vm_compute; reflexivity|]
         end.
  repeat split; vm_compute; reflexivity.
Qed.

(** The lookups of a well-formed data column. *)
Lemma lookups_valid (headers col : list string) :
  valid_col headers col = true ->
  exists h',
    lookups (build_h headers col) = Ok h' /\
    h' !! "household" = Some (YStr (col_household headers col)) /\
    h' !! "feed" = Some (YStr (col_feed headers col)) /\
    h' !! "description"
      = Some (YStr (description_of (col_feed headers col))) /\
    h' !! "project" = Some (YStr the_project) /\
    h' !! "web" = Some (YStr the_web) /\
    h' !! "type" = Some (YStr the_type) /\
    h' !! "region" = Some (YStr the_region).
Proof.
  intros H. destruct (valid_col_spec _ _ H) as (Hp & Hr & Ht & Hh & Hf & _).
  rewrite lookups_unfold. unfold h_get.
  rewrite Hp, Hr, Ht, Hf. cbn [bind].
  change (py_getitem (YMap websites) (YStr "CoSSMic")) with (Ok (YStr the_web)).
  change (py_getitem (YMap regions) (YStr "DE_konstanz"))
    with (Ok (YStr the_region)).
  change (py_getitem (YMap types)
            (YStr "residential_4-person_suburb_building"))
    with (Ok (YStr the_type)).
  cbn [bind].
  destruct (description_of_facts (col_feed headers col)) as (_ & _ & Hd).
  rewrite Hd. cbn [bind].
  eexists. split; [reflexivity|].
  repeat split.
  - rewrite !lookup_insert_ne by discriminate. exact Hh.
  - rewrite !lookup_insert_ne by discriminate. exact Hf.
  - apply lookup_insert_eq.
  - rewrite !lookup_insert_ne by discriminate. exact Hp.
  - rewrite !lookup_insert_ne by discriminate. apply lookup_insert_eq.
  - rewrite lookup_insert_ne by discriminate. apply lookup_insert_eq.
  - rewrite !lookup_insert_ne by discriminate. apply lookup_insert_eq.
Qed.

End ColumnFacts.

(** ** The templates, filled in *)

Module TextFacts.
Import ColumnFacts.

Ltac compute_pieces tpl :=
  let ps := eval vm_compute in (parse_format tpl "" None) in
  let H := fresh "Hps" in
  assert (H : parse_format tpl "" None = ps) by (vm_compute; reflexivity);
  unfold format; rewrite H; clear H.

Ltac norm_text :=
  unfold block, schema_lines, source_lines, resource_lines, field_lines,
    head_lines;
  repeat (simpl; rewrite ?append_assoc_s); reflexivity.

Lemma format_source_template (h : gmap string yaml) (p w t : string) :
  h !! "project" = Some (YStr p) -> h !! "web" = Some (YStr w) ->
  h !! "type" = Some (YStr t) ->
  format source_template h = Ok (block (source_lines p w t)).
Proof.
  intros Hp Hw Ht. compute_pieces source_template.
  cbn [bind fill]. rewrite Hp, Hw, Ht. cbn [py_str bind].
  f_equal. norm_text.
Qed.

Lemma format_field_template (h : gmap string yaml)
    (hh feed d p w t r : string) :
  h !! "household" = Some (YStr hh) -> h !! "feed" = Some (YStr feed) ->
  h !! "description" = Some (YStr d) -> h !! "project" = Some (YStr p) ->
  h !! "web" = Some (YStr w) -> h !! "type" = Some (YStr t) ->
  h !! "region" = Some (YStr r) ->
  format field_template h = Ok (block (field_lines hh feed d p w t r)).
Proof.
  intros Hh Hf Hd Hp Hw Ht Hr. compute_pieces field_template.
  cbn [bind fill]. rewrite Hh, Hf, Hd, Hp, Hw, Ht, Hr. cbn [py_str bind].
  f_equal. norm_text.
Qed.

Lemma format_resource_template (k : string) :
  format resource_template {["res_key" := YStr k]}
  = Ok (block (resource_lines k)).
Proof.
  compute_pieces resource_template.
  cbn [bind fill]. rewrite !lookup_singleton_eq. cbn [py_str bind].
  f_equal. norm_text.
Qed.

Lemma format_schemas_template (kw : gmap string yaml)
    (k utc cet marker : string) :
  kw !! "res_key" = Some (YStr k) -> kw !! "utc" = Some (YStr utc) ->
  kw !! "cet" = Some (YStr cet) -> kw !! "marker" = Some (YStr marker) ->
  format schemas_template kw = Ok (block (schema_lines k utc cet marker)).
Proof.
  intros Hk Hu Hc Hm. compute_pieces schemas_template.
  cbn [bind fill]. rewrite Hk, Hu, Hc, Hm. cbn [py_str bind].
  f_equal. norm_text.
Qed.

Lemma format_metadata_head (version changes : string) :
  format metadata_head
    (<["version" := YStr version]> {["changes" := YStr changes]})
  = Ok (block (head_lines version changes)).
Proof.
  compute_pieces metadata_head.
  cbn [bind fill]. rewrite lookup_insert_eq.
  rewrite lookup_insert_ne by discriminate. rewrite lookup_singleton_eq.
  cbn [py_str bind]. f_equal. norm_text.
Qed.

Lemma concat_str_app (a b : list string) :
  concat_str (a ++ b) = concat_str a +:+ concat_str b.
Proof.
  induction a as [|x a IH]; simpl; [reflexivity|].
  rewrite IH, append_assoc_s. reflexivity.
Qed.

Lemma text_of_app (a b : list (list string)) :
  text_of (a ++ b) = text_of a +:+ text_of b.
Proof. unfold text_of. rewrite map_app. apply concat_str_app. Qed.

Lemma text_of_cons (ls : list string) (bs : list (list string)) :
  text_of (ls :: bs) = block ls +:+ text_of bs.
Proof. reflexivity. Qed.

(** The inner loop on a well-formed data column. *)
Lemma process_col_valid (info_cols : gmap string string)
    (headers : list string) (st : string * string) (col : list string) :
  is_data_col info_cols col = true -> valid_col headers col = true ->
  process_col info_cols headers st col =
    Ok (fst st +:+ block (col_field_lines headers col),
        snd st +:+ source_chunk).
Proof.
  intros Hd Hv. rewrite process_col_data by exact Hd.
  destruct (lookups_valid _ _ Hv)
    as (h' & -> & Hh & Hf & Hde & Hp & Hw & Ht & Hr).
  cbn [bind].
  rewrite (format_field_template h' _ _ _ _ _ _ _ Hh Hf Hde Hp Hw Ht Hr).
  cbn [bind].
  rewrite (format_source_template h' _ _ _ Hp Hw Ht). reflexivity.
Qed.

Lemma is_info_data_col (info_cols : gmap string string) (col : list string) :
  is_info_col info_cols col = true -> is_data_col info_cols col = false.
Proof.
  destruct col as [|c0 rest]; simpl; [discriminate|]. intros ->. reflexivity.
Qed.

(** The inner loop on a well-formed table. *)
Lemma process_cols_valid (info_cols : gmap string string)
    (headers : list string) (cols : list (list string)) (st : string * string) :
  forallb (fun col => is_info_col info_cols col ||
                      (is_data_col info_cols col && valid_col headers col))
          cols = true ->
  foldM (process_col info_cols headers) cols st =
    Ok (fst st +:+
          text_of (map (col_field_lines headers)
                     (filter (fun col => is_data_col info_cols col = true) cols)),
        snd st +:+
          text_of (map (fun _ => source_lines the_project the_web the_type)
                     (filter (fun col => is_data_col info_cols col = true) cols))).
Proof.
  revert st. induction cols as [|col cols IH]; intros st; simpl.
  - intros _. rewrite !append_nil_r. destruct st; reflexivity.
  - intros [Hcol Hcols]%andb_true_iff.
    apply orb_true_iff in Hcol as [Hi | [Hd Hv]%andb_true_iff].
    + rewrite process_col_info by exact Hi. cbn [bind].
      rewrite (IH st Hcols).
      rewrite filter_cons_False
        by (rewrite (is_info_data_col _ _ Hi); discriminate).
      reflexivity.
    + rewrite (process_col_valid _ _ _ _ Hd Hv). cbn [bind].
      rewrite (IH _ Hcols). cbn [fst snd].
      rewrite filter_cons_True by exact Hd.
      cbn [map]. rewrite !text_of_cons, !append_assoc_s. reflexivity.
Qed.

End TextFacts.

(** ** The texts the loops build *)

Module LoopFacts.
Import ColumnFacts TextFacts.

Lemma valid_info_spec (info_cols : gmap string string) :
  valid_info info_cols = true ->
  info_cols !! "utc" = Some (info_name info_cols "utc") /\
  info_cols !! "cet" = Some (info_name info_cols "cet") /\
  info_cols !! "marker" = Some (info_name info_cols "marker") /\
  info_cols !! "res_key" = None /\
  valid_name (info_name info_cols "utc") = true /\
  valid_name (info_name info_cols "cet") = true /\
  valid_name (info_name info_cols "marker") = true.
Proof.
  unfold valid_info, info_name.
  destruct (info_cols !! "utc") as [u|]; [|discriminate].
  destruct (info_cols !! "cet") as [c|]; [|discriminate].
  destruct (info_cols !! "marker") as [m|]; [|discriminate].
  destruct (info_cols !! "res_key") as [x|]; [discriminate|].
  intros [[Hu Hc]%andb_true_iff Hm]%andb_true_iff. repeat split; assumption.
Qed.

Lemma process_dataset_valid (info_cols : gmap string string)
    (headers : list string) (rl sl sd k : string) (df : DataFrame) :
  valid_info info_cols = true ->
  valid_table info_cols headers df = true ->
  process_dataset info_cols headers (rl, sl, sd) (k, df) =
    Ok (rl +:+ block (resource_lines k),
        sl +:+ text_of (map (fun _ => source_lines the_project the_web the_type)
                          (data_cols info_cols df)),
        sd +:+ text_of (schema_blocks info_cols headers (k, df))).
Proof.
  intros Hinfo Htab.
  destruct (valid_info_spec _ Hinfo) as (Hu & Hc & Hm & Hk & _).
  unfold process_dataset. rewrite format_resource_template. cbn [bind].
  rewrite (process_cols_valid _ _ _ _ Htab). cbn [bind fst snd].
  unfold schema_kwargs. rewrite Hk. cbn [bind].
  rewrite (format_schemas_template _ k (info_name info_cols "utc")
             (info_name info_cols "cet") (info_name info_cols "marker")).
  - cbn [bind]. unfold schema_blocks, data_cols. cbn [fst snd].
    rewrite text_of_cons, !append_assoc_s. reflexivity.
  - apply lookup_insert_eq.
  - rewrite lookup_insert_ne by discriminate. rewrite lookup_fmap, Hu. reflexivity.
  - rewrite lookup_insert_ne by discriminate. rewrite lookup_fmap, Hc. reflexivity.
  - rewrite lookup_insert_ne by discriminate. rewrite lookup_fmap, Hm. reflexivity.
Qed.

Lemma process_datasets_valid (info_cols : gmap string string)
    (headers : list string) (data_sets : list (string * DataFrame))
    (rl sl sd : string) :
  valid_info info_cols = true ->
  forallb (fun d => valid_name (fst d) &&
                    valid_table info_cols headers (snd d)) data_sets = true ->
  foldM (process_dataset info_cols headers) data_sets (rl, sl, sd) =
    Ok (rl +:+ text_of (map (fun d => resource_lines (fst d)) data_sets),
        sl +:+ text_of (source_blocks info_cols data_sets),
        sd +:+ text_of (schemas_blocks info_cols headers data_sets)).
Proof.
  intros Hinfo. revert rl sl sd.
  induction data_sets as [|[k df] data_sets IH]; intros rl sl sd;
    cbn [foldM forallb fst snd].
  - intros _. cbn [map]. unfold source_blocks, schemas_blocks, all_data_cols.
    cbn [map concat]. unfold text_of. cbn [map concat_str].
    rewrite !append_nil_r. reflexivity.
  - intros [[_ Htab]%andb_true_iff Hds]%andb_true_iff.
    rewrite (process_dataset_valid _ _ _ _ _ _ _ Hinfo Htab). cbn [bind].
    rewrite (IH _ _ _ Hds).
    unfold source_blocks, schemas_blocks, all_data_cols. cbn [map concat fst snd].
    rewrite map_app, !text_of_app, text_of_cons, !append_assoc_s.
    reflexivity.
Qed.

(** The three texts of a well-formed input. *)
Lemma run_loops_valid (data_sets : list (string * DataFrame))
    (info_cols : gmap string string) (headers : list string) :
  valid_info info_cols = true ->
  forallb (fun d => valid_name (fst d) &&
                    valid_table info_cols headers (snd d)) data_sets = true ->
  run_loops data_sets info_cols headers =
    Ok (text_of (resource_blocks data_sets),
        text_of (source_blocks info_cols data_sets),
        text_of (schemas_blocks info_cols headers data_sets)).
Proof.
  intros Hinfo Hds. unfold run_loops.
  rewrite (process_datasets_valid _ _ _ _ _ _ Hinfo Hds).
  reflexivity.
Qed.

End LoopFacts.

(** ** Loading the texts *)

Module LoadFacts.
Import Yaml YamlFacts StackFacts ChunkFacts ColumnFacts TextFacts LoopFacts.

Lemma printable_no_lf (l : string) : printable l -> no_lf l = true.
Proof.
  unfold printable, no_lf. apply str_forall_impl. intros c Hc.
  destruct (ascii_eqb c ch_lf) eqn:E; [|reflexivity].
  apply ascii_eqb_eq in E. subst c. discriminate.
Qed.

Lemma printable_loadable (l : string) :
  printable l -> str_forall loadable_char l = true.
Proof.
  unfold printable. apply str_forall_impl. intros c Hc.
  unfold loadable_char. rewrite Hc. reflexivity.
Qed.

Lemma loadable_block (ls : list string) :
  Forall printable ls -> str_forall loadable_char (block ls) = true.
Proof.
  intros H. unfold block. rewrite str_forall_app. cbn [nl str_forall].
  change (loadable_char "010") with true. cbn [andb].
  induction H as [|l ls Hl _ IH]; [reflexivity|].
  cbn [map concat_str]. rewrite !str_forall_app, IH.
  rewrite (printable_loadable _ Hl). reflexivity.
Qed.

Lemma loadable_text (bs : list (list string)) :
  Forall (Forall printable) bs -> str_forall loadable_char (text_of bs) = true.
Proof.
  induction 1 as [|ls bs Hls _ IH]; [reflexivity|].
  rewrite text_of_cons, str_forall_app, IH, (loadable_block _ Hls).
  reflexivity.
Qed.

Lemma printable_inert (s : string) :
  str_forall is_inert s = true -> printable s.
Proof.
  apply str_forall_impl. intros c Hc. apply is_inert_spec in Hc. tauto.
Qed.

Lemma printable_valid_name (s : string) : valid_name s = true -> printable s.
Proof.
  intros [H _]%valid_name_spec. apply printable_inert, ok_word_inert, H.
Qed.

Lemma printable_sq_ok (s : string) : sq_ok s = true -> printable s.
Proof.
  apply str_forall_impl. intros c [Hc _]%andb_true_iff. exact Hc.
Qed.

Lemma printable_plain_ok (s : string) : plain_ok s = true -> printable s.
Proof. intros H. apply plain_ok_spec in H. tauto. Qed.

Lemma printable_app (a b : string) :
  printable a -> printable b -> printable (a +:+ b).
Proof.
  unfold printable. intros Ha Hb. rewrite str_forall_app, Ha, Hb. reflexivity.
Qed.

Ltac printable_line :=
  first [ assumption
        | solve [vm_compute; reflexivity]
        | apply printable_app; printable_line ].

Ltac printable_lines :=
  repeat (apply List.Forall_cons; [printable_line|]);
  apply List.Forall_nil.

Lemma printable_source_lines :
  Forall printable (source_lines the_project the_web the_type).
Proof. unfold source_lines. printable_lines. Qed.

Lemma printable_resource_init_lines : Forall printable resource_init_lines.
Proof. unfold resource_init_lines. printable_lines. Qed.

Lemma printable_resource_lines (k : string) :
  valid_name k = true -> Forall printable (resource_lines k).
Proof.
  intros Hk%printable_valid_name. unfold resource_lines. printable_lines.
Qed.

Lemma printable_schema_lines (k utc cet marker : string) :
  valid_name k = true -> valid_name utc = true -> valid_name cet = true ->
  valid_name marker = true -> Forall printable (schema_lines k utc cet marker).
Proof.
  intros Hk%printable_valid_name Hu%printable_valid_name
    Hc%printable_valid_name Hm%printable_valid_name.
  unfold schema_lines. printable_lines.
Qed.

Lemma printable_field_lines (hh feed d : string) :
  valid_name hh = true -> valid_name feed = true -> plain_ok d = true ->
  Forall printable
    (field_lines hh feed d the_project the_web the_type the_region).
Proof.
  intros Hh%printable_valid_name Hf%printable_valid_name
    Hd%printable_plain_ok.
  unfold field_lines. printable_lines.
Qed.

Lemma printable_head_lines (version changes : string) :
  sq_ok version = true -> sq_ok changes = true ->
  Forall printable (head_lines version changes).
Proof.
  intros Hv%printable_sq_ok Hc%printable_sq_ok.
  unfold head_lines. printable_lines.
Qed.

(** A text of blocks is loaded by absorbing its blocks in turn and
    constructing the value of the root. *)
Lemma load_blocks (bs : list (list string)) (st : list frame)
    (r : raw) (v : yaml) :
  Forall (Forall printable) bs ->
  absorb (concat (map (fun ls => "" :: ls) bs)) [] = Ok st ->
  finish st = Ok r -> construct r = Ok v ->
  yaml_load (text_of bs) = Ok v.
Proof.
  intros Hp Habs Hfin Hcons. unfold yaml_load, load.
  change (str_forall _ (text_of bs))
    with (str_forall loadable_char (text_of bs)).
  rewrite (loadable_text _ Hp). cbn [negb].
  rewrite compose_absorb. unfold text_of.
  rewrite split_lines_blocks.
  - unfold lines_of_blocks. rewrite (absorb_app _ _ _ _ Habs).
    change (absorb [""] st) with (foldM step [EBlank] st).
    cbn [foldM]. rewrite step_blank. cbn [bind].
    rewrite finish_mark, Hfin. cbn [bind].
    exact Hcons.
  - eapply Forall_impl; [exact Hp|]. intros ls Hls.
    eapply Forall_impl; [exact Hls|]. intros l Hl. apply printable_no_lf, Hl.
Qed.

Lemma absorb_nil (st : list frame) : absorb [] st = Ok st.
Proof. reflexivity. Qed.

(** *** The head *)

Lemma load_head (version changes : string) :
  sq_ok version = true -> sq_ok changes = true ->
  yaml_load (block (head_lines version changes))
  = Ok (YMap (head_entries version changes)).
Proof.
  intros Hv Hc. destruct (absorb_head _ _ Hv Hc) as (st & r & Ha & Hf & Hr).
  rewrite <- (append_nil_r (block _)).
  apply (load_blocks [head_lines version changes] st r).
  - constructor; [|constructor]. apply printable_head_lines; assumption.
  - cbn [map concat]. rewrite app_nil_r. exact Ha.
  - exact Hf.
  - exact Hr.
Qed.

(** *** The sources *)

Lemma construct_list_same (rs : list raw) (v : yaml) :
  Forall (fun r => construct r = Ok v) rs ->
  construct_list rs = Ok (replicate (length rs) v).
Proof.
  induction 1 as [|r rs Hr _ IH]; [reflexivity|].
  cbn [construct_list length replicate]. rewrite Hr, IH. reflexivity.
Qed.

Lemma absorb_source_blocks {A} (l : list A) (st : list frame)
    (items : list raw) :
  close_to 0 st = Ok [FSeq 0 items false] \/ (st = [] /\ items = []) ->
  exists st' rs,
    absorb (concat (map (fun _ => "" :: source_lines the_project the_web
                                          the_type) l)) st = Ok st' /\
    (close_to 0 st' = Ok [FSeq 0 (rs ++ items) false] \/
     (st' = [] /\ rs ++ items = [])) /\
    Forall (fun r => construct r = Ok source_entry) rs /\
    length rs = length l.
Proof.
  revert st items. induction l as [|a l IH]; intros st items H.
  - exists st, []. split; [apply absorb_nil|]. split; [exact H|].
    split; [constructor | reflexivity].
  - destruct (absorb_source st items H) as (st1 & r & Ha & Hc & Hr).
    destruct (IH st1 (r :: items) (or_introl Hc))
      as (st' & rs & Ha' & Hc' & Hrs & Hlen).
    exists st', (rs ++ [r]). cbn [map concat].
    rewrite (absorb_app _ _ _ _ Ha). split; [exact Ha'|].
    rewrite <- app_assoc. split; [exact Hc'|]. split.
    + apply Forall_app. split; [exact Hrs|]. constructor; [exact Hr|constructor].
    + rewrite length_app, Hlen. cbn [length]. lia.
Qed.

Lemma load_sources {A} (l : list A) :
  l <> [] ->
  yaml_load (text_of (map (fun _ => source_lines the_project the_web the_type) l))
  = Ok (YSeq (replicate (length l) source_entry)).
Proof.
  intros Hne.
  destruct (absorb_source_blocks l [] [] (or_intror (conj eq_refl eq_refl)))
    as (st & rs & Ha & Hc & Hrs & Hlen).
  rewrite app_nil_r in Hc.
  destruct Hc as [Hc | [_ ->]]; [|destruct l; [congruence | discriminate]].
  apply (load_blocks _ st (RSeq (rev rs))).
  - apply Forall_forall. intros ls [a [-> _]]%list_elem_of_fmap.
    apply printable_source_lines.
  - rewrite map_map. exact Ha.
  - rewrite (finish_close _ _ _ Hc). reflexivity.
  - rewrite construct_seq.
    rewrite (construct_list_same (rev rs) source_entry).
    + rewrite length_rev, Hlen. reflexivity.
    + apply Forall_rev. exact Hrs.
Qed.

(** *** The resources *)

Lemma absorb_resource_blocks (data_sets : list (string * DataFrame))
    (st : list frame) (items : list raw) :
  Forall (fun d => valid_name (fst d) = true) data_sets ->
  close_to 0 st = Ok [FSeq 0 items false] ->
  exists st' rs,
    absorb (concat (map (fun d => "" :: resource_lines (fst d)) data_sets)) st
    = Ok st' /\
    close_to 0 st' = Ok [FSeq 0 (rev rs ++ items) false] /\
    construct_list rs = Ok (map (fun d => resource_entry (fst d)) data_sets).
Proof.
  intros Hv. revert st items.
  induction Hv as [|d data_sets Hd _ IH]; intros st items H.
  - exists st, []. split; [apply absorb_nil|]. split; [exact H | reflexivity].
  - destruct (absorb_resource (fst d) st items Hd H) as (st1 & r & Ha & Hc & Hr).
    destruct (IH st1 (r :: items) Hc) as (st' & rs & Ha' & Hc' & Hrs).
    exists st', (r :: rs). cbn [map concat].
    rewrite (absorb_app _ _ _ _ Ha). split; [exact Ha'|]. split.
    + cbn [rev]. rewrite <- app_assoc. exact Hc'.
    + cbn [construct_list]. rewrite Hr, Hrs. reflexivity.
Qed.

Lemma load_resources (data_sets : list (string * DataFrame)) :
  Forall (fun d => valid_name (fst d) = true) data_sets ->
  yaml_load (text_of (resource_blocks data_sets))
  = Ok (expected_resources data_sets).
Proof.
  intros Hv. destruct absorb_resource_init as (st0 & r0 & Ha0 & Hc0 & Hr0).
  destruct (absorb_resource_blocks data_sets st0 [r0] Hv Hc0)
    as (st & rs & Ha & Hc & Hrs).
  apply (load_blocks _ st (RSeq (rev (rev rs ++ [r0])))).
  - unfold resource_blocks. constructor; [apply printable_resource_init_lines|].
    apply Forall_forall. intros ls [d [-> Hd]]%list_elem_of_fmap.
    apply printable_resource_lines.
    rewrite Forall_forall in Hv. apply Hv, Hd.
  - unfold resource_blocks. cbn [map concat]. rewrite map_map.
    rewrite (absorb_app _ _ _ _ Ha0). exact Ha.
  - rewrite (finish_close _ _ _ Hc). reflexivity.
  - rewrite construct_seq, rev_app_distr, rev_involutive. cbn [rev app].
    cbn [construct_list]. rewrite Hr0, Hrs. reflexivity.
Qed.

(** *** The schemas *)

Lemma valid_table_data_cols (info_cols : gmap string string)
    (headers : list string) (df : DataFrame) :
  valid_table info_cols headers df = true ->
  Forall (fun col => valid_col headers col = true) (data_cols info_cols df).
Proof.
  unfold valid_table, data_cols. intros H.
  apply Forall_forall. intros col [Hd Hin]%list_elem_of_filter.
  rewrite forallb_forall in H.
  apply list_elem_of_In in Hin. specialize (H col Hin).
  apply orb_true_iff in H as [Hi | [_ Hv]%andb_true_iff]; [|exact Hv].
  rewrite (is_info_data_col _ _ Hi) in Hd. discriminate.
Qed.

Lemma valid_col_field (headers col : list string) :
  valid_col headers col = true ->
  valid_name (col_household headers col) = true /\
  valid_name (col_feed headers col) = true /\
  loads_as_str (col_household headers col +:+ "_" +:+ col_feed headers col)
  = true /\
  plain_ok (description_of (col_feed headers col)) = true /\
  loads_as_str (description_of (col_feed headers col)) = true.
Proof.
  intros H. destruct (valid_col_spec _ _ H) as (_ & _ & _ & _ & _ & Hh & Hf & Hn).
  destruct (description_of_facts (col_feed headers col)) as (Hd & Hd' & _).
  repeat split; assumption.
Qed.

Lemma absorb_fields (headers : list string) (cols : list (list string))
    (st base : list frame) (items : list raw) :
  Forall (fun col => valid_col headers col = true) cols ->
  close_to 6 st = Ok (FSeq 6 items false :: base) ->
  exists st' rs,
    absorb (concat (map (fun col => "" :: col_field_lines headers col) cols)) st
    = Ok st' /\
    close_to 6 st' = Ok (FSeq 6 (rev rs ++ items) false :: base) /\
    construct_list rs = Ok (map (col_field headers) cols).
Proof.
  intros Hv. revert st items.
  induction Hv as [|col cols Hcol _ IH]; intros st items H.
  - exists st, []. split; [apply absorb_nil|]. split; [exact H | reflexivity].
  - destruct (valid_col_field _ _ Hcol) as (Hh & Hf & Hn & Hd & Hd').
    destruct (absorb_field _ _ _ st base items Hh Hf Hn Hd Hd' H)
      as (st1 & r & Ha & Hc & Hr).
    destruct (IH st1 (r :: items) Hc) as (st' & rs & Ha' & Hc' & Hrs).
    exists st', (r :: rs). cbn [map concat].
    unfold col_field_lines at 1. rewrite (absorb_app _ _ _ _ Ha).
    split; [exact Ha'|]. split.
    + cbn [rev]. rewrite <- app_assoc. exact Hc'.
    + cbn [construct_list]. rewrite Hr, Hrs. reflexivity.
Qed.

Lemma absorb_dataset (info_cols : gmap string string) (headers : list string)
    (k : string) (df : DataFrame) (st : list frame)
    (ents : list (string * raw)) :
  valid_info info_cols = true -> valid_name k = true ->
  valid_table info_cols headers df = true ->
  close_to 0 st = Ok [FMap 0 ents None] \/ (st = [] /\ ents = []) ->
  exists st' r,
    absorb (concat (map (fun ls => "" :: ls)
                      (schema_blocks info_cols headers (k, df)))) st = Ok st' /\
    close_to 0 st' = Ok [FMap 0 ((k, r) :: ents) None] /\
    construct r = Ok (schema_entry info_cols headers df).
Proof.
  intros Hinfo Hk Htab H.
  destruct (valid_info_spec _ Hinfo) as (_ & _ & _ & _ & Hu & Hc & Hm).
  destruct (absorb_schema_head k _ _ _ st ents Hk Hu Hc Hm H)
    as (st1 & u & c & m & Ha1 & Hc1 & Hru & Hrc & Hrm).
  destruct (absorb_fields headers _ st1 _ _
              (valid_table_data_cols _ _ _ Htab) Hc1)
    as (st' & rs & Ha & Hc6 & Hrs).
  eexists st', _. unfold schema_blocks. cbn [map concat fst snd].
  rewrite (absorb_app _ _ _ _ Ha1). rewrite map_map. split; [exact Ha|].
  split.
  - rewrite (close_to_trans 0 6) by lia. rewrite Hc6. cbn [bind].
    apply close_schema.
  - rewrite construct_map. cbn [construct_entries].
    destruct (valid_name_spec _ Hu) as [_ Hu'].
    change (resolve_plain "primaryKey") with (Ok (YStr "primaryKey")).
    change (resolve_plain "missingValue") with (Ok (YStr "missingValue")).
    change (resolve_plain "fields") with (Ok (YStr "fields")).
    rewrite construct_plain, Hu', construct_quoted, construct_seq.
    rewrite rev_app_distr, rev_involutive. cbn [rev app construct_list].
    rewrite Hru, Hrc, Hrm, Hrs. reflexivity.
Qed.

Lemma dict_set_fresh (d : list (yaml * yaml)) (k v : yaml) :
  (forall k' v', (k', v') ∈ d -> key_eqb k' k = false) ->
  dict_set d k v = d ++ [(k, v)].
Proof.
  induction d as [|[k' v'] d IH]; intros H; cbn [dict_set app]; [reflexivity|].
  rewrite (H k' v') by left. rewrite IH; [reflexivity|].
  intros k0 v0 Hin. apply (H k0 v0). right. exact Hin.
Qed.

Lemma absorb_datasets (info_cols : gmap string string) (headers : list string)
    (data_sets : list (string * DataFrame)) (st : list frame)
    (ents : list (string * raw)) :
  valid_info info_cols = true ->
  Forall (fun d => valid_name (fst d) = true /\
                   valid_table info_cols headers (snd d) = true) data_sets ->
  close_to 0 st = Ok [FMap 0 ents None] \/ (st = [] /\ ents = []) ->
  exists st' es,
    absorb (concat (map (fun ls => "" :: ls)
                      (schemas_blocks info_cols headers data_sets))) st
    = Ok st' /\
    (close_to 0 st' = Ok [FMap 0 (rev es ++ ents) None] \/
     (st' = [] /\ rev es ++ ents = [])) /\
    Forall2 (fun e d => fst e = fst d /\
                        construct (snd e)
                        = Ok (schema_entry info_cols headers (snd d)))
            es data_sets.
Proof.
  intros Hinfo Hv. revert st ents.
  induction Hv as [|[k df] data_sets [Hk Htab] _ IH]; intros st ents H.
  - exists st, []. split; [apply absorb_nil|]. split; [exact H | constructor].
  - cbn [fst snd] in Hk, Htab.
    destruct (absorb_dataset _ _ k df st ents Hinfo Hk Htab H)
      as (st1 & r & Ha1 & Hc1 & Hr).
    destruct (IH st1 ((k, r) :: ents) (or_introl Hc1))
      as (st' & es & Ha & Hc & Hes).
    exists st', ((k, r) :: es). unfold schemas_blocks. cbn [map concat].
    rewrite map_app, concat_app. rewrite (absorb_app _ _ _ _ Ha1).
    split; [exact Ha|]. split.
    + cbn [rev]. rewrite <- app_assoc. exact Hc.
    + constructor; [split; [reflexivity | exact Hr] | exact Hes].
Qed.

Lemma construct_entries_fresh (info_cols : gmap string string)
    (headers : list string) (es : list (string * raw))
    (data_sets : list (string * DataFrame)) (d0 : list (yaml * yaml)) :
  Forall2 (fun e d => fst e = fst d /\
                      construct (snd e)
                      = Ok (schema_entry info_cols headers (snd d)))
          es data_sets ->
  NoDup (map fst data_sets) ->
  Forall (fun d => resolve_plain (fst d) = Ok (YStr (fst d))) data_sets ->
  (forall k v, (k, v) ∈ d0 ->
     forall d, d ∈ data_sets -> key_eqb k (YStr (fst d)) = false) ->
  construct_entries es d0 =
    Ok (d0 ++ map (fun d => (YStr (fst d),
                             schema_entry info_cols headers (snd d))) data_sets).
Proof.
  intros H. revert d0.
  induction H as [|[k x] d es data_sets [Hk Hx] _ IH]; intros d0 Hnd Hres Hfresh.
  - cbn [construct_entries map]. rewrite app_nil_r. reflexivity.
  - cbn [fst snd] in Hk, Hx. subst k.
    apply NoDup_cons in Hnd as [Hnotin Hnd].
    apply Forall_cons in Hres as [Hrd Hres].
    cbn [construct_entries]. rewrite Hrd. cbn [bind]. rewrite Hx. cbn [bind].
    rewrite dict_set_fresh
      by (intros k' v' Hin; apply (Hfresh k' v' Hin d); left).
    rewrite (IH _ Hnd Hres).
    + cbn [map]. rewrite <- app_assoc. reflexivity.
    + intros k' v' [Hin | Hin]%elem_of_app d' Hd'.
      * apply (Hfresh k' v' Hin d'). right. exact Hd'.
      * apply list_elem_of_singleton in Hin. injection Hin as -> ->.
        cbn [key_eqb]. apply String.eqb_neq. intros E.
        apply Hnotin. rewrite E. apply list_elem_of_fmap. exists d'. auto.
Qed.

Lemma printable_schemas_blocks (info_cols : gmap string string)
    (headers : list string) (data_sets : list (string * DataFrame)) :
  valid_info info_cols = true ->
  Forall (fun d => valid_name (fst d) = true /\
                   valid_table info_cols headers (snd d) = true) data_sets ->
  Forall (Forall printable) (schemas_blocks info_cols headers data_sets).
Proof.
  intros Hinfo Hv.
  destruct (valid_info_spec _ Hinfo) as (_ & _ & _ & _ & Hu & Hc & Hm).
  unfold schemas_blocks.
  induction Hv as [|[k df] data_sets [Hk Htab] _ IH]; [constructor|].
  cbn [map concat]. apply Forall_app. split; [|exact IH].
  unfold schema_blocks. cbn [fst snd]. constructor.
  - apply printable_schema_lines; assumption.
  - apply Forall_forall. intros ls [col [-> Hcol]]%list_elem_of_fmap.
    pose proof (valid_table_data_cols _ _ _ Htab) as Hcols.
    rewrite Forall_forall in Hcols.
    destruct (valid_col_field _ _ (Hcols col Hcol)) as (Hh & Hf & _ & Hd & _).
    apply printable_field_lines; assumption.
Qed.

Lemma load_schemas (info_cols : gmap string string) (headers : list string)
    (data_sets : list (string * DataFrame)) :
  valid_info info_cols = true ->
  Forall (fun d => valid_name (fst d) = true /\
                   valid_table info_cols headers (snd d) = true) data_sets ->
  NoDup (map fst data_sets) -> data_sets <> [] ->
  yaml_load (text_of (schemas_blocks info_cols headers data_sets))
  = Ok (expected_schemas data_sets info_cols headers).
Proof.
  intros Hinfo Hv Hnd Hne.
  destruct (absorb_datasets _ _ data_sets [] [] Hinfo Hv
              (or_intror (conj eq_refl eq_refl))) as (st & es & Ha & Hc & Hes).
  rewrite app_nil_r in Hc.
  destruct Hc as [Hc | [_ Hnil]].
  - apply (load_blocks _ st (RMap (rev (rev es)))).
    + apply printable_schemas_blocks; assumption.
    + exact Ha.
    + rewrite (finish_close _ _ _ Hc). reflexivity.
    + rewrite construct_map, rev_involutive.
      rewrite (construct_entries_fresh _ _ _ _ [] Hes Hnd).
      * reflexivity.
      * eapply Forall_impl; [exact Hv|]. intros d [Hk _].
        apply valid_name_spec in Hk. tauto.
      * intros k v Hin. inversion Hin.
  - exfalso. destruct Hes; [congruence|].
    cbn [rev] in Hnil. destruct (rev l); discriminate.
Qed.

End LoadFacts.

(** ** The document of a well-formed input *)

Module RunFacts.
Import Yaml YamlFacts StackFacts ChunkFacts ColumnFacts TextFacts LoopFacts
  LoadFacts.

Lemma mapM_tupleize_replicate (n : nat) :
  mapM tupleize (replicate n source_entry) = Ok (replicate n source_items).
Proof.
  induction n as [|n IH]; [reflexivity|].
  cbn [replicate mapM]. rewrite IH. reflexivity.
Qed.

Lemma py_dedup_replicate (n : nat) :
  py_dedup (replicate (S n) source_items) = [source_items].
Proof.
  induction n as [|n IH]; [reflexivity|].
  change (replicate (S (S n)) source_items)
    with (source_items :: replicate (S n) source_items).
  cbn [py_dedup]. rewrite IH. reflexivity.
Qed.

Lemma shuffle_single {A} (seed : list nat) (x : A) : shuffle seed [x] = [x].
Proof. destruct seed as [|[|n] seed]; reflexivity. Qed.

(** The sources of a run with [n] data columns: none is an error, any other
    number leaves the one entry, whatever the order of the set. *)
Lemma dedup_sources_blocks {A} (seed : list nat) (l : list A) :
  dedup_sources seed
    (text_of (map (fun _ => source_lines the_project the_web the_type) l))
  = match l with
    | [] => Raise TypeError
    | _ => Ok [source_entry]
    end.
Proof.
  destruct l as [|a l]; [apply dedup_sources_empty|].
  unfold dedup_sources. rewrite load_sources by discriminate.
  cbn [bind py_iter]. rewrite mapM_tupleize_replicate. cbn [bind length].
  unfold py_set. rewrite py_dedup_replicate, shuffle_single. reflexivity.
Qed.

Lemma has_data_col_spec (info_cols : gmap string string)
    (data_sets : list (string * DataFrame)) :
  has_data_col info_cols data_sets = true ->
  all_data_cols info_cols data_sets <> [] /\ data_sets <> [].
Proof.
  unfold has_data_col, all_data_cols.
  induction data_sets as [|d data_sets IH]; [discriminate|].
  cbn [existsb map concat]. intros H. split; [|discriminate].
  apply orb_true_iff in H as [H | H].
  - apply existsb_exists in H as (col & Hin & Hd).
    intros E. apply app_eq_nil in E as [E _].
    assert (Hc : col ∈ data_cols info_cols (snd d)).
    { apply list_elem_of_filter. split; [exact Hd|].
      apply list_elem_of_In. exact Hin. }
    rewrite E in Hc. inversion Hc.
  - intros E. apply app_eq_nil in E as [_ E]. apply (proj1 (IH H)). exact E.
Qed.

Lemma valid_input_spec (data_sets : list (string * DataFrame))
    (info_cols : gmap string string) (version changes : string)
    (headers : list string) :
  valid_input data_sets info_cols version changes headers = true ->
  forallb (fun d => valid_name (fst d) &&
                    valid_table info_cols headers (snd d)) data_sets = true /\
  NoDup (map fst data_sets) /\ valid_info info_cols = true /\
  sq_ok version = true /\ sq_ok changes = true /\
  has_data_col info_cols data_sets = true.
Proof.
  unfold valid_input. intros H.
  apply andb_true_iff in H as [H H6].
  apply andb_true_iff in H as [H H5].
  apply andb_true_iff in H as [H H4].
  apply andb_true_iff in H as [H H3].
  apply andb_true_iff in H as [H1 H2].
  apply bool_decide_eq_true in H2. repeat split; assumption.
Qed.

Lemma valid_datasets_Forall (info_cols : gmap string string)
    (headers : list string) (data_sets : list (string * DataFrame)) :
  forallb (fun d => valid_name (fst d) &&
                    valid_table info_cols headers (snd d)) data_sets = true ->
  Forall (fun d => valid_name (fst d) = true /\
                   valid_table info_cols headers (snd d) = true) data_sets.
Proof.
  intros H. apply Forall_forall. intros d Hd.
  rewrite forallb_forall in H. apply list_elem_of_In in Hd.
  apply andb_true_iff. apply (H d Hd).
Qed.

(** The document of a well-formed input, whatever the order of the set. *)
Theorem build_metadata_valid (seed : list nat)
    (data_sets : list (string * DataFrame)) (info_cols : gmap string string)
    (version changes : string) (headers : list string) :
  valid_input data_sets info_cols version changes headers = true ->
  build_metadata seed data_sets info_cols version changes headers
  = Ok (expected_doc data_sets info_cols version changes headers).
Proof.
  intros (Hds & Hnd & Hinfo & Hv & Hc & Hdata)%valid_input_spec.
  pose proof (valid_datasets_Forall _ _ _ Hds) as Hall.
  destruct (has_data_col_spec _ _ Hdata) as [Hcols Hne].
  unfold build_metadata. fold (run_loops data_sets info_cols headers).
  rewrite (run_loops_valid _ _ _ Hinfo Hds). cbn [bind].
  unfold source_blocks. rewrite dedup_sources_blocks.
  destruct (all_data_cols info_cols data_sets) as [|col cols] eqn:E;
    [congruence|].
  cbn [bind]. rewrite format_metadata_head. cbn [bind].
  rewrite (load_head _ _ Hv Hc). cbn [bind py_setitem].
  rewrite load_resources
    by (eapply Forall_impl; [exact Hall|]; intros d [Hd _]; exact Hd).
  cbn [bind]. rewrite (load_schemas _ _ _ Hinfo Hall Hnd Hne).
  cbn [bind]. reflexivity.
Qed.

End RunFacts.

(** ** The source text of any run *)

Module SourceFacts.
Import ColumnFacts TextFacts LoadFacts RunFacts.

Lemma lookups_ok_codes (h h' : gmap string yaml) :
  lookups h = Ok h' ->
  h' !! "project" = Some (YStr the_project) /\
  h' !! "web" = Some (YStr the_web) /\
  h' !! "type" = Some (YStr the_type).
Proof.
  rewrite lookups_unfold. intros H.
  apply bind_ok in H as (p & Hp & H).
  apply bind_ok in H as (w & Hw & H).
  apply bind_ok in H as (r & Hr & H).
  apply bind_ok in H as (r' & Hr' & H).
  apply bind_ok in H as (t & Ht & H).
  apply bind_ok in H as (t' & Ht' & H).
  apply bind_ok in H as (d & Hd & H).
  injection H as <-.
  unfold h_get in Hp. destruct (h !! "project") as [p0|] eqn:Ep; [|discriminate].
  injection Hp as ->.
  unfold py_getitem in Hw, Ht'.
  destruct (dict_get websites p) as [w0|] eqn:Ew; [|discriminate].
  injection Hw as ->. apply dict_get_single in Ew as [-> ->].
  destruct (dict_get types t) as [t0|] eqn:Et; [|discriminate].
  injection Ht' as ->. apply dict_get_single in Et as [-> ->].
  repeat split.
  - rewrite !lookup_insert_ne by discriminate. exact Ep.
  - rewrite !lookup_insert_ne by discriminate. apply lookup_insert_eq.
  - rewrite lookup_insert_ne by discriminate. apply lookup_insert_eq.
Qed.

(** A column adds nothing or one copy of the source block. *)
Lemma process_col_sources (info_cols : gmap string string)
    (headers : list string) (st st' : string * string) (col : list string) :
  process_col info_cols headers st col = Ok st' ->
  snd st' = snd st \/ snd st' = snd st +:+ source_chunk.
Proof.
  unfold process_col. destruct col as [|c0 rest]; [discriminate|].
  cbn [bind]. destruct (in_values c0 info_cols).
  - intros [= <-]. left. reflexivity.
  - intros H. apply bind_ok in H as (h' & Hh & H).
    apply bind_ok in H as (f & Hf & H).
    apply bind_ok in H as (s & Hs & H). injection H as <-.
    destruct (lookups_ok_codes _ _ Hh) as (Hp & Hw & Ht).
    rewrite (format_source_template h' _ _ _ Hp Hw Ht) in Hs.
    injection Hs as <-. right. reflexivity.
Qed.

Lemma source_text_app (a b : list unit) :
  source_text (a ++ b) = source_text a +:+ source_text b.
Proof. unfold source_text. rewrite map_app. apply text_of_app. Qed.

Lemma process_cols_sources (info_cols : gmap string string)
    (headers : list string) (cols : list (list string))
    (st st' : string * string) :
  foldM (process_col info_cols headers) cols st = Ok st' ->
  exists l, snd st' = snd st +:+ source_text l.
Proof.
  revert st. induction cols as [|col cols IH]; intros st; cbn [foldM].
  - intros [= <-]. exists []. symmetry. apply append_nil_r.
  - intros H. apply bind_ok in H as (st1 & H1 & H).
    destruct (IH _ H) as [l Hl]. rewrite Hl.
    destruct (process_col_sources _ _ _ _ _ H1) as [-> | ->].
    + exists l. reflexivity.
    + exists (tt :: l). rewrite append_assoc_s. reflexivity.
Qed.

Lemma process_dataset_sources (info_cols : gmap string string)
    (headers : list string) (st st' : string * string * string)
    (d : string * DataFrame) :
  process_dataset info_cols headers st d = Ok st' ->
  exists l, snd (fst st') = snd (fst st) +:+ source_text l.
Proof.
  destruct st as [[rl sl] sd], d as [k df]. unfold process_dataset.
  intros H. apply bind_ok in H as (r & _ & H). cbn beta in H.
  apply bind_ok in H as (fs & Hfs & H).
  apply bind_ok in H as (kw & _ & H).
  apply bind_ok in H as (s & _ & H). injection H as <-.
  apply process_cols_sources in Hfs. exact Hfs.
Qed.

Lemma process_datasets_sources (info_cols : gmap string string)
    (headers : list string) (data_sets : list (string * DataFrame))
    (st st' : string * string * string) :
  foldM (process_dataset info_cols headers) data_sets st = Ok st' ->
  exists l, snd (fst st') = snd (fst st) +:+ source_text l.
Proof.
  revert st. induction data_sets as [|d data_sets IH]; intros st; cbn [foldM].
  - intros [= <-]. exists []. symmetry. apply append_nil_r.
  - intros H. apply bind_ok in H as (st1 & H1 & H).
    destruct (IH _ H) as [l Hl]. rewrite Hl.
    destruct (process_dataset_sources _ _ _ _ _ H1) as [l1 ->].
    exists (l1 ++ l). rewrite source_text_app, append_assoc_s. reflexivity.
Qed.

(** The source text of a run is some number of copies of one block. *)
Lemma run_loops_sources (data_sets : list (string * DataFrame))
    (info_cols : gmap string string) (headers : list string)
    (st : string * string * string) :
  run_loops data_sets info_cols headers = Ok st ->
  exists l, snd (fst st) = source_text l.
Proof.
  intros H. apply process_datasets_sources in H as [l Hl]. exists l. exact Hl.
Qed.

(** So the deduplicated sources do not depend on the order of the set. *)
Lemma dedup_sources_run (seed : list nat)
    (data_sets : list (string * DataFrame)) (info_cols : gmap string string)
    (headers : list string) (st : string * string * string) :
  run_loops data_sets info_cols headers = Ok st ->
  dedup_sources seed (snd (fst st)) = Raise TypeError \/
  dedup_sources seed (snd (fst st)) = Ok [source_entry].
Proof.
  intros [l ->]%run_loops_sources. unfold source_text.
  rewrite dedup_sources_blocks. destruct l; auto.
Qed.

Lemma dedup_sources_seed (seed1 seed2 : list nat)
    (data_sets : list (string * DataFrame)) (info_cols : gmap string string)
    (headers : list string) (st : string * string * string) :
  run_loops data_sets info_cols headers = Ok st ->
  dedup_sources seed1 (snd (fst st)) = dedup_sources seed2 (snd (fst st)).
Proof.
  intros [l ->]%run_loops_sources. unfold source_text.
  rewrite !dedup_sources_blocks. reflexivity.
Qed.

Lemma build_metadata_seed (seed1 seed2 : list nat)
    (data_sets : list (string * DataFrame)) (info_cols : gmap string string)
    (version changes : string) (headers : list string) :
  build_metadata seed1 data_sets info_cols version changes headers
  = build_metadata seed2 data_sets info_cols version changes headers.
Proof.
  unfold build_metadata. fold (run_loops data_sets info_cols headers).
  destruct (run_loops data_sets info_cols headers) as [[[rl sl] sd]|e] eqn:E;
    [|reflexivity].
  cbn [bind].
  pose proof (dedup_sources_seed seed1 seed2 _ _ _ _ E) as H.
  cbn [fst snd] in H. rewrite H. reflexivity.
Qed.

End SourceFacts.

(** ** Reading the document *)

Module DocFacts.
Import ColumnFacts.

Lemma key_eqb_str_r (k : yaml) (a : string) :
  key_eqb k (YStr a) = true -> k = YStr a.
Proof.
  destruct k as [|b|z|lit|s|l|l]; cbn [key_eqb num_of]; try discriminate.
  - match goal with
    | |- match ?x with _ => _ end = true -> _ => destruct x; discriminate
    end.
  - intros H. apply String.eqb_eq in H. subst. reflexivity.
Qed.

Lemma dict_get_set_eq (d : list (yaml * yaml)) (a : string) (v : yaml) :
  dict_get (dict_set d (YStr a) v) (YStr a) = Some v.
Proof.
  induction d as [|[k0 v0] d IH]; cbn [dict_set dict_get].
  - cbn [key_eqb]. rewrite String.eqb_refl. reflexivity.
  - destruct (key_eqb k0 (YStr a)) eqn:E; cbn [dict_get]; rewrite E;
      [reflexivity | exact IH].
Qed.

Lemma dict_get_set_ne (d : list (yaml * yaml)) (a b : string) (v : yaml) :
  a <> b ->
  dict_get (dict_set d (YStr a) v) (YStr b) = dict_get d (YStr b).
Proof.
  intros Hne. induction d as [|[k0 v0] d IH]; cbn [dict_set dict_get].
  - cbn [key_eqb]. apply String.eqb_neq in Hne. rewrite Hne. reflexivity.
  - destruct (key_eqb k0 (YStr a)) eqn:E; cbn [dict_get].
    + apply key_eqb_str_r in E. subst k0. cbn [key_eqb].
      apply String.eqb_neq in Hne. rewrite Hne. reflexivity.
    + rewrite IH. reflexivity.
Qed.

(** The entry of a key in a mapping built from distinct keys. *)
Lemma dict_get_keyed {A} (l : list A) (key : A -> string) (g : A -> yaml)
    (a : A) :
  NoDup (map key l) -> a ∈ l ->
  dict_get (map (fun x => (YStr (key x), g x)) l) (YStr (key a)) = Some (g a).
Proof.
  induction l as [|x l IH]; intros Hnd Hin; [inversion Hin|].
  cbn [map] in Hnd. apply NoDup_cons in Hnd as [Hx Hnd].
  cbn [map dict_get key_eqb].
  apply elem_of_cons in Hin as [-> | Hin].
  - rewrite String.eqb_refl. reflexivity.
  - destruct (String.eqb (key x) (key a)) eqn:E.
    + apply String.eqb_eq in E. exfalso. apply Hx. rewrite E.
      apply list_elem_of_fmap. exists a. auto.
    + apply IH; assumption.
Qed.



Lemma expected_doc_resources (data_sets : list (string * DataFrame))
    (info_cols : gmap string string) (version changes : string)
    (headers : list string) :
  field_of (expected_doc data_sets info_cols version changes headers)
    "resources" = Some (expected_resources data_sets).
Proof. reflexivity. Qed.

Lemma expected_doc_schemas (data_sets : list (string * DataFrame))
    (info_cols : gmap string string) (version changes : string)
    (headers : list string) :
  field_of (expected_doc data_sets info_cols version changes headers)
    "schemas" = Some (expected_schemas data_sets info_cols headers).
Proof. reflexivity. Qed.

Lemma expected_doc_sources (data_sets : list (string * DataFrame))
    (info_cols : gmap string string) (version changes : string)
    (headers : list string) :
  field_of (expected_doc data_sets info_cols version changes headers)
    "sources" = Some (YSeq [source_entry]).
Proof. reflexivity. Qed.

(** The schema of a resolution key of a well-formed input. *)
Lemma expected_schema_of (data_sets : list (string * DataFrame))
    (info_cols : gmap string string) (headers : list string)
    (k : string) (df : DataFrame) :
  NoDup (map fst data_sets) -> (k, df) ∈ data_sets ->
  field_of (expected_schemas data_sets info_cols headers) k
  = Some (schema_entry info_cols headers df).
Proof.
  intros Hnd Hin. unfold expected_schemas, field_of.
  apply (dict_get_keyed data_sets fst
           (fun d => schema_entry info_cols headers (snd d)) (k, df) Hnd Hin).
Qed.

End DocFacts.

(** ** Claims about the document *)

Import ColumnFacts RunFacts SourceFacts DocFacts.



(** C4: in the document of any run that completes, the sources hold no two
    entries (at different positions) that agree on project, web and type. *)
Theorem C4_sources_without_duplicates
    (seed : list nat) (data_sets : list (string * DataFrame))
    (info_cols : gmap string string) (version changes : string)
    (headers : list string) (doc : yaml) :
  build_metadata seed data_sets info_cols version changes headers = Ok doc ->
  exists sources,
    field_of doc "sources" = Some (YSeq sources) /\
    NoDup sources /\
    forall i j a b, i <> j -> sources !! i = Some a -> sources !! j = Some b ->
                    ~ same_source a b.
Proof.
  unfold build_metadata. fold (run_loops data_sets info_cols headers).
  intros H. apply bind_ok in H as ([[rl sl] sd] & Hrun & H).
  apply bind_ok in H as (sources & Hsrc & H).
  apply bind_ok in H as (head & _ & H).
  apply bind_ok in H as (metadata & _ & H).
  apply bind_ok in H as (m1 & H1 & H).
  apply bind_ok in H as (resources & _ & H).
  apply bind_ok in H as (m2 & H2 & H).
  apply bind_ok in H as (schemas & _ & H).
  destruct metadata as [| | | | | |m]; try discriminate.
  injection H1 as <-. injection H2 as <-. injection H as <-.
  destruct (dedup_sources_run seed _ _ _ _ Hrun) as [E | E];
    cbn [fst snd] in E; rewrite E in Hsrc; [discriminate|].
  injection Hsrc as <-.
  exists [source_entry]. split.
  - cbn [field_of]. rewrite !dict_get_set_ne by discriminate.
    apply dict_get_set_eq.
  - split; [apply NoDup_singleton|].
    intros [|i] [|j] a b Hij Ha Hb; [congruence|..];
      cbn in Ha, Hb; rewrite ?lookup_nil in *; discriminate.
Qed.

Lemma C4_witness :
  exists sources,
    field_of (expected_doc example_data_sets example_info_cols "2020-04-15"
                "first release" example_headers) "sources"
    = Some (YSeq sources) /\
    NoDup sources /\
    forall i j a b, i <> j -> sources !! i = Some a -> sources !! j = Some b ->
                    ~ same_source a b.
Proof.
  apply (C4_sources_without_duplicates [] example_data_sets example_info_cols
           "2020-04-15" "first release" example_headers).
  vm_compute. reflexivity.
Defined.

(** C6 as amended: for every well-formed input the function returns [None]
    and leaves the serialised document in the file [datapackage.json]. *)
Theorem C6_document_written_none_returned
    (seed : list nat) (files : gmap string string)
    (data_sets : list (string * DataFrame)) (info_cols : gmap string string)
    (version changes : string) (headers : list string) :
  valid_input data_sets info_cols version changes headers = true ->
  make_json seed files data_sets info_cols version changes headers
  = Ok (YNull,
        <["datapackage.json" :=
            json_dumps (expected_doc data_sets info_cols version changes
                          headers)]> files).
Proof.
  intros H. apply make_json_returns_none, build_metadata_valid, H.
Qed.

Lemma C6_witness :
  make_json [] ∅ example_data_sets example_info_cols "2020-04-15"
    "first release" example_headers
  = Ok (YNull,
        <["datapackage.json" :=
            json_dumps (expected_doc example_data_sets example_info_cols
                          "2020-04-15" "first release" example_headers)]> ∅).
Proof.
  apply (C6_document_written_none_returned [] ∅ example_data_sets
           example_info_cols "2020-04-15" "first release" example_headers).
  vm_compute. reflexivity.
Defined.

(** C7: two runs on the same input and the same files end alike, whatever
    order their sets yield: the same exception, or the same return value and
    the same bytes in [datapackage.json] (the sources included, which hold
    one entry). *)
Theorem C7_runs_agree
    (seed1 seed2 : list nat) (files : gmap string string)
    (data_sets : list (string * DataFrame)) (info_cols : gmap string string)
    (version changes : string) (headers : list string) :
  make_json seed1 files data_sets info_cols version changes headers
  = make_json seed2 files data_sets info_cols version changes headers.
Proof.
  unfold make_json.
  rewrite (build_metadata_seed seed1 seed2). reflexivity.
Qed.





(** ** The content of the document *)

(** X1: for a well-formed input, the document records the version tag and
    the change note as the strings they were given as, also when the text
    reads like a number, a date or a truth value (the template writes both
    between single quotes). *)
Theorem X1_version_and_changes_verbatim
    (seed : list nat) (data_sets : list (string * DataFrame))
    (info_cols : gmap string string) (version changes : string)
    (headers : list string) :
  valid_input data_sets info_cols version changes headers = true ->
  exists doc,
    build_metadata seed data_sets info_cols version changes headers = Ok doc /\
    field_of doc "version" = Some (YStr version) /\
    field_of doc "last_changes" = Some (YStr changes).
Proof.
  intros Hvalid. eexists.
  split; [apply build_metadata_valid; exact Hvalid|].
  split; reflexivity.
Qed.

Lemma X1_witness :
  exists doc,
    build_metadata [] example_data_sets example_info_cols "1.0" "no"
      example_headers = Ok doc /\
    field_of doc "version" = Some (YStr "1.0") /\
    field_of doc "last_changes" = Some (YStr "no").
Proof.
  apply (X1_version_and_changes_verbatim [] example_data_sets
           example_info_cols "1.0" "no" example_headers).
  vm_compute. reflexivity.
Defined.

(** X2: for a well-formed input, the document is a dictionary with thirteen
    keys in this order: the ten of the general metadata as the head template
    lists them, then [sources], [resources] and [schemas]. *)
Theorem X2_document_keys_in_order
    (seed : list nat) (data_sets : list (string * DataFrame))
    (info_cols : gmap string string) (version changes : string)
    (headers : list string) :
  valid_input data_sets info_cols version changes headers = true ->
  exists d,
    build_metadata seed data_sets info_cols version changes headers
    = Ok (YMap d) /\
    map fst d =
      map YStr ["name"; "title"; "description"; "long_description";
                "documentation"; "version"; "last_changes"; "keywords";
                "geographical-scope"; "contributors"; "sources"; "resources";
                "schemas"].
Proof.
  intros Hvalid. eexists.
  split; [apply build_metadata_valid; exact Hvalid|]. reflexivity.
Qed.

Lemma X2_witness :
  exists d,
    build_metadata [] example_data_sets example_info_cols "2020-04-15"
      "first release" example_headers = Ok (YMap d) /\
    map fst d =
      map YStr ["name"; "title"; "description"; "long_description";
                "documentation"; "version"; "last_changes"; "keywords";
                "geographical-scope"; "contributors"; "sources"; "resources";
                "schemas"].
Proof.
  apply (X2_document_keys_in_order [] example_data_sets example_info_cols
           "2020-04-15" "first release" example_headers).
  vm_compute. reflexivity.
Defined.

(** X3: for a well-formed input, the resource descriptor of a resolution key
    [k] names the file [household_data_k_singleindex.csv]; its CSV dialect
    has the version as the number [1.0], the comma as delimiter, the
    line-feed character as line terminator and the header flag as the
    boolean [true]; it lists four alternative formats, of which the second
    is the workbook [household_data.xlsx] shared by all keys. *)
Theorem X3_resource_descriptor
    (seed : list nat) (data_sets : list (string * DataFrame))
    (info_cols : gmap string string) (version changes : string)
    (headers : list string) (k : string) (df : DataFrame) :
  valid_input data_sets info_cols version changes headers = true ->
  (k, df) ∈ data_sets ->
  exists doc resources r,
    build_metadata seed data_sets info_cols version changes headers = Ok doc /\
    field_of doc "resources" = Some (YSeq resources) /\
    r ∈ resources /\
    field_of r "schema" = Some (YStr k) /\
    field_of r "path"
    = Some (YStr ("household_data_" +:+ k +:+ "_singleindex.csv")) /\
    field_of r "dialect"
    = Some (YMap [(YStr "csvddfVersion", YFloat "1.0");
                  (YStr "delimiter", YStr ",");
                  (YStr "lineTerminator", YStr nl);
                  (YStr "header", YBool true)]) /\
    exists alts,
      field_of r "alternative_formats" = Some (YSeq alts) /\
      map (fun a => field_of a "path") alts =
        [Some (YStr ("household_data_" +:+ k +:+ "_singleindex.csv"));
         Some (YStr "household_data.xlsx");
         Some (YStr ("household_data_" +:+ k +:+ "_multiindex.csv"));
         Some (YStr ("household_data_" +:+ k +:+ "_stacked.csv"))].
Proof.
  intros Hvalid Hin.
  exists (expected_doc data_sets info_cols version changes headers),
    (xlsx_entry :: map (fun d => resource_entry (fst d)) data_sets),
    (resource_entry k).
  split; [apply build_metadata_valid; exact Hvalid|].
  split; [apply expected_doc_resources|].
  split.
  { right. apply list_elem_of_fmap. exists (k, df). split; [reflexivity|exact Hin]. }
  split; [reflexivity|]. split; [reflexivity|]. split; [reflexivity|].
  eexists. split; reflexivity.
Qed.

Lemma X3_witness :
  exists doc resources r,
    build_metadata [] example_data_sets example_info_cols "2020-04-15"
      "first release" example_headers = Ok doc /\
    field_of doc "resources" = Some (YSeq resources) /\
    r ∈ resources /\
    field_of r "schema" = Some (YStr "15min") /\
    field_of r "path"
    = Some (YStr ("household_data_" +:+ "15min" +:+ "_singleindex.csv")) /\
    field_of r "dialect"
    = Some (YMap [(YStr "csvddfVersion", YFloat "1.0");
                  (YStr "delimiter", YStr ",");
                  (YStr "lineTerminator", YStr nl);
                  (YStr "header", YBool true)]) /\
    exists alts,
      field_of r "alternative_formats" = Some (YSeq alts) /\
      map (fun a => field_of a "path") alts =
        [Some (YStr ("household_data_" +:+ "15min" +:+ "_singleindex.csv"));
         Some (YStr "household_data.xlsx");
         Some (YStr ("household_data_" +:+ "15min" +:+ "_multiindex.csv"));
         Some (YStr ("household_data_" +:+ "15min" +:+ "_stacked.csv"))].
Proof.
  apply (X3_resource_descriptor [] example_data_sets example_info_cols
           "2020-04-15" "first release" example_headers "15min"
           {| columns := [example_utc_col; example_pv_col] |}).
  - vm_compute. reflexivity.
  - left.
Defined.

(** X4: for a well-formed input, the field of a data column is of type
    [number (float)]; its source is an entry of the sources of the document;
    its region is the long name the region table gives for the code of the
    column (the lookup replaces the code), while household and feed are the
    codes of the column. *)
Theorem X4_field_of_a_data_column
    (seed : list nat) (data_sets : list (string * DataFrame))
    (info_cols : gmap string string) (version changes : string)
    (headers : list string) (k : string) (df : DataFrame) (col : list string) :
  valid_input data_sets info_cols version changes headers = true ->
  (k, df) ∈ data_sets -> col ∈ columns df ->
  is_data_col info_cols col = true ->
  exists doc schemas schema fields f src sources,
    build_metadata seed data_sets info_cols version changes headers = Ok doc /\
    field_of doc "schemas" = Some schemas /\
    field_of schemas k = Some schema /\
    field_of schema "fields" = Some (YSeq fields) /\
    f ∈ fields /\
    field_of f "name" = Some (YStr (col_field_name headers col)) /\
    field_of f "type" = Some (YStr "number (float)") /\
    field_of f "source" = Some src /\
    field_of doc "sources" = Some (YSeq sources) /\ src ∈ sources /\
    build_h headers col !! "region" = Some (YStr "DE_konstanz") /\
    build_h headers col !! "household"
    = Some (YStr (col_household headers col)) /\
    build_h headers col !! "feed" = Some (YStr (col_feed headers col)) /\
    field_of f "opsd-properties"
    = Some (YMap [(YStr "Region", YStr "Germany, Konstanz");
                  (YStr "Household", YStr (col_household headers col));
                  (YStr "Feed", YStr (col_feed headers col))]).
Proof.
  intros Hvalid Hin Hcol Hdata.
  pose proof (valid_input_spec _ _ _ _ _ Hvalid) as (Hds & Hnd & _).
  apply valid_datasets_Forall in Hds.
  rewrite Forall_forall in Hds. destruct (Hds _ Hin) as [_ Htable].
  cbn [snd] in Htable. unfold valid_table in Htable.
  rewrite forallb_forall in Htable.
  apply list_elem_of_In in Hcol as Hcol'.
  specialize (Htable col Hcol').
  assert (Hvc : valid_col headers col = true).
  { apply orb_true_iff in Htable as [Hi | Hd].
    - destruct col as [|c0 rest]; [discriminate|].
      cbn [is_info_col is_data_col] in Hi, Hdata. rewrite Hi in Hdata.
      discriminate.
    - apply andb_true_iff in Hd as [_ Hd]. exact Hd. }
  destruct (valid_col_spec _ _ Hvc) as (_ & Hr & _ & Hhh & Hfeed & _).
  eexists _, _, _, _, (col_field headers col), _, _.
  split; [apply build_metadata_valid; exact Hvalid|].
  split; [apply expected_doc_schemas|].
  split; [apply expected_schema_of; eassumption|].
  split; [reflexivity|].
  split.
  { do 3 right. apply list_elem_of_fmap. exists col. split; [reflexivity|].
    unfold data_cols. apply list_elem_of_filter. split; assumption. }
  split; [reflexivity|]. split; [reflexivity|]. split; [reflexivity|].
  split; [apply expected_doc_sources|].
  split; [left|].
  split; [exact Hr|]. split; [exact Hhh|]. split; [exact Hfeed|]. reflexivity.
Qed.

Lemma X4_witness :
  exists doc schemas schema fields f src sources,
    build_metadata [] example_data_sets example_info_cols "2020-04-15"
      "first release" example_headers = Ok doc /\
    field_of doc "schemas" = Some schemas /\
    field_of schemas "15min" = Some schema /\
    field_of schema "fields" = Some (YSeq fields) /\
    f ∈ fields /\
    field_of f "name"
    = Some (YStr (col_field_name example_headers example_pv_col)) /\
    field_of f "type" = Some (YStr "number (float)") /\
    field_of f "source" = Some src /\
    field_of doc "sources" = Some (YSeq sources) /\ src ∈ sources /\
    build_h example_headers example_pv_col !! "region"
    = Some (YStr "DE_konstanz") /\
    build_h example_headers example_pv_col !! "household"
    = Some (YStr (col_household example_headers example_pv_col)) /\
    build_h example_headers example_pv_col !! "feed"
    = Some (YStr (col_feed example_headers example_pv_col)) /\
    field_of f "opsd-properties"
    = Some (YMap [(YStr "Region", YStr "Germany, Konstanz");
                  (YStr "Household",
                   YStr (col_household example_headers example_pv_col));
                  (YStr "Feed",
                   YStr (col_feed example_headers example_pv_col))]).
Proof.
  apply (X4_field_of_a_data_column [] example_data_sets example_info_cols
           "2020-04-15" "first release" example_headers "15min"
           {| columns := [example_utc_col; example_pv_col] |} example_pv_col).
  - vm_compute. reflexivity.
  - left.
  - right. left.
  - vm_compute. reflexivity.
Defined.

(** X5: for a well-formed input, the schema of every resolution key has the
    keys [primaryKey], [missingValue] and [fields], in this order; the
    primary key is the name of the UTC timestamp column, which is also the
    name of the first field, and the missing value is the empty string. *)
Theorem X5_schema_head
    (seed : list nat) (data_sets : list (string * DataFrame))
    (info_cols : gmap string string) (version changes : string)
    (headers : list string) (k : string) (df : DataFrame) :
  valid_input data_sets info_cols version changes headers = true ->
  (k, df) ∈ data_sets ->
  exists doc schemas schema utc first rest,
    build_metadata seed data_sets info_cols version changes headers = Ok doc /\
    field_of doc "schemas" = Some schemas /\
    field_of schemas k = Some (YMap schema) /\
    map fst schema = [YStr "primaryKey"; YStr "missingValue"; YStr "fields"] /\
    info_cols !! "utc" = Some utc /\
    dict_get schema (YStr "primaryKey") = Some (YStr utc) /\
    dict_get schema (YStr "missingValue") = Some (YStr EmptyString) /\
    dict_get schema (YStr "fields") = Some (YSeq (first :: rest)) /\
    field_of first "name" = Some (YStr utc).
Proof.
  intros Hvalid Hin.
  pose proof (valid_input_spec _ _ _ _ _ Hvalid) as (_ & Hnd & Hinfo & _).
  destruct (LoopFacts.valid_info_spec _ Hinfo) as (Hu & _).
  eexists _, _, _, _, _, _.
  split; [apply build_metadata_valid; exact Hvalid|].
  split; [apply expected_doc_schemas|].
  split; [apply expected_schema_of; eassumption|].
  split; [reflexivity|].
  split; [exact Hu|].
  repeat split; reflexivity.
Qed.

Lemma X5_witness :
  exists doc schemas schema utc first rest,
    build_metadata [] example_data_sets example_info_cols "2020-04-15"
      "first release" example_headers = Ok doc /\
    field_of doc "schemas" = Some schemas /\
    field_of schemas "15min" = Some (YMap schema) /\
    map fst schema = [YStr "primaryKey"; YStr "missingValue"; YStr "fields"] /\
    example_info_cols !! "utc" = Some utc /\
    dict_get schema (YStr "primaryKey") = Some (YStr utc) /\
    dict_get schema (YStr "missingValue") = Some (YStr EmptyString) /\
    dict_get schema (YStr "fields") = Some (YSeq (first :: rest)) /\
    field_of first "name" = Some (YStr utc).
Proof.
  apply (X5_schema_head [] example_data_sets example_info_cols
           "2020-04-15" "first release" example_headers "15min"
           {| columns := [example_utc_col; example_pv_col] |}).
  - vm_compute. reflexivity.
  - left.
Defined.

(** ** What has no influence on a run *)

Module InfluenceFacts.

Lemma foldM_map {A B S} (f : S -> B -> result S) (g : A -> B) (l : list A)
    (s : S) :
  foldM f (map g l) s = foldM (fun s a => f s (g a)) l s.
Proof.
  revert s. induction l as [|a l IH]; intros s; simpl; [reflexivity|].
  destruct (f s (g a)); simpl; auto.
Qed.

Lemma foldM_ext {A S} (f g : S -> A -> result S) (l : list A) (s : S) :
  (forall s a, f s a = g s a) -> foldM f l s = foldM g l s.
Proof.
  intros H. revert s. induction l as [|a l IH]; intros s; simpl; [reflexivity|].
  rewrite H. destruct (g s a); simpl; auto.
Qed.

(** The inner loop passes over info columns. *)
Lemma process_cols_drop_info (info_cols : gmap string string)
    (headers : list string) (cols : list (list string)) (st : string * string) :
  foldM (process_col info_cols headers) cols st
  = foldM (process_col info_cols headers)
      (filter (fun col => is_info_col info_cols col = false) cols) st.
Proof.
  revert st. induction cols as [|col cols IH]; intros st; [reflexivity|].
  destruct (is_info_col info_cols col) eqn:E.
  - rewrite filter_cons_False by (rewrite E; discriminate).
    cbn [foldM]. rewrite process_col_info by exact E. cbn [bind]. apply IH.
  - rewrite filter_cons_True by exact E. cbn [foldM].
    destruct (process_col info_cols headers st col); cbn [bind]; auto.
Qed.

Lemma process_dataset_drop_info (info_cols : gmap string string)
    (headers : list string) (st : string * string * string)
    (d : string * DataFrame) :
  process_dataset info_cols headers st (drop_info_cols info_cols d)
  = process_dataset info_cols headers st d.
Proof.
  destruct st as [[resource_list source_list] schemas_dict], d as [res_key df].
  unfold drop_info_cols, process_dataset. cbn [fst snd columns].
  rewrite <- process_cols_drop_info. reflexivity.
Qed.

Lemma fill_agree (ps : list piece) (kw1 kw2 : gmap string yaml) :
  (forall n, Field n ∈ ps -> kw1 !! n = kw2 !! n) ->
  fill ps kw1 = fill ps kw2.
Proof.
  induction ps as [|p ps IH]; intros H; [reflexivity|].
  assert (IH' : fill ps kw1 = fill ps kw2).
  { apply IH. intros n Hn. apply H. right. exact Hn. }
  destruct p as [s|n]; cbn [fill]; rewrite IH'; [reflexivity|].
  rewrite (H n) by left. reflexivity.
Qed.

Ltac field_names Hn :=
  repeat (apply elem_of_cons in Hn as [Hn | Hn];
          [try discriminate; injection Hn as ->;
           unfold levels_read; set_solver |]);
  apply elem_of_nil in Hn; contradiction.

Lemma format_field_agree (h1 h2 : gmap string yaml) :
  agree h1 h2 -> format field_template h1 = format field_template h2.
Proof.
  intros H. TextFacts.compute_pieces field_template. cbn [bind].
  apply fill_agree. intros n Hn. apply H. field_names Hn.
Qed.

Lemma format_source_agree (h1 h2 : gmap string yaml) :
  agree h1 h2 -> format source_template h1 = format source_template h2.
Proof.
  intros H. TextFacts.compute_pieces source_template. cbn [bind].
  apply fill_agree. intros n Hn. apply H. field_names Hn.
Qed.

(** The lookups read the record at the five levels only, and set the four
    entries they add whatever the record held under those names. *)
Lemma lookups_agree (h1 h2 : gmap string yaml) :
  (forall n, n ∈ levels_read -> h1 !! n = h2 !! n) ->
  match lookups h1, lookups h2 with
  | Ok a, Ok b => agree a b
  | Raise e1, Raise e2 => e1 = e2
  | _, _ => False
  end.
Proof.
  intros H. rewrite !lookups_unfold. unfold h_get.
  rewrite <- (H "project"), <- (H "region"), <- (H "type"), <- (H "feed")
    by (unfold levels_read; set_solver).
  destruct (h1 !! "project") as [p|]; cbn [bind]; [|reflexivity].
  destruct (py_getitem (YMap websites) p) as [w|]; cbn [bind]; [|reflexivity].
  destruct (h1 !! "region") as [r|]; cbn [bind]; [|reflexivity].
  destruct (py_getitem (YMap regions) r) as [r'|]; cbn [bind]; [|reflexivity].
  destruct (h1 !! "type") as [t|]; cbn [bind]; [|reflexivity].
  destruct (py_getitem (YMap types) t) as [t'|]; cbn [bind]; [|reflexivity].
  destruct (try_KeyError _ _) as [d|e]; cbn [bind]; [|reflexivity].
  intros n Hn. unfold levels_read in Hn.
  repeat (apply elem_of_cons in Hn as [-> | Hn]);
    try (apply elem_of_nil in Hn; contradiction);
    repeat (rewrite lookup_insert_eq || rewrite lookup_insert_ne by discriminate);
    try reflexivity; apply H; unfold levels_read; set_solver.
Qed.

Lemma process_col_agree (info_cols : gmap string string)
    (headers headers' : list string) (col col' : list string)
    (st : string * string) :
  (forall n, n ∈ levels_read ->
     build_h headers col !! n = build_h headers' col' !! n) ->
  head col = head col' ->
  process_col info_cols headers st col = process_col info_cols headers' st col'.
Proof.
  intros H Hhd. unfold process_col.
  destruct col as [|c0 rest], col' as [|c0' rest']; try discriminate;
    [reflexivity|].
  injection Hhd as <-. cbn [bind].
  destruct (in_values c0 info_cols); [reflexivity|].
  pose proof (lookups_agree _ _ H) as Hl.
  destruct (lookups (build_h headers (c0 :: rest))) as [a|e1],
    (lookups (build_h headers' (c0 :: rest'))) as [b|e2];
    try contradiction; cbn [bind]; [|congruence].
  rewrite (format_field_agree a b Hl), (format_source_agree a b Hl).
  reflexivity.
Qed.

End InfluenceFacts.

Import InfluenceFacts.

(** X6: the info columns of the tables have no influence on a run: with
    every info column removed from every table, the run ends in the same
    exception, or returns the same value and writes the same files. *)
Theorem X6_info_columns_have_no_influence
    (seed : list nat) (files : gmap string string)
    (data_sets : list (string * DataFrame)) (info_cols : gmap string string)
    (version changes : string) (headers : list string) :
  make_json seed files (map (drop_info_cols info_cols) data_sets) info_cols
    version changes headers
  = make_json seed files data_sets info_cols version changes headers.
Proof.
  unfold make_json, build_metadata. rewrite foldM_map.
  rewrite (foldM_ext _ (process_dataset info_cols headers)); [reflexivity|].
  intros st d. apply process_dataset_drop_info.
Qed.

(** X7: the loop body reads a column through the first value of its header
    tuple and through the levels [project], [region], [type], [household]
    and [feed] of its record: two columns that agree on these (under
    whatever lists of level names) add the same texts, or raise the same
    exception. *)
Theorem X7_other_levels_have_no_influence
    (info_cols : gmap string string) (headers headers' : list string)
    (col col' : list string) (st : string * string) :
  (forall n, n ∈ levels_read ->
     build_h headers col !! n = build_h headers' col' !! n) ->
  head col = head col' ->
  process_col info_cols headers st col = process_col info_cols headers' st col'.
Proof. apply process_col_agree. Qed.

Lemma X7_witness :
  process_col example_info_cols example_headers ("", "") example_pv_col
  = process_col example_info_cols ("unit" :: example_headers ++ ["web"])
      ("", "")
      ("DE_konstanz" :: example_pv_col ++ ["http://example.org/"]).
Proof.
  apply (X7_other_levels_have_no_influence example_info_cols example_headers
           ("unit" :: example_headers ++ ["web"]) example_pv_col
           ("DE_konstanz" :: example_pv_col ++ ["http://example.org/"])
           ("", "")).
  - intros n Hn. unfold levels_read in Hn.
    repeat (apply elem_of_cons in Hn as [-> | Hn]);
      try (apply elem_of_nil in Hn; contradiction); vm_compute; reflexivity.
  - reflexivity.
Defined.

(** X8: a second run on the same input finds the file of the first run and
    leaves it as it is: the files after two runs are the files after one. *)
Theorem X8_second_run_writes_the_same_file
    (seed1 seed2 : list nat) (files files' : gmap string string)
    (data_sets : list (string * DataFrame)) (info_cols : gmap string string)
    (version changes : string) (headers : list string) (r : yaml) :
  make_json seed1 files data_sets info_cols version changes headers
  = Ok (r, files') ->
  make_json seed2 files' data_sets info_cols version changes headers
  = Ok (r, files').
Proof.
  unfold make_json. intros H. apply bind_ok in H as (doc & Hdoc & H).
  injection H as <- <-.
  rewrite (build_metadata_seed seed2 seed1), Hdoc. cbn [bind].
  rewrite insert_insert_eq. reflexivity.
Qed.

Lemma X8_witness :
  make_json [1] (<["datapackage.json" :=
                     json_dumps (expected_doc example_data_sets
                                   example_info_cols "2020-04-15"
                                   "first release" example_headers)]> ∅)
    example_data_sets example_info_cols "2020-04-15" "first release"
    example_headers
  = Ok (YNull,
        <["datapackage.json" :=
            json_dumps (expected_doc example_data_sets example_info_cols
                          "2020-04-15" "first release" example_headers)]> ∅).
Proof.
  apply (X8_second_run_writes_the_same_file [] [1] ∅).
  vm_compute. reflexivity.
Defined.

(** ** Which exception ends a run *)

Module ErrorFacts.

Lemma lookup_error_some (table : list (yaml * yaml)) (h : gmap string yaml)
    (level : string) (e : exn) {B} (k : yaml -> result B) :
  lookup_error table h level = Some e ->
  (v <<- h_get h level ;; w <<- py_getitem (YMap table) v ;; k w) = Raise e.
Proof.
  unfold lookup_error, h_get, py_getitem.
  destruct (h !! level) as [v|]; cbn [bind].
  - destruct (dict_get table v); [discriminate|]. intros [= <-]. reflexivity.
  - intros [= <-]. reflexivity.
Qed.

Lemma lookup_error_none (table : list (yaml * yaml)) (h : gmap string yaml)
    (level : string) {B} (k : yaml -> result B) :
  lookup_error table h level = None ->
  exists v w,
    dict_get table v = Some w /\
    (v <<- h_get h level ;; w <<- py_getitem (YMap table) v ;; k w) = k w.
Proof.
  unfold lookup_error, h_get, py_getitem.
  destruct (h !! level) as [v|]; cbn [bind]; [|discriminate].
  destruct (dict_get table v) as [w|] eqn:E; [|discriminate]. intros _.
  exists v, w. split; [exact E | reflexivity].
Qed.

(** The description never fails: a missing or unlisted feed gets the
    default. *)
Lemma description_ok (h : gmap string yaml) :
  exists d, try_KeyError
              (f <<- h_get h "feed" ;; py_getitem (YMap descriptions) f)
              (Ok (YStr "Energy in kWh")) = Ok (YStr d).
Proof.
  unfold h_get, py_getitem.
  destruct (h !! "feed") as [f|]; cbn [bind try_KeyError]; [|eauto].
  destruct (dict_get descriptions f) as [d|] eqn:E; cbn [try_KeyError];
    [|eauto].
  revert E. unfold descriptions. cbn [dict_get].
  repeat (destruct (key_eqb _ f); [intros [= <-]; eauto|]).
  discriminate.
Qed.

(** The outcome of the four lookups: the exception of the first failing one,
    or the record with the four entries set. *)
Lemma lookups_outcome (h : gmap string yaml) :
  match first_lookup_error h with
  | Some e => lookups h = Raise e
  | None =>
      exists d,
        lookups h = Ok (<["description" := YStr d]>
                          (<["type" := YStr the_type]>
                             (<["region" := YStr the_region]>
                                (<["web" := YStr the_web]> h))))
  end.
Proof.
  rewrite lookups_unfold. unfold first_lookup_error.
  destruct (lookup_error websites h "project") as [e|] eqn:Ep.
  { apply lookup_error_some. exact Ep. }
  destruct (lookup_error_none websites h "project"
              (fun w => r <<- h_get h "region" ;;
     r' <<- py_getitem (YMap regions) r ;;
     t <<- h_get h "type" ;;
     t' <<- py_getitem (YMap types) t ;;
     d <<- try_KeyError
             (f <<- h_get h "feed" ;; py_getitem (YMap descriptions) f)
             (Ok (YStr "Energy in kWh")) ;;
     Ok (<["description" := d]>
           (<["type" := t']> (<["region" := r']> (<["web" := w]> h))))) Ep)
    as (p & w & Hw & ->).
  apply ColumnFacts.dict_get_single in Hw as [_ ->].
  destruct (lookup_error regions h "region") as [e|] eqn:Er.
  { apply lookup_error_some. exact Er. }
  destruct (lookup_error_none regions h "region"
              (fun r' => t <<- h_get h "type" ;;
     t' <<- py_getitem (YMap types) t ;;
     d <<- try_KeyError
             (f <<- h_get h "feed" ;; py_getitem (YMap descriptions) f)
             (Ok (YStr "Energy in kWh")) ;;
     Ok (<["description" := d]>
           (<["type" := t']> (<["region" := r']>
              (<["web" := YStr "http://cossmic.eu/"]> h))))) Er)
    as (r0 & r & Hr & ->).
  apply ColumnFacts.dict_get_single in Hr as [_ ->].
  destruct (lookup_error types h "type") as [e|] eqn:Et.
  { apply lookup_error_some. exact Et. }
  destruct (lookup_error_none types h "type"
              (fun t' => d <<- try_KeyError
             (f <<- h_get h "feed" ;; py_getitem (YMap descriptions) f)
             (Ok (YStr "Energy in kWh")) ;;
     Ok (<["description" := d]>
           (<["type" := t']> (<["region" := YStr "Germany, Konstanz"]>
              (<["web" := YStr "http://cossmic.eu/"]> h))))) Et)
    as (t0 & t & Ht & ->).
  apply ColumnFacts.dict_get_single in Ht as [_ ->].
  destruct (description_ok h) as [d ->]. cbn [bind]. exists d. reflexivity.
Qed.

(** A run stops at the first column that is not an info column and whose
    processing raises. *)
Lemma make_json_first_col_raises (seed : list nat) (files : gmap string string)
    (res_key : string) (pre post : list (list string)) (col : list string)
    (rest : list (string * DataFrame)) (info_cols : gmap string string)
    (version changes : string) (headers : list string) (e : exn) :
  forallb (is_info_col info_cols) pre = true ->
  (forall st, process_col info_cols headers st col = Raise e) ->
  make_json seed files
    ((res_key, {| columns := pre ++ col :: post |}) :: rest)
    info_cols version changes headers = Raise e.
Proof.
  intros Hpre Hcol. apply make_json_raises. unfold build_metadata.
  cbn [foldM]. unfold process_dataset at 1. unfold resource_list_init.
  rewrite TextFacts.format_resource_template. cbn [bind columns].
  rewrite foldM_app, foldM_process_col_info by exact Hpre.
  cbn [bind foldM]. rewrite Hcol. reflexivity.
Qed.

(** The values of a header record are strings. *)
Lemma build_h_str (headers col : list string) (n : string) (v : yaml) :
  build_h headers col !! n = Some v -> exists s, v = YStr s.
Proof.
  unfold build_h.
  assert (H : forall (l : list (string * string)) (acc : gmap string yaml),
             (forall v, acc !! n = Some v -> exists s, v = YStr s) ->
             forall v,
               foldl (fun h kv => <[fst kv := YStr (snd kv)]> h) acc l !! n
               = Some v -> exists s, v = YStr s).
  { induction l as [|[a b] l IH]; intros acc Hacc v0; [apply Hacc|].
    cbn [foldl]. apply IH. intros v1. cbn [fst snd].
    destruct (decide (a = n)) as [->|Hne].
    - rewrite lookup_insert_eq. intros [= <-]. eauto.
    - rewrite lookup_insert_ne by exact Hne. apply Hacc. }
  apply H. intros v0. rewrite lookup_empty. discriminate.
Qed.

(** The field template asks for the household first, then for the feed. *)
Lemma format_field_missing_level (h : gmap string yaml) (n : string) :
  (forall k v, h !! k = Some v -> exists s, v = YStr s) ->
  first_missing_level h = Some n ->
  format field_template h = Raise (KeyError (YStr n)).
Proof.
  intros Hstr. unfold first_missing_level.
  TextFacts.compute_pieces field_template. cbn [bind fill].
  destruct (h !! "household") as [v|] eqn:Eh.
  - destruct (Hstr _ _ Eh) as [s ->]. cbn [py_str bind].
    destruct (h !! "feed") as [f|]; [discriminate|].
    intros [= <-]. reflexivity.
  - intros [= <-]. reflexivity.
Qed.

(** A run stops at the schema template of the first table when the columns
    of that table are processed and the template cannot be filled in. *)
Lemma make_json_schema_raises (seed : list nat) (files : gmap string string)
    (res_key : string) (df : DataFrame) (rest : list (string * DataFrame))
    (info_cols : gmap string string) (version changes : string)
    (headers : list string) (fs : string * string) (e : exn) :
  foldM (process_col info_cols headers) (columns df) ("", "") = Ok fs ->
  (kw <<- schema_kwargs res_key info_cols ;; format schemas_template kw)
  = Raise e ->
  make_json seed files ((res_key, df) :: rest) info_cols version changes
    headers = Raise e.
Proof.
  intros Hcols He. apply make_json_raises. unfold build_metadata.
  cbn [foldM]. unfold process_dataset at 1. unfold resource_list_init.
  rewrite TextFacts.format_resource_template. cbn [bind].
  rewrite Hcols. cbn [bind].
  destruct (schema_kwargs res_key info_cols) as [kw|e']; cbn [bind] in He |- *.
  - rewrite He. reflexivity.
  - injection He as <-. reflexivity.
Qed.

Lemma format_schemas_missing_name (res_key : string)
    (info_cols : gmap string string) (n : string) :
  first_missing_name info_cols = Some n ->
  format schemas_template (<["res_key" := YStr res_key]> (YStr <$> info_cols))
  = Raise (KeyError (YStr n)).
Proof.
  unfold first_missing_name.
  TextFacts.compute_pieces schemas_template. cbn [bind fill].
  rewrite lookup_insert_eq. cbn [py_str bind].
  rewrite !lookup_insert_ne by discriminate. rewrite !lookup_fmap.
  destruct (info_cols !! "utc") as [u|]; cbn [fmap option_fmap option_map];
    [|intros [= <-]; reflexivity].
  cbn [py_str bind].
  destruct (info_cols !! "cet") as [c|]; cbn [fmap option_fmap option_map];
    [|intros [= <-]; reflexivity].
  cbn [py_str bind].
  destruct (info_cols !! "marker") as [m|]; cbn [fmap option_fmap option_map];
    [discriminate|intros [= <-]; reflexivity].
Qed.

End ErrorFacts.

Import ErrorFacts.

(** X9: when the first column of the first table that is not an info column
    is a data column whose project, region or type lookup fails, the run
    ends in the [KeyError] of the first failing lookup, project before
    region before type; the error carries the level name when the header
    record has no such level, and the code when the table does not list
    it. *)
Theorem X9_run_raises_the_first_lookup_error
    (seed : list nat) (files : gmap string string) (res_key : string)
    (pre post : list (list string)) (col : list string)
    (rest : list (string * DataFrame)) (info_cols : gmap string string)
    (version changes : string) (headers : list string) (e : exn) :
  forallb (is_info_col info_cols) pre = true ->
  is_data_col info_cols col = true ->
  first_lookup_error (build_h headers col) = Some e ->
  lookups (build_h headers col) = Raise e /\
  make_json seed files
    ((res_key, {| columns := pre ++ col :: post |}) :: rest)
    info_cols version changes headers = Raise e.
Proof.
  intros Hpre Hdata He.
  pose proof (lookups_outcome (build_h headers col)) as Hl.
  rewrite He in Hl. split; [exact Hl|].
  apply make_json_first_col_raises; [exact Hpre|].
  apply process_col_raises; assumption.
Qed.

Lemma X9_witness :
  lookups (build_h ["household"; "type"; "feed"; "project"]
             ["DE_KN_residential1"; "hotel"; "pv"; "CoSSMic"])
  = Raise (KeyError (YStr "region")) /\
  make_json [] ∅
    [("15min",
      {| columns := [example_utc_col] ++
                    ["DE_KN_residential1"; "hotel"; "pv"; "CoSSMic"] ::
                    [example_pv_col] |})]
    example_info_cols "2020-04-15" "first release"
    ["household"; "type"; "feed"; "project"]
  = Raise (KeyError (YStr "region")).
Proof.
  apply (X9_run_raises_the_first_lookup_error [] ∅ "15min" [example_utc_col]
           [example_pv_col] ["DE_KN_residential1"; "hotel"; "pv"; "CoSSMic"]
           [] example_info_cols "2020-04-15" "first release"
           ["household"; "type"; "feed"; "project"]
           (KeyError (YStr "region"))).
  - vm_compute. reflexivity.
  - vm_compute. reflexivity.
  - vm_compute. reflexivity.
Defined.

(** X10: the four lookups of a column succeed exactly when its project,
    region and type codes are listed in their tables; the feed can never
    make them fail.  When they succeed they set [web], [region], [type] and
    [description] and leave every other entry of the record as it was. *)
Theorem X10_lookups_succeed_iff_codes_listed (h : gmap string yaml) :
  (first_lookup_error h = None <-> exists h', lookups h = Ok h') /\
  (forall h', lookups h = Ok h' ->
     (forall n, n ∉ ["web"; "region"; "type"; "description"] ->
                h' !! n = h !! n) /\
     (forall n, n ∈ ["web"; "region"; "type"; "description"] ->
                exists v, h' !! n = Some v)).
Proof.
  pose proof (lookups_outcome h) as Hl.
  destruct (first_lookup_error h) as [e|].
  - split.
    + split; [discriminate|]. intros [h' Hh']. rewrite Hl in Hh'. discriminate.
    + intros h' Hh'. rewrite Hl in Hh'. discriminate.
  - destruct Hl as (d & Hl). split.
    + split; [eauto|reflexivity].
    + intros h' Hh'. rewrite Hl in Hh'. injection Hh' as <-. split.
      * intros n Hn. rewrite !lookup_insert_ne; [reflexivity|..];
          intros <-; apply Hn; set_solver.
      * intros n Hn.
        repeat (apply elem_of_cons in Hn as [-> | Hn]);
          try (apply elem_of_nil in Hn; contradiction);
          repeat (rewrite lookup_insert_eq
                  || rewrite lookup_insert_ne by discriminate); eauto.
Qed.

(** X11: a data column whose three codes are listed but whose record has no
    [household] or no [feed] level passes the lookups (the missing feed gets
    the default description) and then fails in the field template: the run
    ends in the [KeyError] of the first of the two names that is missing. *)
Theorem X11_missing_household_or_feed_level
    (seed : list nat) (files : gmap string string) (res_key : string)
    (pre post : list (list string)) (col : list string)
    (rest : list (string * DataFrame)) (info_cols : gmap string string)
    (version changes : string) (headers : list string) (n : string) :
  forallb (is_info_col info_cols) pre = true ->
  is_data_col info_cols col = true ->
  first_lookup_error (build_h headers col) = None ->
  first_missing_level (build_h headers col) = Some n ->
  (exists h', lookups (build_h headers col) = Ok h') /\
  make_json seed files
    ((res_key, {| columns := pre ++ col :: post |}) :: rest)
    info_cols version changes headers = Raise (KeyError (YStr n)).
Proof.
  intros Hpre Hdata Hnone Hmiss.
  pose proof (lookups_outcome (build_h headers col)) as Hl.
  rewrite Hnone in Hl. destruct Hl as (d & Hl).
  split; [eauto|].
  apply make_json_first_col_raises; [exact Hpre|]. intros st.
  rewrite process_col_data by exact Hdata. rewrite Hl. cbn [bind].
  rewrite (format_field_missing_level _ n); [reflexivity| |].
  - intros k v.
    repeat match goal with
           | |- <[?a := _]> _ !! k = Some v -> _ =>
               destruct (decide (a = k)) as [<-|?];
               [rewrite lookup_insert_eq; intros [= <-]; eauto
               |rewrite lookup_insert_ne by assumption]
           end.
    apply build_h_str.
  - unfold first_missing_level in Hmiss |- *.
    rewrite !lookup_insert_ne by discriminate. exact Hmiss.
Qed.

Lemma X11_witness :
  (exists h', lookups (build_h ["region"; "household"; "type"; "project"]
                         ["DE_konstanz"; "DE_KN_residential1";
                          "residential_4-person_suburb_building"; "CoSSMic"])
              = Ok h') /\
  make_json [] ∅
    [("15min",
      {| columns := [example_utc_col] ++
                    ["DE_konstanz"; "DE_KN_residential1";
                     "residential_4-person_suburb_building"; "CoSSMic"] ::
                    [] |})]
    example_info_cols "2020-04-15" "first release"
    ["region"; "household"; "type"; "project"]
  = Raise (KeyError (YStr "feed")).
Proof.
  apply (X11_missing_household_or_feed_level [] ∅ "15min" [example_utc_col]
           [] ["DE_konstanz"; "DE_KN_residential1";
               "residential_4-person_suburb_building"; "CoSSMic"]
           [] example_info_cols "2020-04-15" "first release"
           ["region"; "household"; "type"; "project"] "feed").
  - vm_compute. reflexivity.
  - vm_compute. reflexivity.
  - vm_compute. reflexivity.
  - vm_compute. reflexivity.
Defined.

(** X12: when [info_cols] has an entry named [res_key], the keyword
    arguments of the schema template name [res_key] twice: once the columns
    of the first table are processed, the run ends in a [TypeError]. *)
Theorem X12_res_key_among_info_cols
    (seed : list nat) (files : gmap string string) (res_key : string)
    (df : DataFrame) (rest : list (string * DataFrame))
    (info_cols : gmap string string) (version changes : string)
    (headers : list string) (fs : string * string) (name : string) :
  foldM (process_col info_cols headers) (columns df) ("", "") = Ok fs ->
  info_cols !! "res_key" = Some name ->
  make_json seed files ((res_key, df) :: rest) info_cols version changes
    headers = Raise TypeError.
Proof.
  intros Hcols Hname. apply (make_json_schema_raises _ _ _ _ _ _ _ _ _ fs);
    [exact Hcols|].
  unfold schema_kwargs. rewrite Hname. reflexivity.
Qed.

Lemma X12_witness :
  make_json [] ∅ example_data_sets
    (<["res_key" := "resolution"]> example_info_cols)
    "2020-04-15" "first release" example_headers = Raise TypeError.
Proof.
  refine (X12_res_key_among_info_cols [] ∅ "15min"
            {| columns := [example_utc_col; example_pv_col] |} []
            (<["res_key" := "resolution"]> example_info_cols)
            "2020-04-15" "first release" example_headers _ "resolution" _ _).
  - vm_compute. reflexivity.
  - vm_compute. reflexivity.
Defined.

(** X13: when [info_cols] has no entry named [res_key] and lacks one of the
    names [utc], [cet] and [marker], the schema template cannot be filled
    in: once the columns of the first table are processed, the run ends in
    the [KeyError] of the first missing name, in this order. *)
Theorem X13_missing_info_name
    (seed : list nat) (files : gmap string string) (res_key : string)
    (df : DataFrame) (rest : list (string * DataFrame))
    (info_cols : gmap string string) (version changes : string)
    (headers : list string) (fs : string * string) (n : string) :
  foldM (process_col info_cols headers) (columns df) ("", "") = Ok fs ->
  info_cols !! "res_key" = None ->
  first_missing_name info_cols = Some n ->
  make_json seed files ((res_key, df) :: rest) info_cols version changes
    headers = Raise (KeyError (YStr n)).
Proof.
  intros Hcols Hkey Hn. apply (make_json_schema_raises _ _ _ _ _ _ _ _ _ fs);
    [exact Hcols|].
  unfold schema_kwargs. rewrite Hkey. cbn [bind].
  apply format_schemas_missing_name. exact Hn.
Qed.

Lemma X13_witness :
  make_json [] ∅ example_data_sets
    (<["utc" := "utc_timestamp"]> (<["marker" := "interpolated"]> ∅))
    "2020-04-15" "first release" example_headers
  = Raise (KeyError (YStr "cet")).
Proof.
  refine (X13_missing_info_name [] ∅ "15min"
            {| columns := [example_utc_col; example_pv_col] |} []
            (<["utc" := "utc_timestamp"]> (<["marker" := "interpolated"]> ∅))
            "2020-04-15" "first release" example_headers _ "cet" _ _ _).
  - vm_compute. reflexivity.
  - vm_compute. reflexivity.
  - vm_compute. reflexivity.
Defined.

(** ** The set of source entries *)

Module SetFacts.

Lemma keys_distinct_app (d : list (yaml * yaml)) (k v : yaml) :
  keys_distinct d = true ->
  (forall k' v', (k', v') ∈ d -> key_eqb k' k = false) ->
  keys_distinct (d ++ [(k, v)]) = true.
Proof.
  induction d as [|[k0 v0] d IH]; intros Hd Hk; [reflexivity|].
  cbn [keys_distinct app] in Hd |- *.
  apply andb_true_iff in Hd as [H0 Hd].
  apply andb_true_iff. split.
  - rewrite forallb_app, H0. cbn [forallb fst andb].
    rewrite (Hk k0 v0) by left. reflexivity.
  - apply IH; [exact Hd|]. intros k' v' Hin. apply (Hk k' v'). right. exact Hin.
Qed.

(** [d[k] = v] keeps the keys of a dictionary distinct. *)
Lemma dict_set_keys_distinct (d : list (yaml * yaml)) (k v : yaml) :
  keys_distinct d = true -> keys_distinct (dict_set d k v) = true.
Proof.
  induction d as [|[k0 v0] d IH]; intros Hd; [reflexivity|].
  cbn [keys_distinct dict_set] in Hd |- *.
  apply andb_true_iff in Hd as [H0 Hd].
  destruct (key_eqb k0 k) eqn:E; cbn [keys_distinct].
  - rewrite H0, Hd. reflexivity.
  - rewrite (IH Hd), andb_true_r. clear IH Hd.
    induction d as [|[k1 v1] d IH]; cbn [dict_set forallb fst].
    + rewrite E. reflexivity.
    + cbn [forallb fst] in H0. apply andb_true_iff in H0 as [H1 H0].
      destruct (key_eqb k1 k); cbn [forallb fst]; rewrite H1; cbn [andb];
        [exact H0 | apply IH; exact H0].
Qed.

Lemma keys_distinct_earlier (acc d : list (yaml * yaml)) (k v : yaml) :
  keys_distinct (acc ++ (k, v) :: d) = true ->
  forall k' v', (k', v') ∈ acc -> key_eqb k' k = false.
Proof.
  induction acc as [|[k0 v0] acc IH]; intros H k' v' Hin; [inversion Hin|].
  cbn [keys_distinct app] in H. apply andb_true_iff in H as [H0 H].
  apply elem_of_cons in Hin as [[= -> ->] | Hin].
  - rewrite forallb_app in H0. apply andb_true_iff in H0 as [_ H0].
    cbn [forallb fst] in H0. apply andb_true_iff in H0 as [H0 _].
    apply negb_true_iff in H0. exact H0.
  - apply (IH H k' v' Hin).
Qed.

Lemma foldl_dict_set (d acc : list (yaml * yaml)) :
  keys_distinct (acc ++ d) = true ->
  foldl (fun d kv => dict_set d (fst kv) (snd kv)) acc d = acc ++ d.
Proof.
  revert acc. induction d as [|[k v] d IH]; intros acc H.
  - cbn [foldl]. rewrite app_nil_r. reflexivity.
  - cbn [foldl fst snd].
    rewrite LoadFacts.dict_set_fresh by (eapply keys_distinct_earlier; exact H).
    rewrite IH; rewrite <- app_assoc; [reflexivity | exact H].
Qed.

(** [dict(tuple(d.items()))] is [d]. *)
Lemma dict_of_items_distinct (d : list (yaml * yaml)) :
  keys_distinct d = true -> dict_of_items d = YMap d.
Proof.
  intros H. unfold dict_of_items. rewrite foldl_dict_set by exact H.
  reflexivity.
Qed.

Lemma tuple_eqb_refl (t : list (yaml * yaml)) :
  str_items t = true -> tuple_eqb t t = true.
Proof.
  induction t as [|[k v] t IH]; [reflexivity|].
  cbn [str_items forallb fst snd tuple_eqb]. intros H.
  apply andb_true_iff in H as [Hkv Ht].
  apply andb_true_iff in Hkv as [Hk Hv].
  destruct k; try discriminate. destruct v; try discriminate.
  unfold pair_eqb. cbn [fst snd key_eqb]. rewrite !String.eqb_refl.
  apply IH. exact Ht.
Qed.

Lemma tuple_eqb_eq (t u : list (yaml * yaml)) :
  str_items t = true -> tuple_eqb t u = true -> t = u.
Proof.
  revert u. induction t as [|[k v] t IH]; intros [|[k' v'] u]; try discriminate;
    [reflexivity|].
  cbn [str_items forallb fst snd tuple_eqb]. intros H E.
  apply andb_true_iff in H as [Hkv Ht].
  apply andb_true_iff in Hkv as [Hk Hv].
  apply andb_true_iff in E as [Ep E].
  unfold pair_eqb in Ep. cbn [fst snd] in Ep.
  apply andb_true_iff in Ep as [Ek Ev].
  destruct k; try discriminate. destruct v; try discriminate.
  apply ColumnFacts.key_eqb_str in Ek. apply ColumnFacts.key_eqb_str in Ev.
  subst k' v'. f_equal. apply IH; assumption.
Qed.

(** Among tuples of strings the set keeps one of each. *)
Lemma py_dedup_spec (l : list (list (yaml * yaml))) :
  Forall (fun t => str_items t = true) l ->
  NoDup (py_dedup l) /\ forall t, t ∈ py_dedup l <-> t ∈ l.
Proof.
  induction l as [|t l IH]; intros H.
  - split; [constructor | reflexivity].
  - apply Forall_cons in H as [Ht Hl]. destruct (IH Hl) as [Hnd Hmem].
    cbn [py_dedup]. split.
    + apply NoDup_cons. split.
      * intros Hin. apply list_elem_of_filter in Hin as [Hne _].
        rewrite (tuple_eqb_refl t Ht) in Hne. exact Hne.
      * apply NoDup_filter. exact Hnd.
    + intros u. rewrite !elem_of_cons, list_elem_of_filter, Hmem. split.
      * intros [-> | [_ Hu]]; auto.
      * intros [-> | Hu]; [auto|].
        destruct (tuple_eqb t u) eqn:E.
        -- left. symmetry. apply tuple_eqb_eq; assumption.
        -- right. split; [exact I | exact Hu].
Qed.

Lemma insert_at_perm {A} (n : nat) (x : A) (l : list A) :
  insert_at n x l ≡ₚ x :: l.
Proof.
  revert n. induction l as [|y l IH]; intros [|n]; cbn [insert_at];
    try reflexivity.
  rewrite IH. apply Permutation_swap.
Qed.

(** Whatever the order the set yields, it yields what it holds. *)
Lemma shuffle_perm {A} (seed : list nat) (l : list A) : shuffle seed l ≡ₚ l.
Proof.
  revert seed. induction l as [|x l IH]; intros seed; [reflexivity|].
  destruct seed as [|n seed]; cbn [shuffle].
  - rewrite IH. reflexivity.
  - rewrite insert_at_perm, IH. reflexivity.
Qed.

Lemma mapM_tupleize_str (entries : list yaml) :
  forallb str_dict entries = true ->
  exists ts,
    mapM tupleize entries = Ok ts /\ map YMap ts = entries /\
    Forall (fun t => str_items t = true /\ keys_distinct t = true) ts.
Proof.
  induction entries as [|e entries IH]; intros H.
  - exists []. repeat split; constructor.
  - cbn [forallb] in H. apply andb_true_iff in H as [He H].
    destruct (IH H) as (ts & Hts & Hmap & Hall).
    destruct e as [| | | | | |d]; try discriminate.
    cbn [str_dict] in He. apply andb_true_iff in He as [Hs Hd].
    exists (d :: ts). cbn [mapM tupleize].
    assert (Hh : forallb (fun kv => hashable (fst kv) && hashable (snd kv)) d
                 = true).
    { clear -Hs. induction d as [|[k v] d IH]; [reflexivity|].
      cbn [str_items forallb fst snd] in Hs |- *.
      apply andb_true_iff in Hs as [Hkv Hs].
      apply andb_true_iff in Hkv as [Hk Hv].
      destruct k; try discriminate. destruct v; try discriminate.
      cbn [hashable andb]. apply IH. exact Hs. }
    rewrite Hh. cbn [bind]. rewrite Hts. cbn [bind].
    split; [reflexivity|]. split; [cbn [map]; rewrite Hmap; reflexivity|].
    constructor; [split; assumption | exact Hall].
Qed.

End SetFacts.

Import SetFacts.

(** X14: turning a dictionary into the tuple of its items and the tuple back
    into a dictionary gives the dictionary again (the keys of a dictionary
    being distinct): the detour through the set loses nothing of an
    entry. *)
Theorem X14_items_round_trip (d t : list (yaml * yaml)) :
  keys_distinct d = true ->
  tupleize (YMap d) = Ok t ->
  dict_of_items t = YMap d.
Proof.
  intros Hd. cbn [tupleize].
  destruct (forallb _ d); [|discriminate]. intros [= <-].
  apply dict_of_items_distinct. exact Hd.
Qed.

Lemma X14_witness :
  dict_of_items [(YStr "project", YStr "A"); (YInt 1, YBool true);
                 (YStr "web", YNull)]
  = YMap [(YStr "project", YStr "A"); (YInt 1, YBool true);
          (YStr "web", YNull)].
Proof.
  apply (X14_items_round_trip
           [(YStr "project", YStr "A"); (YInt 1, YBool true);
            (YStr "web", YNull)]).
  - vm_compute. reflexivity.
  - vm_compute. reflexivity.
Defined.

(** X15: on a source text that loads as a list of dictionaries of strings,
    the removal of duplicates returns every entry of the list exactly once
    and nothing else, whatever the order in which the set yields its
    elements. *)
Theorem X15_duplicates_removed_entries_kept
    (seed : list nat) (source_list : string) (entries : list yaml) :
  yaml_load source_list = Ok (YSeq entries) ->
  forallb str_dict entries = true ->
  exists out,
    dedup_sources seed source_list = Ok out /\
    NoDup out /\ forall e, e ∈ out <-> e ∈ entries.
Proof.
  intros Hload Hstr. unfold dedup_sources. rewrite Hload. cbn [bind py_iter].
  destruct (mapM_tupleize_str entries Hstr) as (ts & -> & <- & Hall).
  cbn [bind]. eexists. split; [reflexivity|].
  assert (Hs : Forall (fun t => str_items t = true) ts).
  { eapply Forall_impl; [exact Hall|]. intros t [Ht _]. exact Ht. }
  destruct (py_dedup_spec ts Hs) as [Hnd Hmem].
  assert (Hout : map dict_of_items (py_set seed ts) ≡ₚ map YMap (py_dedup ts)).
  { unfold py_set. rewrite shuffle_perm.
    assert (Hd : Forall (fun t => keys_distinct t = true) (py_dedup ts)).
    { apply Forall_forall. intros t Ht. apply Hmem in Ht.
      rewrite Forall_forall in Hall. apply (Hall t Ht). }
    clear -Hd. induction Hd as [|t l Ht _ IH]; [reflexivity|].
    cbn [map]. rewrite (dict_of_items_distinct t Ht), IH. reflexivity. }
  split.
  - rewrite Hout. apply NoDup_fmap_2; [|exact Hnd]. intros a b [= ->].
    reflexivity.
  - intros e. rewrite Hout, !list_elem_of_fmap. split.
    + intros (t & -> & Ht). exists t. split; [reflexivity|]. apply Hmem, Ht.
    + intros (t & -> & Ht). exists t. split; [reflexivity|]. apply Hmem, Ht.
Qed.

Lemma X15_witness :
  exists out,
    dedup_sources [1; 0] three_sources = Ok out /\
    NoDup out /\
    forall e, e ∈ out <->
      e ∈ [YMap [(YStr "project", YStr "A"); (YStr "web", YStr "B")];
           YMap [(YStr "project", YStr "C"); (YStr "web", YStr "D")];
           YMap [(YStr "project", YStr "A"); (YStr "web", YStr "B")]].
Proof.
  apply (X15_duplicates_removed_entries_kept [1; 0] three_sources).
  - vm_compute. reflexivity.
  - vm_compute. reflexivity.
Defined.

(** ** Header tuples and level names of different lengths *)

(** X16: the header record pairs level names and header values position by
    position and stops at the shorter of the two lists: values beyond the
    last level name, and level names beyond the last value, leave no trace
    in the record. *)
Theorem X16_header_record_stops_at_the_shorter_list
    (headers col : list string) :
  build_h headers col
  = build_h (take (length col) headers) (take (length headers) col) /\
  forall n, n ∉ take (length col) headers -> build_h headers col !! n = None.
Proof.
  assert (Hzip : forall (l k : list string),
             zip (take (length k) l) (take (length l) k) = zip l k).
  { induction l as [|a l IH]; intros [|b k]; cbn; try reflexivity.
    f_equal. apply IH. }
  assert (Hcut : build_h headers col
                 = build_h (take (length col) headers)
                     (take (length headers) col)).
  { unfold build_h. rewrite Hzip. reflexivity. }
  split; [exact Hcut|].
  intros n Hn. rewrite Hcut. unfold build_h.
  rewrite build_h_go_notin by exact Hn. apply lookup_empty.
Qed.

(** ** The JSON text *)

Module JsonFacts.
Import Json.

Lemma printable_ascii_text (s : string) :
  str_forall is_printable s = true -> ascii_text s = true.
Proof.
  apply str_forall_impl. intros c Hc. unfold loadable_char. rewrite Hc.
  reflexivity.
Qed.

Lemma ascii_text_app (a b : string) :
  ascii_text a = true -> ascii_text b = true -> ascii_text (a +:+ b) = true.
Proof.
  unfold ascii_text. intros Ha Hb. rewrite str_forall_app, Ha, Hb. reflexivity.
Qed.

Lemma escape_char_printable (c : ascii) :
  str_forall is_printable (escape_char c) = true.
Proof. destruct c as [[] [] [] [] [] [] [] []]; vm_compute; reflexivity. Qed.

Lemma escape_printable (s : string) :
  str_forall is_printable (escape s) = true.
Proof.
  induction s as [|c s IH]; [reflexivity|]. cbn [escape].
  rewrite str_forall_app, escape_char_printable, IH. reflexivity.
Qed.

Lemma quote_ascii (s : string) : ascii_text (quote s) = true.
Proof.
  apply printable_ascii_text. unfold quote.
  rewrite !str_forall_app, escape_printable. reflexivity.
Qed.

Lemma digit_char_printable (n : N) :
  is_printable (digit_char (N.to_nat (n mod 10))) = true.
Proof.
  assert (H : (n mod 10 < 10)%N) by (apply N.mod_lt; discriminate).
  destruct (n mod 10)%N as [|p]; [reflexivity|].
  do 4 (destruct p as [p|p|]; try reflexivity; try (exfalso; lia)).
Qed.

Lemma pos_digits_printable (fuel : nat) (n : N) (acc : string) :
  str_forall is_printable acc = true ->
  str_forall is_printable (pos_digits fuel n acc) = true.
Proof.
  revert n acc. induction fuel as [|fuel IH]; intros n acc Hacc; [exact Hacc|].
  cbn [pos_digits].
  assert (H : str_forall is_printable
                (String (digit_char (N.to_nat (n mod 10))) acc) = true).
  { cbn [str_forall]. rewrite digit_char_printable, Hacc. reflexivity. }
  destruct (n <? 10)%N; [exact H | apply IH; exact H].
Qed.

Lemma Z_to_str_printable (z : Z) : str_forall is_printable (Z_to_str z) = true.
Proof.
  unfold Z_to_str. destruct (z <? 0)%Z; cbn [str_forall];
    rewrite ?pos_digits_printable; reflexivity.
Qed.

Lemma spaces_printable (n : nat) : str_forall is_printable (spaces n) = true.
Proof. induction n as [|n IH]; [reflexivity | exact IH]. Qed.

Lemma newline_indent_ascii (level : nat) :
  ascii_text (newline_indent level) = true.
Proof.
  unfold newline_indent. apply ascii_text_app; [reflexivity|].
  apply printable_ascii_text, spaces_printable.
Qed.

Lemma join_ascii (sep : string) (l : list string) :
  ascii_text sep = true -> Forall (fun s => ascii_text s = true) l ->
  ascii_text (join sep l) = true.
Proof.
  intros Hsep Hl. induction Hl as [|s l Hs Hl IH]; [reflexivity|].
  cbn [join]. destruct l as [|s' l]; [exact Hs|].
  apply ascii_text_app; [exact Hs|]. apply ascii_text_app; [exact Hsep|].
  exact IH.
Qed.

Lemma separator_ascii (level : nat) :
  ascii_text ("," +:+ newline_indent level) = true.
Proof. apply ascii_text_app; [reflexivity | apply newline_indent_ascii]. Qed.

Lemma encode_ascii (v : yaml) :
  forall level, numerals_ok v = true -> ascii_text (encode level v) = true.
Proof.
  revert v. fix IH 1. intros v level Hv.
  destruct v as [|b|z|lit|s|l|d].
  - reflexivity.
  - destruct b; reflexivity.
  - apply printable_ascii_text, Z_to_str_printable.
  - apply printable_ascii_text. exact Hv.
  - apply quote_ascii.
  - destruct l as [|x l]; [reflexivity|].
    change (encode level (YSeq (x :: l)))
      with ("[" +:+ newline_indent (S level) +:+
            join ("," +:+ newline_indent (S level))
              (map (encode (S level)) (x :: l)) +:+
            newline_indent level +:+ "]").
    apply ascii_text_app; [reflexivity|].
    apply ascii_text_app; [apply newline_indent_ascii|].
    apply ascii_text_app;
      [|apply ascii_text_app; [apply newline_indent_ascii | reflexivity]].
    apply join_ascii; [apply separator_ascii|].
    cbn [numerals_ok] in Hv. revert Hv. generalize (x :: l). clear x l.
    intros l. induction l as [|y l IHl]; intros Hl; [constructor|].
    cbn [forallb] in Hl. apply andb_true_iff in Hl as [Hy Hl].
    cbn [map]. constructor; [apply IH; exact Hy | apply IHl; exact Hl].
  - destruct d as [|x d]; [reflexivity|].
    change (encode level (YMap (x :: d)))
      with ("{" +:+ newline_indent (S level) +:+
            join ("," +:+ newline_indent (S level))
              (map (fun kv => quote (key_text (fst kv)) +:+ ": " +:+
                              encode (S level) (snd kv)) (x :: d)) +:+
            newline_indent level +:+ "}").
    apply ascii_text_app; [reflexivity|].
    apply ascii_text_app; [apply newline_indent_ascii|].
    apply ascii_text_app;
      [|apply ascii_text_app; [apply newline_indent_ascii | reflexivity]].
    apply join_ascii; [apply separator_ascii|].
    cbn [numerals_ok] in Hv. revert Hv. generalize (x :: d). clear x d.
    intros d. induction d as [|[k w] d IHd]; intros Hd; [constructor|].
    cbn [forallb fst snd] in Hd. apply andb_true_iff in Hd as [Hkw Hd].
    apply andb_true_iff in Hkw as [Hk Hw].
    cbn [map fst snd]. constructor; [|apply IHd; exact Hd].
    apply ascii_text_app; [apply quote_ascii|].
    apply ascii_text_app; [reflexivity|]. apply IH. exact Hw.
Qed.

End JsonFacts.

(** X17: the JSON text of a value holds printable ASCII characters and line
    feeds only, whatever its strings hold (float literals, which are printed
    as they are, being printable): every quote, backslash, control character
    and character beyond ASCII of a string or a key is escaped. *)
Theorem X17_json_text_is_plain_ascii (v : yaml) :
  numerals_ok v = true -> ascii_text (json_dumps v) = true.
Proof. intros Hv. apply JsonFacts.encode_ascii. exact Hv. Qed.

Lemma X17_witness : ascii_text (json_dumps awkward_value) = true.
Proof.
  apply (X17_json_text_is_plain_ascii awkward_value).
  vm_compute. reflexivity.
Defined.

(** ** The values a run puts into the document *)

Module ValueFacts.
Import Yaml.

Lemma split_dot_spec (s a b : string) :
  split_dot s = Some (a, b) -> s = a +:+ String "." b.
Proof.
  revert a. induction s as [|c s IH]; intros a; cbn [split_dot];
    [discriminate|].
  destruct (ascii_eqb c ".") eqn:E.
  - intros [= <- <-]. apply ascii_eqb_eq in E. subst c. reflexivity.
  - destruct (split_dot s) as [[a' b']|]; [|discriminate].
    intros [= <- <-]. cbn [String.append]. f_equal. apply IH. reflexivity.
Qed.

Lemma digit_printable (c : ascii) : is_digit c = true -> is_printable c = true.
Proof.
  destruct c as [[] [] [] [] [] [] [] []]; vm_compute; intros H;
    first [reflexivity | discriminate].
Qed.

Lemma canonical_float_printable (s : string) :
  is_canonical_float s = true -> str_forall is_printable s = true.
Proof.
  unfold is_canonical_float.
  destruct (split_dot s) as [[a b]|] eqn:E; [|discriminate].
  intros H. apply andb_true_iff in H as [H _].
  apply andb_true_iff in H as [H _].
  apply andb_true_iff in H as [Ha Hb].
  rewrite (split_dot_spec _ _ _ E), str_forall_app. cbn [str_forall].
  rewrite (str_forall_impl _ _ a digit_printable Ha),
    (str_forall_impl _ _ b digit_printable Hb). reflexivity.
Qed.

Lemma resolve_plain_numerals (t : string) (v : yaml) :
  resolve_plain t = Ok v -> numerals_ok v = true.
Proof.
  unfold resolve_plain.
  destruct (str_in t bool_true_words); [intros [= <-]; reflexivity|].
  destruct (str_in t bool_false_words); [intros [= <-]; reflexivity|].
  destruct (str_in t null_words); [intros [= <-]; reflexivity|].
  destruct (str_in t ["<<"; "="]); [discriminate|].
  destruct t as [|c t']; [intros [= <-]; reflexivity|].
  destruct (is_digit c || has_char c "-+."); [|intros [= <-]; reflexivity].
  destruct (is_plain_int (String c t')); [intros [= <-]; reflexivity|].
  destruct (is_canonical_float (String c t')) eqn:E.
  - intros [= <-]. apply canonical_float_printable. exact E.
  - destruct (str_forall is_numeric_char (String c t')); [discriminate|].
    intros [= <-]. reflexivity.
Qed.

Lemma dict_set_numerals (d : list (yaml * yaml)) (k v : yaml) :
  numerals_ok (YMap d) = true -> numerals_ok k = true ->
  numerals_ok v = true -> numerals_ok (YMap (dict_set d k v)) = true.
Proof.
  cbn [numerals_ok]. intros Hd Hk Hv.
  induction d as [|[k0 v0] d IH]; cbn [dict_set forallb fst snd].
  - rewrite Hk, Hv. reflexivity.
  - cbn [forallb fst snd] in Hd. apply andb_true_iff in Hd as [H0 Hd].
    apply andb_true_iff in H0 as [Hk0 Hv0].
    destruct (key_eqb k0 k); cbn [forallb fst snd].
    + rewrite Hk0, Hv, Hd. reflexivity.
    + rewrite Hk0, Hv0, (IH Hd). reflexivity.
Qed.

(** The loader returns floats as the numerals it read. *)
Lemma construct_numerals (r : raw) :
  forall v, construct r = Ok v -> numerals_ok v = true.
Proof.
  revert r. fix IH 1. intros [t|s|l|l] v.
  - apply resolve_plain_numerals.
  - intros [= <-]. reflexivity.
  - rewrite ChunkFacts.construct_seq. intros H.
    apply bind_ok in H as (vs & Hvs & [= <-]). cbn [numerals_ok].
    revert vs Hvs. induction l as [|x l IHl]; intros vs.
    + intros [= <-]. reflexivity.
    + rewrite ChunkFacts.construct_list_cons. intros H.
      apply bind_ok in H as (v & Hv & H).
      apply bind_ok in H as (vs' & Hvs' & [= <-]).
      cbn [forallb]. rewrite (IH x v Hv), (IHl vs' Hvs'). reflexivity.
  - rewrite ChunkFacts.construct_map. intros H.
    apply bind_ok in H as (d & Hd & [= <-]).
    assert (Hacc : numerals_ok (YMap []) = true) by reflexivity.
    revert Hacc Hd. generalize (@nil (yaml * yaml)).
    induction l as [|[k x] l IHl]; intros acc Hacc.
    + intros [= <-]. exact Hacc.
    + rewrite ChunkFacts.construct_entries_cons. intros H.
      apply bind_ok in H as (key & Hkey & H).
      apply bind_ok in H as (v & Hv & H).
      apply (IHl (dict_set acc key v)); [|exact H].
      apply dict_set_numerals;
        [exact Hacc | apply (resolve_plain_numerals k); exact Hkey
        | apply (IH x); exact Hv].
Qed.

Lemma load_numerals (text : string) (v : yaml) :
  yaml_load text = Ok v -> numerals_ok v = true.
Proof.
  unfold yaml_load, load. destruct (negb _); [discriminate|]. intros H.
  apply bind_ok in H as (r & _ & H). apply (construct_numerals r). exact H.
Qed.

Lemma py_dedup_subset (l : list (list (yaml * yaml))) (t : list (yaml * yaml)) :
  t ∈ py_dedup l -> t ∈ l.
Proof.
  revert t. induction l as [|u l IH]; intros t; [trivial|].
  cbn [py_dedup]. rewrite !elem_of_cons, list_elem_of_filter.
  intros [-> | [_ Ht]]; auto.
Qed.

Lemma dict_of_items_numerals (t : list (yaml * yaml)) :
  numerals_ok (YMap t) = true -> numerals_ok (dict_of_items t) = true.
Proof.
  unfold dict_of_items. intros Ht.
  assert (Hacc : numerals_ok (YMap []) = true) by reflexivity.
  revert Hacc. generalize (@nil (yaml * yaml)).
  induction t as [|[k v] t IH]; intros acc Hacc; [exact Hacc|].
  cbn [numerals_ok forallb fst snd] in Ht.
  apply andb_true_iff in Ht as [Hkv Ht].
  apply andb_true_iff in Hkv as [Hk Hv].
  cbn [foldl fst snd]. apply IH; [exact Ht|].
  apply dict_set_numerals; assumption.
Qed.

Lemma py_iter_numerals (obj : yaml) (l : list yaml) :
  numerals_ok obj = true -> py_iter obj = Ok l ->
  Forall (fun v => numerals_ok v = true) l.
Proof.
  destruct obj as [| | | |s|l0|d]; try discriminate; intros Hobj [= <-].
  - apply Forall_fmap, Forall_forall. intros c _. reflexivity.
  - cbn [numerals_ok] in Hobj. apply Forall_forall. intros v Hv.
    rewrite forallb_forall in Hobj. apply Hobj, list_elem_of_In, Hv.
  - cbn [numerals_ok] in Hobj. apply Forall_fmap, Forall_forall.
    intros kv Hkv. rewrite forallb_forall in Hobj.
    apply list_elem_of_In, Hobj in Hkv.
    apply andb_true_iff in Hkv as [Hk _]. exact Hk.
Qed.

Lemma mapM_tupleize_numerals (entries : list yaml)
    (ts : list (list (yaml * yaml))) :
  Forall (fun v => numerals_ok v = true) entries ->
  mapM tupleize entries = Ok ts ->
  Forall (fun t => numerals_ok (YMap t) = true) ts.
Proof.
  intros He. revert ts. induction He as [|e entries He _ IH]; intros ts.
  - intros [= <-]. constructor.
  - cbn [mapM]. intros H. apply bind_ok in H as (t & Ht & H).
    apply bind_ok in H as (ts' & Hts & [= <-]).
    constructor; [|apply IH; exact Hts].
    destruct e as [| | | | | |d]; try discriminate. cbn [tupleize] in Ht.
    destruct (forallb _ d); [|discriminate]. injection Ht as <-. exact He.
Qed.

Lemma dedup_sources_numerals (seed : list nat) (source_list : string)
    (out : list yaml) :
  dedup_sources seed source_list = Ok out ->
  numerals_ok (YSeq out) = true.
Proof.
  unfold dedup_sources. intros H.
  apply bind_ok in H as (parsed & Hp & H).
  apply bind_ok in H as (entries & He & H).
  apply bind_ok in H as (ts & Hts & [= <-]).
  pose proof (py_iter_numerals _ _ (load_numerals _ _ Hp) He) as Hent.
  pose proof (mapM_tupleize_numerals _ _ Hent Hts) as Hall.
  cbn [numerals_ok]. apply forallb_forall. intros v Hv.
  apply list_elem_of_In, list_elem_of_fmap in Hv as (t & -> & Ht).
  apply dict_of_items_numerals. unfold py_set in Ht.
  rewrite SetFacts.shuffle_perm in Ht. apply py_dedup_subset in Ht.
  rewrite Forall_forall in Hall. apply Hall, Ht.
Qed.

Lemma build_metadata_numerals (seed : list nat)
    (data_sets : list (string * DataFrame)) (info_cols : gmap string string)
    (version changes : string) (headers : list string) (doc : yaml) :
  build_metadata seed data_sets info_cols version changes headers = Ok doc ->
  numerals_ok doc = true.
Proof.
  unfold build_metadata. intros H.
  apply bind_ok in H as ([[rl sl] sd] & _ & H).
  apply bind_ok in H as (sources & Hsrc & H).
  apply bind_ok in H as (head & _ & H).
  apply bind_ok in H as (metadata & Hmeta & H).
  apply bind_ok in H as (m1 & H1 & H).
  apply bind_ok in H as (resources & Hres & H).
  apply bind_ok in H as (m2 & H2 & H).
  apply bind_ok in H as (schemas & Hsch & H).
  apply load_numerals in Hmeta, Hres, Hsch.
  apply dedup_sources_numerals in Hsrc.
  destruct metadata as [| | | | | |m]; try discriminate.
  injection H1 as <-. injection H2 as <-. injection H as <-.
  repeat apply dict_set_numerals; try assumption; reflexivity.
Qed.

End ValueFacts.

(** X18: every run that completes leaves in [datapackage.json] a text of
    printable ASCII characters and line feeds. *)
Theorem X18_file_is_plain_ascii
    (seed : list nat) (files files' : gmap string string)
    (data_sets : list (string * DataFrame)) (info_cols : gmap string string)
    (version changes : string) (headers : list string) (r : yaml) :
  make_json seed files data_sets info_cols version changes headers
  = Ok (r, files') ->
  exists text,
    files' !! "datapackage.json" = Some text /\ ascii_text text = true.
Proof.
  unfold make_json. intros H. apply bind_ok in H as (doc & Hdoc & [= <- <-]).
  eexists. split; [apply lookup_insert_eq|].
  apply JsonFacts.encode_ascii.
  apply (ValueFacts.build_metadata_numerals _ _ _ _ _ _ _ Hdoc).
Qed.

Lemma X18_witness :
  exists text,
    (<["datapackage.json" :=
         json_dumps (expected_doc example_data_sets example_info_cols
                       "2020-04-15" "first release" example_headers)]>
       (∅ : gmap string string)) !! "datapackage.json" = Some text /\
    ascii_text text = true.
Proof.
  apply (X18_file_is_plain_ascii [] ∅ _ example_data_sets example_info_cols
           "2020-04-15" "first release" example_headers YNull).
  vm_compute. reflexivity.
Defined.

(** X19: the order in which the set yields its elements changes the order
    of the sources and nothing else: on any source text, two runs of the
    removal of duplicates raise the same exception or return lists that are
    permutations of each other. *)
Theorem X19_sources_agree_up_to_order
    (seed1 seed2 : list nat) (source_list : string) :
  match dedup_sources seed1 source_list, dedup_sources seed2 source_list with
  | Ok out1, Ok out2 => out1 ≡ₚ out2
  | Raise e1, Raise e2 => e1 = e2
  | _, _ => False
  end.
Proof.
  unfold dedup_sources.
  destruct (yaml_load source_list) as [parsed|e]; cbn [bind]; [|reflexivity].
  destruct (py_iter parsed) as [entries|e]; cbn [bind]; [|reflexivity].
  destruct (mapM tupleize entries) as [ts|e]; cbn [bind]; [|reflexivity].
  unfold py_set. rewrite !shuffle_perm. reflexivity.
Qed.

(** ** Quotes in the version tag and the change note *)

Module QuoteFacts.
Import Yaml YamlFacts StackFacts ChunkFacts TextFacts LoopFacts LoadFacts
  RunFacts.

Lemma sq_read_other (c : ascii) (s : string) :
  ascii_eqb c ch_sq = false ->
  sq_read (String c s) = option_map (String c) (sq_read s).
Proof. intros E. cbn [sq_read]. rewrite E. reflexivity. Qed.

Lemma scan_sq_other (c : ascii) (s : string) :
  ascii_eqb c ch_sq = false ->
  scan_sq (String c s) = (p <<- scan_sq s ;; Ok (String c (fst p), snd p)).
Proof. intros E. cbn [scan_sq]. rewrite E. reflexivity. Qed.

Lemma scan_sq_read (s : string) :
  (forall v, sq_read s = Some v -> scan_sq (s +:+ sq) = Ok (v, "")) /\
  (forall c v, sq_read (String c s) = Some v ->
               scan_sq (String c s +:+ sq) = Ok (v, "")).
Proof.
  induction s as [|c0 s [IH1 IH2]].
  - split; [intros v [= <-]; reflexivity|].
    intros c v. cbn [sq_read].
    destruct (ascii_eqb c ch_sq) eqn:E; [discriminate|].
    intros [= <-]. cbn [String.append scan_sq]. rewrite E. reflexivity.
  - assert (H1 : forall v, sq_read (String c0 s) = Some v ->
                           scan_sq (String c0 s +:+ sq) = Ok (v, ""))
      by exact (IH2 c0).
    split; [exact H1|].
    intros c v.
    change (String c (String c0 s) +:+ sq)
      with (String c (String c0 s +:+ sq)).
    destruct (ascii_eqb c ch_sq) eqn:E.
    + cbn [sq_read]. rewrite E.
      change (String c0 s +:+ sq) with (String c0 (s +:+ sq)).
      cbn [scan_sq]. rewrite E.
      destruct (ascii_eqb c0 ch_sq) eqn:E0; [|discriminate].
      destruct (sq_read s) as [v'|] eqn:Ev; [|discriminate].
      intros [= <-]. rewrite (IH1 v' eq_refl). reflexivity.
    + rewrite (sq_read_other c _ E), (scan_sq_other c _ E).
      destruct (sq_read (String c0 s)) as [v'|] eqn:Ev; [|discriminate].
      intros [= <-]. rewrite (H1 v' eq_refl). reflexivity.
Qed.

Lemma lex_line_pair_sq_read (k s v : string) :
  ok_word k = true -> sq_read s = Some v ->
  lex_line (k +:+ ": " +:+ sq +:+ s +:+ sq) = Ok [EPair 0 k (VQuoted v)].
Proof.
  intros Hk Hv. pose proof (ok_word_inert _ Hk) as Hin.
  destruct (ok_word_start _ Hk) as (c & k' & Ek & Hi & Hsp & Hdq & Hsq & Hd).
  assert (E : k +:+ ": " +:+ sq +:+ s +:+ sq
              = String c (k' +:+ ": " +:+ sq +:+ s +:+ sq))
    by (rewrite Ek; reflexivity).
  apply (lex_line_item 0 (k +:+ ": " +:+ sq +:+ s +:+ sq)).
  - exists c, (k' +:+ ": " +:+ sq +:+ s +:+ sq). auto.
  - rewrite E, (lex_item_plain _ _ _ Hdq Hsq Hi), <- E.
    change (k +:+ ": " +:+ sq +:+ s +:+ sq)
      with (k +:+ String ":" (String " " (sq +:+ s +:+ sq))).
    rewrite (find_colon_key _ _ Hin) by reflexivity.
    rewrite (has_char_inert _ Hin), (rstrip_inert _ Hin).
    change (String " " (sq +:+ s +:+ sq))
      with (Json.spaces 1 +:+ String ch_sq (s +:+ sq)).
    rewrite skip_spaces_spaces by reflexivity. cbn [snd].
    unfold lex_scalar. cbn [ascii_eqb Ascii.eqb Bool.eqb ch_sq ch_dq orb andb].
    rewrite (proj1 (scan_sq_read s) v Hv). reflexivity.
Qed.

Lemma load_head_read (version changes v c : string) :
  printable version -> printable changes ->
  sq_read version = Some v -> sq_read changes = Some c ->
  yaml_load (block (head_lines version changes))
  = Ok (YMap (head_entries v c)).
Proof.
  intros Pv Pc Hv Hc.
  assert (Ha : exists st' r,
             absorb ("" :: head_lines version changes) [] = Ok st' /\
             finish st' = Ok r /\
             construct r = Ok (YMap (head_entries v c))).
  { unfold absorb, head_lines, head_entries. cbn [lex_lines].
    use_line (lex_line_pair_sq_read "version" version v eq_refl Hv).
    use_line (lex_line_pair_sq_read "last_changes" changes c eq_refl Hc).
    lex_closed_lines. cbn [bind app].
    eexists _, _. split; [vm_compute; reflexivity|].
    split; [vm_compute; reflexivity|].
    construct_solve. }
  destruct Ha as (st & r & Ha & Hf & Hr).
  rewrite <- (append_nil_r (block _)).
  apply (load_blocks [head_lines version changes] st r).
  - constructor; [|constructor]. unfold head_lines. printable_lines.
  - cbn [map concat]. rewrite app_nil_r. exact Ha.
  - exact Hf.
  - exact Hr.
Qed.

Lemma build_metadata_read (seed : list nat)
    (data_sets : list (string * DataFrame)) (info_cols : gmap string string)
    (version changes v c : string) (headers : list string) :
  valid_input data_sets info_cols "" "" headers = true ->
  printable version -> printable changes ->
  sq_read version = Some v -> sq_read changes = Some c ->
  build_metadata seed data_sets info_cols version changes headers
  = Ok (expected_doc data_sets info_cols v c headers).
Proof.
  intros (Hds & Hnd & Hinfo & _ & _ & Hdata)%valid_input_spec Pv Pc Hv Hc.
  pose proof (valid_datasets_Forall _ _ _ Hds) as Hall.
  destruct (has_data_col_spec _ _ Hdata) as [Hcols Hne].
  unfold build_metadata. fold (run_loops data_sets info_cols headers).
  rewrite (run_loops_valid _ _ _ Hinfo Hds). cbn [bind].
  unfold source_blocks. rewrite dedup_sources_blocks.
  destruct (all_data_cols info_cols data_sets) as [|col cols] eqn:E;
    [congruence|].
  cbn [bind]. rewrite format_metadata_head. cbn [bind].
  rewrite (load_head_read _ _ v c Pv Pc Hv Hc). cbn [bind py_setitem].
  rewrite load_resources
    by (eapply Forall_impl; [exact Hall|]; intros d [Hd _]; exact Hd).
  cbn [bind]. rewrite (load_schemas _ _ _ Hinfo Hall Hnd Hne).
  cbn [bind]. reflexivity.
Qed.

End QuoteFacts.

(** X20: the version tag and the change note are put between single quotes
    as they are, so that the document records what the quoted text stands
    for: two single quotes in a row are recorded as one, every other
    printable character as itself (the rest of the input being
    well-formed). *)
Theorem X20_doubled_quotes_are_recorded_once
    (seed : list nat) (data_sets : list (string * DataFrame))
    (info_cols : gmap string string) (version changes v c : string)
    (headers : list string) :
  valid_input data_sets info_cols "" "" headers = true ->
  str_forall is_printable version = true ->
  str_forall is_printable changes = true ->
  sq_read version = Some v -> sq_read changes = Some c ->
  exists doc,
    build_metadata seed data_sets info_cols version changes headers = Ok doc /\
    field_of doc "version" = Some (YStr v) /\
    field_of doc "last_changes" = Some (YStr c).
Proof.
  intros Hvalid Pv Pc Hv Hc. eexists.
  split; [apply (QuoteFacts.build_metadata_read _ _ _ _ _ v c); assumption|].
  split; reflexivity.
Qed.

Lemma X20_witness :
  exists doc,
    build_metadata [] example_data_sets example_info_cols
      (String "2" (String ch_sq (String ch_sq "20")))
      (String ch_sq (String ch_sq "fixed: yes # really"))
      example_headers = Ok doc /\
    field_of doc "version" = Some (YStr (String "2" (String ch_sq "20"))) /\
    field_of doc "last_changes"
    = Some (YStr (String ch_sq "fixed: yes # really")).
Proof.
  apply (X20_doubled_quotes_are_recorded_once [] example_data_sets
           example_info_cols
           (String "2" (String ch_sq (String ch_sq "20")))
           (String ch_sq (String ch_sq "fixed: yes # really"))
           (String "2" (String ch_sq "20"))
           (String ch_sq "fixed: yes # really")
           example_headers).
  - vm_compute. reflexivity.
  - vm_compute. reflexivity.
  - vm_compute. reflexivity.
  - vm_compute. reflexivity.
  - vm_compute. reflexivity.
Defined.

(** ** What a completed run implies *)

Module CompletedFacts.
Import ErrorFacts.

Lemma foldM_ok_each {A S} (f : S -> A -> result S) (l : list A) (s s' : S)
    (a : A) :
  foldM f l s = Ok s' -> a ∈ l -> exists s1 s2, f s1 a = Ok s2.
Proof.
  revert s. induction l as [|b l IH]; intros s H Hin; [inversion Hin|].
  cbn [foldM] in H. apply bind_ok in H as (s1 & Hb & H).
  apply elem_of_cons in Hin as [-> | Hin]; [eauto | eapply IH; eassumption].
Qed.

(** A column that is processed has a first value; if it is a data column
    its three codes are listed and it has a household and a feed. *)
Lemma process_col_ok (info_cols : gmap string string) (headers : list string)
    (st st' : string * string) (col : list string) :
  process_col info_cols headers st col = Ok st' ->
  col <> [] /\
  (is_data_col info_cols col = true ->
   first_lookup_error (build_h headers col) = None /\
   first_missing_level (build_h headers col) = None).
Proof.
  intros H. split; [intros ->; discriminate|]. intros Hdata.
  rewrite process_col_data in H by exact Hdata.
  pose proof (lookups_outcome (build_h headers col)) as Hl.
  destruct (first_lookup_error (build_h headers col)) as [e|];
    [rewrite Hl in H; discriminate|].
  split; [reflexivity|]. destruct Hl as (d & Hl). rewrite Hl in H.
  cbn [bind] in H. apply bind_ok in H as (f & Hf & _).
  destruct (first_missing_level (build_h headers col)) as [n|] eqn:En;
    [|reflexivity].
  rewrite (format_field_missing_level _ n) in Hf; [discriminate| |].
  - intros k v.
    repeat match goal with
           | |- <[?a := _]> _ !! k = Some v -> _ =>
               destruct (decide (a = k)) as [<-|?];
               [rewrite lookup_insert_eq; intros [= <-]; eauto
               |rewrite lookup_insert_ne by assumption]
           end.
    apply build_h_str.
  - unfold first_missing_level in En |- *.
    rewrite !lookup_insert_ne by discriminate. exact En.
Qed.

(** A table that is processed has columns that are processed, and the
    schema template finds its names. *)
Lemma process_dataset_ok (info_cols : gmap string string)
    (headers : list string) (st st' : string * string * string)
    (res_key : string) (df : DataFrame) :
  process_dataset info_cols headers st (res_key, df) = Ok st' ->
  info_cols !! "res_key" = None /\ first_missing_name info_cols = None /\
  forall col, col ∈ columns df ->
    exists s1 s2, process_col info_cols headers s1 col = Ok s2.
Proof.
  destruct st as [[resource_list source_list] schemas_dict].
  unfold process_dataset. intros H.
  apply bind_ok in H as (r & _ & H).
  apply bind_ok in H as (fs & Hfs & H).
  apply bind_ok in H as (kw & Hkw & H).
  apply bind_ok in H as (s & Hs & _).
  unfold schema_kwargs in Hkw.
  destruct (info_cols !! "res_key") eqn:Ek; [discriminate|].
  injection Hkw as <-. split; [reflexivity|]. split.
  - destruct (first_missing_name info_cols) as [n|] eqn:En; [|reflexivity].
    rewrite (format_schemas_missing_name _ _ n En) in Hs. discriminate.
  - intros col Hcol. eapply foldM_ok_each; eassumption.
Qed.

Lemma some_data_col (info_cols : gmap string string)
    (data_sets : list (string * DataFrame)) :
  no_data_columns info_cols data_sets = false ->
  (forall d col, d ∈ data_sets -> col ∈ columns (snd d) -> col <> []) ->
  has_data_col info_cols data_sets = true.
Proof.
  unfold no_data_columns, has_data_col. intros Hno Hne.
  induction data_sets as [|d data_sets IH]; [discriminate|].
  cbn [forallb existsb] in Hno |- *. apply orb_true_iff.
  apply andb_false_iff in Hno as [Hd | Hds].
  - left. assert (Hcols : forall col, col ∈ columns (snd d) -> col <> [])
      by (intros col Hcol; apply (Hne d col); [left | exact Hcol]).
    clear -Hd Hcols. induction (columns (snd d)) as [|col cols IH];
      [discriminate|].
    cbn [forallb existsb] in Hd |- *. apply orb_true_iff.
    apply andb_false_iff in Hd as [Hc | Hcs].
    + left. destruct col as [|c0 rest]; [exfalso; apply (Hcols []); [left|reflexivity]|].
      cbn [is_info_col is_data_col] in Hc |- *. rewrite Hc. reflexivity.
    + right. apply IH; [exact Hcs|]. intros c Hc. apply Hcols. right. exact Hc.
  - right. apply IH; [exact Hds|]. intros d' col Hd' Hcol.
    apply (Hne d' col); [right; exact Hd' | exact Hcol].
Qed.

End CompletedFacts.

(** X21: a run that completes had what it needs: [info_cols] has no entry
    [res_key] and has the names [utc], [cet] and [marker]; some table has a
    data column; every column has a first header value, and every data
    column has its project, region and type codes listed in the tables and
    has a household and a feed. *)
Theorem X21_what_a_completed_run_implies
    (seed : list nat) (files files' : gmap string string)
    (data_sets : list (string * DataFrame)) (info_cols : gmap string string)
    (version changes : string) (headers : list string) (r : yaml) :
  make_json seed files data_sets info_cols version changes headers
  = Ok (r, files') ->
  info_cols !! "res_key" = None /\ first_missing_name info_cols = None /\
  has_data_col info_cols data_sets = true /\
  forall res_key df col,
    (res_key, df) ∈ data_sets -> col ∈ columns df ->
    col <> [] /\
    (is_data_col info_cols col = true ->
     first_lookup_error (build_h headers col) = None /\
     first_missing_level (build_h headers col) = None).
Proof.
  unfold make_json. intros H. apply bind_ok in H as (doc & Hdoc & _).
  unfold build_metadata in Hdoc.
  fold (run_loops data_sets info_cols headers) in Hdoc.
  apply bind_ok in Hdoc as ([[rl sl] sd] & Hrun & Hdoc).
  apply bind_ok in Hdoc as (sources & Hsrc & _).
  assert (Hcols : forall res_key df col,
             (res_key, df) ∈ data_sets -> col ∈ columns df ->
             col <> [] /\
             (is_data_col info_cols col = true ->
              first_lookup_error (build_h headers col) = None /\
              first_missing_level (build_h headers col) = None)).
  { intros res_key df col Hd Hcol.
    destruct (CompletedFacts.foldM_ok_each _ _ _ _ _ Hrun Hd)
      as (s1 & s2 & Hds).
    destruct (CompletedFacts.process_dataset_ok _ _ _ _ _ _ Hds)
      as (_ & _ & Hall).
    destruct (Hall col Hcol) as (c1 & c2 & Hc).
    apply (CompletedFacts.process_col_ok _ _ _ _ _ Hc). }
  assert (Hdata : has_data_col info_cols data_sets = true).
  { apply CompletedFacts.some_data_col.
    - destruct (no_data_columns info_cols data_sets) eqn:Hno; [|reflexivity].
      pose proof (run_loops_no_data _ _ _ _ _ Hno Hrun) as Hsl.
      cbn [fst snd] in Hsl. subst sl.
      rewrite dedup_sources_empty in Hsrc. discriminate.
    - intros [res_key df] col Hd Hcol. apply (Hcols res_key df col Hd Hcol). }
  destruct data_sets as [|[res_key df] rest]; [discriminate|].
  destruct (CompletedFacts.foldM_ok_each _ _ _ _ (res_key, df) Hrun)
    as (s1 & s2 & Hds); [left|].
  destruct (CompletedFacts.process_dataset_ok _ _ _ _ _ _ Hds)
    as (Hkey & Hnames & _).
  split; [exact Hkey|]. split; [exact Hnames|]. split; [exact Hdata|].
  exact Hcols.
Qed.

Lemma X21_witness :
  example_info_cols !! "res_key" = None /\
  first_missing_name example_info_cols = None /\
  has_data_col example_info_cols example_data_sets = true /\
  forall res_key df col,
    (res_key, df) ∈ example_data_sets -> col ∈ columns df ->
    col <> [] /\
    (is_data_col example_info_cols col = true ->
     first_lookup_error (build_h example_headers col) = None /\
     first_missing_level (build_h example_headers col) = None).
Proof.
  apply (X21_what_a_completed_run_implies [] ∅
           (<["datapackage.json" :=
                json_dumps (expected_doc example_data_sets example_info_cols
                              "2020-04-15" "first release" example_headers)]> ∅)
           example_data_sets example_info_cols "2020-04-15" "first release"
           example_headers YNull).
  vm_compute. reflexivity.
Defined.
